(** * OgreVulkanProgram: binding annotations, compilation glue, reflection
      and vertex-input matching of [Ogre::VulkanProgram]

    A shallow embedding of RenderSystems/Vulkan/src/OgreVulkanProgram.cpp.
    Unsigned C++ integers are [Z] with their wrap-around written out
    ([size_t] is taken to be 64 bits wide), [std::string] is [string],
    [std::map]/[unordered_map] are [gmap], vectors are lists.  Code that
    raises [OGRE_EXCEPT] returns an [Outcome] that carries the program
    state at the point of the throw. *)

From Stdlib Require Import ZArith List String Ascii Bool Lia.
From stdpp Require Import base option list gmap strings.

Local Open Scope Z_scope.

(** ** Machine integers *)

Definition wrap16 (z : Z) : Z := z mod 2 ^ 16.
Definition wrap32 (z : Z) : Z := z mod 2 ^ 32.
Definition wrap64 (z : Z) : Z := z mod 2 ^ 64.

(** [String::npos], i.e. [(size_t)-1]. *)
Definition npos : Z := 2 ^ 64 - 1.

(** [std::numeric_limits<uint16>::max()] and [..<uint32_t>::max()]. *)
Definition uint16_max : Z := 65535.
Definition uint32_max : Z := 2 ^ 32 - 1.

(** ** [std::string] operations used by the annotation scan *)

Definition size (s : string) : Z := Z.of_nat (String.length s).

(** Scan for [needle] in [s]; [skip] characters are still to be skipped and
    [idx] is the absolute position of the head of [s]. *)
Fixpoint find_from (needle s : string) (skip : nat) (idx : Z) : Z :=
  match skip with
  | S k =>
      match s with
      | String _ s' => find_from needle s' k (idx + 1)
      | EmptyString => npos
      end
  | O =>
      if String.prefix needle s then idx
      else match s with
           | String _ s' => find_from needle s' O (idx + 1)
           | EmptyString => npos
           end
  end.

(** [s.find( needle, pos )]: the lowest position [>= pos] at which [needle]
    occurs, [npos] when there is none (in particular when [pos > s.size()]). *)
Definition find (needle s : string) (pos : Z) : Z :=
  if size s <? pos then npos else find_from needle s (Z.to_nat pos) 0.

(** [s.find( c, pos )] for a single character. *)
Definition find_char (c : ascii) (s : string) (pos : Z) : Z :=
  find (String c EmptyString) s pos.

(** [s.substr( pos, n )]: the characters [pos, min(pos+n, size)).  The C++
    call throws [std::out_of_range] when [pos > size]; every call below has
    [pos <= size] (see [find_bounds]), the model returns the empty string
    otherwise. *)
Definition substr (s : string) (pos n : Z) : string :=
  if size s <? pos then EmptyString
  else String.substring (Z.to_nat pos) (Z.to_nat (Z.min n (size s - pos))) s.

(** [&s[pos]] read as a C string: the characters from [pos] to the end. *)
Definition c_str_from (s : string) (pos : Z) : string :=
  substr s pos (size s).

(** [s[pos]]; the terminating NUL is read at [pos = size]. *)
Definition char_at (s : string) (pos : Z) : ascii :=
  match String.get (Z.to_nat pos) s with
  | Some c => c
  | None => zero
  end.

Definition is_digit (c : ascii) : bool :=
  let n := Z.of_N (N_of_ascii c) in (48 <=? n) && (n <=? 57).

(** [isspace] in the C locale: space, and \t \n \v \f \r. *)
Definition is_space (c : ascii) : bool :=
  let n := Z.of_N (N_of_ascii c) in (n =? 32) || ((9 <=? n) && (n <=? 13)).

Fixpoint atoi_digits (s : string) (acc : Z) : Z :=
  match s with
  | String c s' =>
      if is_digit c then atoi_digits s' (acc * 10 + (Z.of_N (N_of_ascii c) - 48))
      else acc
  | EmptyString => acc
  end.

Fixpoint atoi_skip (s : string) : string :=
  match s with
  | String c s' => if is_space c then atoi_skip s' else s
  | EmptyString => s
  end.

(** The conversion of a [long] to the [int] the source stores the result
    of [atoi] in: the low 32 bits, read as two's complement. *)
Definition to_int (z : Z) : Z := (z + 2 ^ 31) mod 2 ^ 32 - 2 ^ 31.

(** [strtol( s, NULL, 10 )]: leading white space, an optional sign, then
    decimal digits up to the first other character; 0 when there is no
    digit; a value outside [long] saturates at [LONG_MIN] or [LONG_MAX]. *)
Definition strtol (s : string) : Z :=
  let value := match atoi_skip s with
               | String "-" s' => - atoi_digits s' 0
               | String "+" s' => atoi_digits s' 0
               | s' => atoi_digits s' 0
               end in
  Z.max (- 2 ^ 63) (Z.min (2 ^ 63 - 1) value).

(** C's [atoi], which is [(int) strtol( s, NULL, 10 )]: a number that does
    not fit [int] is narrowed, so ["4294967296"] reads as 0 and
    ["4294967297"] as 1.  (The C standard leaves that case undefined; this
    is what the library the engine is built against does.) *)
Definition atoi (s : string) : Z := to_int (strtol s).

(** End-of-line character ['\n']. *)
Definition nl : ascii := ascii_of_nat 10.

(** ** The binding range table *)

Module VulkanDescBindingRange.

(** [struct VulkanDescBindingRange { uint16 start; uint16 end; }];
    the field [end] is spelled [end_]. *)
Record t := mk { start : Z; end_ : Z }.

(** The default constructor. *)
Definition ctor : t := {| start := uint16_max; end_ := 0 |}.

(** [merge( uint16 idx )]: [idx + 1u] is computed as [unsigned] and then
    narrowed to [uint16] by [std::max<uint16>]. *)
Definition merge (idx : Z) (r : t) : t :=
  {| start := Z.min idx (start r);
     end_ := Z.max (wrap16 (idx + 1)) (end_ r) |}.

(** Both fields are representable in 16 bits. *)
Definition wf (r : t) : Prop :=
  0 <= start r <= uint16_max /\ 0 <= end_ r <= uint16_max.

End VulkanDescBindingRange.

#[global] Instance VulkanDescBindingRange_eq_dec : EqDecision VulkanDescBindingRange.t.
Proof. solve_decision. Defined.

(** [VulkanDescBindingTypes::NumDescBindingTypes]: the enum is declared in
    OgreVulkanPrerequisites.h; its eight values are the positions of the
    letter table ["s tuT BU"] below. *)
Definition NumDescBindingTypes : Z := 8.

Definition c_ogreSetKeyword : string := "ogre_set".
Definition c_ogreTypeKeyword : string := "ogre_".
Definition bufferTypes : string := "s tuT BU".
(** [sizeof( bufferTypes ) - 1u]. *)
Definition numBufferTypes : Z := 8.

(** [LwConstString::find_first_of( char )] over [bufferTypes] (declared in
    OgreLwConstString.h): the index of the first occurrence of the letter, a
    value [>= numBufferTypes] when it does not occur. *)
Definition find_first_of (letters : string) (c : ascii) : Z :=
  find_char c letters 0.

(** ** Engine and library data the program works on *)

Inductive GpuProgramType :=
| GPT_VERTEX_PROGRAM | GPT_FRAGMENT_PROGRAM | GPT_GEOMETRY_PROGRAM
| GPT_HULL_PROGRAM | GPT_DOMAIN_PROGRAM | GPT_COMPUTE_PROGRAM.

Inductive EShLanguage :=
| EShLangVertex | EShLangTessControl | EShLangTessEvaluation
| EShLangGeometry | EShLangFragment | EShLangCompute.

(** [enum GpuConstantType] (OgreGpuProgramParams.h): the values this file
    names, and [GCT_OTHER] for every other value of the enum. *)
Inductive GpuConstantType :=
| GCT_FLOAT1 | GCT_FLOAT2 | GCT_FLOAT3 | GCT_FLOAT4
| GCT_INT1 | GCT_INT2 | GCT_INT3 | GCT_INT4
| GCT_MATRIX_2X2 | GCT_MATRIX_2X3 | GCT_MATRIX_2X4
| GCT_MATRIX_3X2 | GCT_MATRIX_3X3 | GCT_MATRIX_3X4
| GCT_MATRIX_4X2 | GCT_MATRIX_4X3 | GCT_MATRIX_4X4
| GCT_SAMPLER1D | GCT_SAMPLER2D
| GCT_UNKNOWN
| GCT_OTHER (n : Z).

#[global] Instance GpuConstantType_eq_dec : EqDecision GpuConstantType.
Proof. solve_decision. Defined.

(** [GPV_GLOBAL] of [enum GpuParamVariability]. *)
Definition GPV_GLOBAL : Z := 1.

(** [struct GpuConstantDefinition]; the index and size fields are [size_t]. *)
Record GpuConstantDefinition := mkDef {
  constType : GpuConstantType;
  physicalIndex : Z;
  logicalIndex : Z;
  elementSize : Z;
  arraySize : Z;
  variability : Z
}.

#[global] Instance GpuConstantDefinition_eq_dec : EqDecision GpuConstantDefinition.
Proof. solve_decision. Defined.

(** The default constructor of [GpuConstantDefinition] (OgreGpuProgramParams.h). *)
Definition GpuConstantDefinition_ctor : GpuConstantDefinition :=
  {| constType := GCT_UNKNOWN; physicalIndex := npos; logicalIndex := 0;
     elementSize := 0; arraySize := 1; variability := GPV_GLOBAL |}.

(** [struct GpuLogicalIndexUse( physicalIndex, currentSize, variability )]. *)
Record GpuLogicalIndexUse := mkUse {
  use_physicalIndex : Z;
  use_currentSize : Z;
  use_variability : Z
}.

(** [struct GpuLogicalBufferStruct]: a [std::map] from logical index to its
    use, and the running size of the physical buffer. *)
Record GpuLogicalBufferStruct := mkLogical {
  lmap : gmap Z GpuLogicalIndexUse;
  bufferSize : Z
}.

(** [struct GpuNamedConstants]: the published buffer sizes and the
    name-keyed [std::map] of definitions. *)
Record GpuNamedConstants := mkNamed {
  floatBufferSize : Z;
  uintBufferSize : Z;
  intBufferSize : Z;
  cmap : gmap string GpuConstantDefinition
}.

Record VulkanConstantDefinitionBindingParam := mkBindingParam {
  bp_offset : Z;
  bp_size : Z
}.

(** [VkVertexInputAttributeDescription]. *)
Record VkVertexInputAttributeDescription := mkAttr {
  location : Z;
  attr_binding : Z;
  format : Z;
  offset : Z
}.

Inductive VkVertexInputRate :=
| VK_VERTEX_INPUT_RATE_VERTEX
| VK_VERTEX_INPUT_RATE_INSTANCE
| VK_VERTEX_INPUT_RATE_MAX_ENUM.

#[global] Instance VkVertexInputRate_eq_dec : EqDecision VkVertexInputRate.
Proof. solve_decision. Defined.

(** [VkVertexInputBindingDescription]. *)
Record VkVertexInputBindingDescription := mkBindingDesc {
  desc_binding : Z;
  stride : Z;
  inputRate : VkVertexInputRate
}.

(** The semantics of [enum VertexElementSemantic] are opaque numbers except
    for [VES_TEXTURE_COORDINATES], the one this file tests for. *)
Inductive VertexElementSemantic :=
| VES_TEXTURE_COORDINATES
| VES_OTHER (n : Z).

#[global] Instance VertexElementSemantic_eq_dec : EqDecision VertexElementSemantic.
Proof. solve_decision. Defined.

(** [struct VertexElement2]; [mType] is the numeric [VertexElementType]. *)
Record VertexElement2 := mkElement {
  mType : Z;
  mSemantic : VertexElementSemantic;
  mInstancingStepRate : Z
}.

(** *** SPIRV-Reflect structures (spirv_reflect.h), the fields read here *)

Definition SPV_REFLECT_RESULT_SUCCESS : Z := 0.

Definition SPV_REFLECT_TYPE_FLAG_INT : Z := 0x00000004.
Definition SPV_REFLECT_TYPE_FLAG_FLOAT : Z := 0x00000008.
Definition SPV_REFLECT_TYPE_FLAG_VECTOR : Z := 0x00000100.
Definition SPV_REFLECT_TYPE_FLAG_STRUCT : Z := 0x10000000.
Definition SPV_REFLECT_TYPE_FLAG_ARRAY : Z := 0x20000000.

(** [flags & FLAG] used as a condition. *)
Definition has_flag (flags flag : Z) : bool := negb (Z.land flags flag =? 0).

Record SpvReflectBlockVariable := mkBlockVariable {
  bv_name : string;
  bv_op : Z;                      (* type_description->op *)
  bv_type_flags : Z;              (* type_description->type_flags *)
  matrix_row_count : Z;           (* numeric.matrix.row_count *)
  matrix_column_count : Z;        (* numeric.matrix.column_count *)
  vector_component_count : Z;     (* numeric.vector.component_count *)
  array_stride : Z;               (* array.stride *)
  array_dims_count : Z            (* array.dims_count *)
}.

Record SpvReflectDescriptorBinding := mkBinding {
  binding : Z;
  descriptor_type : Z;
  block_offset : Z;
  block_size : Z;
  block_members : list SpvReflectBlockVariable;
  db_name : string;
  db_type_name : string;          (* type_description->type_name *)
  db_array_dims_count : Z
}.

Record SpvReflectDescriptorSet := mkSet {
  bindings : list SpvReflectDescriptorBinding
}.

Record SpvReflectInterfaceVariable := mkInterfaceVariable {
  iv_location : Z;
  iv_format : Z
}.

(** [VkDescriptorType] values (vulkan_core.h). *)
Definition VK_DESCRIPTOR_TYPE_SAMPLER : Z := 0.
Definition VK_DESCRIPTOR_TYPE_COMBINED_IMAGE_SAMPLER : Z := 1.
Definition VK_DESCRIPTOR_TYPE_UNIFORM_TEXEL_BUFFER : Z := 4.
Definition VK_DESCRIPTOR_TYPE_UNIFORM_BUFFER : Z := 6.

Definition VK_SUCCESS : Z := 0.
(** [VK_FORMAT_R32_UINT]. *)
Definition VK_FORMAT_R32_UINT : Z := 98.

(** ** Diagnostics and errors *)

(** Messages handed to [LogManager::logMessage].  The annotation diagnostics
    carry the source excerpt they print after "near:". *)
Inductive LogEntry :=
| LogInvalidSetSyntax (near : string)
| LogSetOutOfRange (near : string)
| LogExpectingType (near : string)
| LogExpectingPossibleValues
| LogPossibleValue (letter : ascii)
| LogWhereNIsANumber (near : string)
| LogSlotOutOfRange (letter : ascii)
| LogNear (near : string)
| LogGlslCompilerError
| LogGlslLinkerError
| LogShaderMessages
| LogLinkerMessages
| LogNoIntermediate
| LogGlslToSpirv
| LogCompiledSuccessfully.

(** The [OGRE_EXCEPT( Exception::ERR_RENDERINGAPI_ERROR, ... )] sites of the
    file, and the error [checkVkResult] raises. *)
Inductive OgreException :=
| ExcFailedToCompile
| ExcVkCreateShaderModule (result : Z)
| ExcSpvReflectCreateShaderModule (result : Z)
| ExcSpvReflectEnumerateDescriptorSets (result : Z)
| ExcSpvReflectEnumerateInputVariables (result : Z)
| ExcInvalidFloatVectorComponentCount
| ExcInvalidIntVectorComponentCount
| ExcInstancingStepRate
| ExcMixedVertexAndInstanceRate
| ExcMissingInputAttribute.

(** What a call leaves behind: a value, or a raised exception, each with
    the state at that point. *)
Inductive Outcome (S A : Type) : Type :=
| Returns (a : A) (s : S)
| Raises (e : OgreException) (s : S).
Arguments Returns {S A} a s.
Arguments Raises {S A} e s.

Definition M (S A : Type) : Type := S -> Outcome S A.

Definition ret {S A} (a : A) : M S A := fun s => Returns a s.
Definition raise {S A} (e : OgreException) : M S A := fun s => Raises e s.
Definition bind {S A B} (m : M S A) (k : A -> M S B) : M S B :=
  fun s => match m s with
           | Returns a s' => k a s'
           | Raises e s' => Raises e s'
           end.
Definition get {S} : M S S := fun s => Returns s s.
Definition modify {S} (f : S -> S) : M S unit := fun s => Returns tt (f s).
Definition when {S} (b : bool) (m : M S unit) : M S unit :=
  if b then m else ret tt.

Notation "x <- m ;; k" := (bind m (fun x => k))
  (at level 100, m at next level, right associativity).
Notation "m ;;; k" := (bind m (fun _ => k))
  (at level 100, right associativity).

Definition state_of {S A} (o : Outcome S A) : S :=
  match o with Returns _ s => s | Raises _ s => s end.

Definition raised {S A} (o : Outcome S A) : bool :=
  match o with Returns _ _ => false | Raises _ _ => true end.

(** ** Collaborators declared outside this file

    Constants, device limits and the functions of glslang, Vulkan,
    SPIRV-Reflect and the engine that the program calls.  They are taken as
    given: every statement below holds for all of them. *)
Class Collaborators := {
  (** OgreVulkanPrerequisites.h *)
  OGRE_VULKAN_MAX_NUM_BOUND_DESCRIPTOR_SETS : Z;
  OGRE_VULKAN_PARAMETER_SLOT : Z;
  (** [mDevice->mDeviceProperties.limits.minUniformBufferOffsetAlignment] *)
  minUniformBufferOffsetAlignment : Z;
  (** [alignMemory( offset, alignment )] *)
  alignMemory : Z -> Z -> Z;
  (** glslang: [TShader::parse], [TProgram::link], whether
      [TProgram::getIntermediate] is non-null, and [GlslangToSpv] *)
  shader_parse : string -> EShLanguage -> bool;
  program_link : string -> EShLanguage -> bool;
  program_getIntermediate : string -> EShLanguage -> bool;
  GlslangToSpv : string -> EShLanguage -> list Z;
  (** [vkCreateShaderModule]: the result code and the handle written *)
  vkCreateShaderModule : list Z -> Z * Z;
  (** SPIRV-Reflect: result code and what the call hands back *)
  spvReflectCreateShaderModule : list Z -> Z * (list SpvReflectDescriptorSet * list SpvReflectInterfaceVariable);
  spvReflectEnumerateDescriptorSets :
    list SpvReflectDescriptorSet * list SpvReflectInterfaceVariable -> Z * list SpvReflectDescriptorSet;
  spvReflectEnumerateInputVariables :
    list SpvReflectDescriptorSet * list SpvReflectInterfaceVariable -> Z * list SpvReflectInterfaceVariable;
  (** [VulkanMappings::get( SpvOp )] and [VulkanMappings::get( VertexElementType )] *)
  VulkanMappings_get_op : Z -> GpuConstantType;
  VulkanMappings_get_type : Z -> Z;
  (** [GpuConstantDefinition::isFloat], [isUnsignedInt], [getElementSize] *)
  isFloat : GpuConstantType -> bool;
  isUnsignedInt : GpuConstantType -> bool;
  getElementSize : GpuConstantType -> bool -> Z;
  (** [GpuNamedConstants::generateConstantDefinitionArrayEntries] *)
  generateConstantDefinitionArrayEntries :
    string -> GpuConstantDefinition -> GpuNamedConstants -> GpuNamedConstants;
  (** [VulkanVaoManager::getAttributeIndexFor], [v1::VertexElement::getTypeSize] *)
  getAttributeIndexFor : VertexElementSemantic -> Z;
  getTypeSize : Z -> Z
}.

(** [SpvReflectShaderModule]: the descriptor sets and the input variables
    the reflection calls enumerate. *)
Definition SpvReflectShaderModule : Type :=
  (list SpvReflectDescriptorSet * list SpvReflectInterfaceVariable)%type.

(** ** The program object *)

(** The members of [VulkanProgram] this file reads or writes, and what it
    reaches through pointers and singletons: the named constants and the
    three shared logical-to-physical structures, the messages sent to the
    [LogManager], and the SPIR-V handed to each [vkCreateShaderModule] call on
    [mDevice]. *)
Record VulkanProgram := mkProgram {
  mName : string;
  mSource : string;
  mType_ : GpuProgramType;
  mCompiled : bool;
  mCompileError : bool;
  mSpirv : list Z;
  mShaderModule : Z;
  mDescBindingRanges : list (list VulkanDescBindingRange.t);
  mNumSystemGenVertexInputs : Z;
  mVertexInputs : list VkVertexInputAttributeDescription;
  mConstantDefsSorted : list GpuConstantDefinition;
  mConstantDefsBindingParams : gmap Z VulkanConstantDefinitionBindingParam;
  mConstantsBytesToWrite : Z;
  mConstantDefs : GpuNamedConstants;
  mFloatLogicalToPhysical : GpuLogicalBufferStruct;
  mUIntLogicalToPhysical : GpuLogicalBufferStruct;
  mIntLogicalToPhysical : GpuLogicalBufferStruct;
  logMessages : list LogEntry;
  vkCreateShaderModuleCalls : list (list Z)
}.

Definition set_mCompiled (v : bool) (p : VulkanProgram) : VulkanProgram :=
  mkProgram (mName p) (mSource p) (mType_ p) v (mCompileError p) (mSpirv p)
    (mShaderModule p) (mDescBindingRanges p) (mNumSystemGenVertexInputs p)
    (mVertexInputs p) (mConstantDefsSorted p) (mConstantDefsBindingParams p)
    (mConstantsBytesToWrite p) (mConstantDefs p) (mFloatLogicalToPhysical p)
    (mUIntLogicalToPhysical p) (mIntLogicalToPhysical p) (logMessages p)
    (vkCreateShaderModuleCalls p).

Definition set_mCompileError (v : bool) (p : VulkanProgram) : VulkanProgram :=
  mkProgram (mName p) (mSource p) (mType_ p) (mCompiled p) v (mSpirv p)
    (mShaderModule p) (mDescBindingRanges p) (mNumSystemGenVertexInputs p)
    (mVertexInputs p) (mConstantDefsSorted p) (mConstantDefsBindingParams p)
    (mConstantsBytesToWrite p) (mConstantDefs p) (mFloatLogicalToPhysical p)
    (mUIntLogicalToPhysical p) (mIntLogicalToPhysical p) (logMessages p)
    (vkCreateShaderModuleCalls p).

Definition set_mSpirv (v : list Z) (p : VulkanProgram) : VulkanProgram :=
  mkProgram (mName p) (mSource p) (mType_ p) (mCompiled p) (mCompileError p) v
    (mShaderModule p) (mDescBindingRanges p) (mNumSystemGenVertexInputs p)
    (mVertexInputs p) (mConstantDefsSorted p) (mConstantDefsBindingParams p)
    (mConstantsBytesToWrite p) (mConstantDefs p) (mFloatLogicalToPhysical p)
    (mUIntLogicalToPhysical p) (mIntLogicalToPhysical p) (logMessages p)
    (vkCreateShaderModuleCalls p).

Definition set_mShaderModule (v : Z) (p : VulkanProgram) : VulkanProgram :=
  mkProgram (mName p) (mSource p) (mType_ p) (mCompiled p) (mCompileError p) (mSpirv p)
    v (mDescBindingRanges p) (mNumSystemGenVertexInputs p) (mVertexInputs p)
    (mConstantDefsSorted p) (mConstantDefsBindingParams p) (mConstantsBytesToWrite p)
    (mConstantDefs p) (mFloatLogicalToPhysical p) (mUIntLogicalToPhysical p)
    (mIntLogicalToPhysical p) (logMessages p) (vkCreateShaderModuleCalls p).

Definition set_mDescBindingRanges (v : list (list VulkanDescBindingRange.t)) (p : VulkanProgram) : VulkanProgram :=
  mkProgram (mName p) (mSource p) (mType_ p) (mCompiled p) (mCompileError p) (mSpirv p)
    (mShaderModule p) v (mNumSystemGenVertexInputs p) (mVertexInputs p)
    (mConstantDefsSorted p) (mConstantDefsBindingParams p) (mConstantsBytesToWrite p)
    (mConstantDefs p) (mFloatLogicalToPhysical p) (mUIntLogicalToPhysical p)
    (mIntLogicalToPhysical p) (logMessages p) (vkCreateShaderModuleCalls p).

Definition set_mNumSystemGenVertexInputs (v : Z) (p : VulkanProgram) : VulkanProgram :=
  mkProgram (mName p) (mSource p) (mType_ p) (mCompiled p) (mCompileError p) (mSpirv p)
    (mShaderModule p) (mDescBindingRanges p) v (mVertexInputs p) (mConstantDefsSorted p)
    (mConstantDefsBindingParams p) (mConstantsBytesToWrite p) (mConstantDefs p)
    (mFloatLogicalToPhysical p) (mUIntLogicalToPhysical p) (mIntLogicalToPhysical p)
    (logMessages p) (vkCreateShaderModuleCalls p).

Definition set_mVertexInputs (v : list VkVertexInputAttributeDescription) (p : VulkanProgram) : VulkanProgram :=
  mkProgram (mName p) (mSource p) (mType_ p) (mCompiled p) (mCompileError p) (mSpirv p)
    (mShaderModule p) (mDescBindingRanges p) (mNumSystemGenVertexInputs p) v
    (mConstantDefsSorted p) (mConstantDefsBindingParams p) (mConstantsBytesToWrite p)
    (mConstantDefs p) (mFloatLogicalToPhysical p) (mUIntLogicalToPhysical p)
    (mIntLogicalToPhysical p) (logMessages p) (vkCreateShaderModuleCalls p).

Definition set_mConstantDefsSorted (v : list GpuConstantDefinition) (p : VulkanProgram) : VulkanProgram :=
  mkProgram (mName p) (mSource p) (mType_ p) (mCompiled p) (mCompileError p) (mSpirv p)
    (mShaderModule p) (mDescBindingRanges p) (mNumSystemGenVertexInputs p)
    (mVertexInputs p) v (mConstantDefsBindingParams p) (mConstantsBytesToWrite p)
    (mConstantDefs p) (mFloatLogicalToPhysical p) (mUIntLogicalToPhysical p)
    (mIntLogicalToPhysical p) (logMessages p) (vkCreateShaderModuleCalls p).

Definition set_mConstantDefsBindingParams (v : gmap Z VulkanConstantDefinitionBindingParam) (p : VulkanProgram) : VulkanProgram :=
  mkProgram (mName p) (mSource p) (mType_ p) (mCompiled p) (mCompileError p) (mSpirv p)
    (mShaderModule p) (mDescBindingRanges p) (mNumSystemGenVertexInputs p)
    (mVertexInputs p) (mConstantDefsSorted p) v (mConstantsBytesToWrite p)
    (mConstantDefs p) (mFloatLogicalToPhysical p) (mUIntLogicalToPhysical p)
    (mIntLogicalToPhysical p) (logMessages p) (vkCreateShaderModuleCalls p).

Definition set_mConstantsBytesToWrite (v : Z) (p : VulkanProgram) : VulkanProgram :=
  mkProgram (mName p) (mSource p) (mType_ p) (mCompiled p) (mCompileError p) (mSpirv p)
    (mShaderModule p) (mDescBindingRanges p) (mNumSystemGenVertexInputs p)
    (mVertexInputs p) (mConstantDefsSorted p) (mConstantDefsBindingParams p) v
    (mConstantDefs p) (mFloatLogicalToPhysical p) (mUIntLogicalToPhysical p)
    (mIntLogicalToPhysical p) (logMessages p) (vkCreateShaderModuleCalls p).

Definition set_mConstantDefs (v : GpuNamedConstants) (p : VulkanProgram) : VulkanProgram :=
  mkProgram (mName p) (mSource p) (mType_ p) (mCompiled p) (mCompileError p) (mSpirv p)
    (mShaderModule p) (mDescBindingRanges p) (mNumSystemGenVertexInputs p)
    (mVertexInputs p) (mConstantDefsSorted p) (mConstantDefsBindingParams p)
    (mConstantsBytesToWrite p) v (mFloatLogicalToPhysical p) (mUIntLogicalToPhysical p)
    (mIntLogicalToPhysical p) (logMessages p) (vkCreateShaderModuleCalls p).

Definition set_mFloatLogicalToPhysical (v : GpuLogicalBufferStruct) (p : VulkanProgram) : VulkanProgram :=
  mkProgram (mName p) (mSource p) (mType_ p) (mCompiled p) (mCompileError p) (mSpirv p)
    (mShaderModule p) (mDescBindingRanges p) (mNumSystemGenVertexInputs p)
    (mVertexInputs p) (mConstantDefsSorted p) (mConstantDefsBindingParams p)
    (mConstantsBytesToWrite p) (mConstantDefs p) v (mUIntLogicalToPhysical p)
    (mIntLogicalToPhysical p) (logMessages p) (vkCreateShaderModuleCalls p).

Definition set_mUIntLogicalToPhysical (v : GpuLogicalBufferStruct) (p : VulkanProgram) : VulkanProgram :=
  mkProgram (mName p) (mSource p) (mType_ p) (mCompiled p) (mCompileError p) (mSpirv p)
    (mShaderModule p) (mDescBindingRanges p) (mNumSystemGenVertexInputs p)
    (mVertexInputs p) (mConstantDefsSorted p) (mConstantDefsBindingParams p)
    (mConstantsBytesToWrite p) (mConstantDefs p) (mFloatLogicalToPhysical p) v
    (mIntLogicalToPhysical p) (logMessages p) (vkCreateShaderModuleCalls p).

Definition set_mIntLogicalToPhysical (v : GpuLogicalBufferStruct) (p : VulkanProgram) : VulkanProgram :=
  mkProgram (mName p) (mSource p) (mType_ p) (mCompiled p) (mCompileError p) (mSpirv p)
    (mShaderModule p) (mDescBindingRanges p) (mNumSystemGenVertexInputs p)
    (mVertexInputs p) (mConstantDefsSorted p) (mConstantDefsBindingParams p)
    (mConstantsBytesToWrite p) (mConstantDefs p) (mFloatLogicalToPhysical p)
    (mUIntLogicalToPhysical p) v (logMessages p) (vkCreateShaderModuleCalls p).

(** [LogManager::getSingleton().logMessage( ... )]. *)
Definition logMessage (v : LogEntry) (p : VulkanProgram) : VulkanProgram :=
  mkProgram (mName p) (mSource p) (mType_ p) (mCompiled p) (mCompileError p) (mSpirv p)
    (mShaderModule p) (mDescBindingRanges p) (mNumSystemGenVertexInputs p)
    (mVertexInputs p) (mConstantDefsSorted p) (mConstantDefsBindingParams p)
    (mConstantsBytesToWrite p) (mConstantDefs p) (mFloatLogicalToPhysical p)
    (mUIntLogicalToPhysical p) (mIntLogicalToPhysical p) (logMessages p ++ [v])
    (vkCreateShaderModuleCalls p).

(** A [vkCreateShaderModule] call on [mDevice] with the code [v]. *)
Definition call_vkCreateShaderModule (v : list Z) (p : VulkanProgram) : VulkanProgram :=
  mkProgram (mName p) (mSource p) (mType_ p) (mCompiled p) (mCompileError p) (mSpirv p)
    (mShaderModule p) (mDescBindingRanges p) (mNumSystemGenVertexInputs p)
    (mVertexInputs p) (mConstantDefsSorted p) (mConstantDefsBindingParams p)
    (mConstantsBytesToWrite p) (mConstantDefs p) (mFloatLogicalToPhysical p)
    (mUIntLogicalToPhysical p) (mIntLogicalToPhysical p) (logMessages p)
    (vkCreateShaderModuleCalls p ++ [v]).
Section Program.

Context {ext : Collaborators}.

(** ** [VulkanProgram::getEshLanguage] *)
Definition getEshLanguage (p : VulkanProgram) : EShLanguage :=
  match mType_ p with
  | GPT_VERTEX_PROGRAM => EShLangVertex
  | GPT_FRAGMENT_PROGRAM => EShLangFragment
  | GPT_GEOMETRY_PROGRAM => EShLangGeometry
  | GPT_HULL_PROGRAM => EShLangTessControl
  | GPT_DOMAIN_PROGRAM => EShLangTessEvaluation
  | GPT_COMPUTE_PROGRAM => EShLangCompute
  end.

(** ** [VulkanProgram::parseNumBindingsFromSource] *)

(** The table after the reset loop: every cell default-constructed. *)
Definition freshBindingRanges : list (list VulkanDescBindingRange.t) :=
  replicate (Z.to_nat OGRE_VULKAN_MAX_NUM_BOUND_DESCRIPTOR_SETS)
            (replicate (Z.to_nat NumDescBindingTypes) VulkanDescBindingRange.ctor).

(** [mDescBindingRanges[iSetNum][letterIdx].merge( buffIdx )]. *)
Definition mergeAt (iSetNum letterIdx buffIdx : Z)
    (tbl : list (list VulkanDescBindingRange.t)) : list (list VulkanDescBindingRange.t) :=
  alter (alter (VulkanDescBindingRange.merge buffIdx) (Z.to_nat letterIdx))
        (Z.to_nat iSetNum) tbl.

(** [mSource.substr( startPos, std::min( startPos + 64u, mSource.size() - startPos ) )]. *)
Definition near (src : string) (startPos : Z) : string :=
  substr src startPos (Z.min (wrap64 (startPos + 64)) (wrap64 (size src - startPos))).

(** The messages of the "expecting possible values" diagnostic: one line
    per letter of [bufferTypes] that is not a blank. *)
Definition possibleValues : list LogEntry :=
  map LogPossibleValue
      (filter (fun c => c <> " "%char) (list_ascii_of_string bufferTypes)).

(** What one turn of the [while] loop finds at [startPos]: a diagnostic (the
    function returns), or a slot to merge and the position the search
    resumes from. *)
Inductive Annotation :=
| Rejected (msgs : list LogEntry)
| Accepted (iSetNum letterIdx buffIdx next : Z).

Definition annotationAt (src : string) (startPos : Z) : Annotation :=
  let pos := wrap64 (startPos + size c_ogreSetKeyword) in
  let eolMarkerPos := find_char nl src pos in
  let endPos0 := find_char "," src pos in
  let endPos1 := find_char ")" src pos in
  let endPos := Z.min endPos0 endPos1 in
  if (endPos =? npos) || ((eolMarkerPos <=? endPos) && negb (eolMarkerPos =? npos))
  then Rejected [LogInvalidSetSyntax (near src startPos)]
  else
    let setNumStr := substr src pos (wrap64 (endPos - pos)) in
    let iSetNum := atoi setNumStr in
    if (iSetNum <? 0) || (OGRE_VULKAN_MAX_NUM_BOUND_DESCRIPTOR_SETS <=? iSetNum)
    then Rejected [LogSetOutOfRange (near src startPos)]
    else
      let lineStr := substr src pos (wrap64 (eolMarkerPos - pos)) in
      let typeStartPos := find c_ogreTypeKeyword lineStr 0 in
      let typePos := wrap64 (typeStartPos + size c_ogreTypeKeyword) in
      if (typeStartPos =? npos) || (wrap64 (size lineStr - 1) <=? typePos)
      then Rejected [LogExpectingType (near src startPos)]
      else
        let typeLetter := char_at lineStr typePos in
        let letterIdx := find_first_of bufferTypes typeLetter in
        if (numBufferTypes <=? letterIdx) || bool_decide (typeLetter = " "%char)
        then Rejected ([LogExpectingPossibleValues] ++ possibleValues
                         ++ [LogWhereNIsANumber (near src startPos)])
        else
          let buffIdx := atoi (c_str_from lineStr (wrap64 (typePos + 1))) in
          if (buffIdx <? 0) || (65535 <=? buffIdx)
          then Rejected [LogSlotOutOfRange typeLetter; LogNear (near src startPos)]
          else Accepted iSetNum letterIdx buffIdx
                        (find c_ogreSetKeyword src eolMarkerPos).

(** The loop [while( startPos != String::npos )].  Each turn resumes the
    search past the end of the line, so [fuel] bounds the turns by the
    length of the source ([parseLoop_unfold] shows it never runs out). *)
Fixpoint parseLoop (fuel : nat) (startPos : Z) (p : VulkanProgram) : VulkanProgram :=
  if startPos =? npos then p
  else
    match fuel with
    | O => p
    | S fuel' =>
        match annotationAt (mSource p) startPos with
        | Rejected msgs =>
            fold_left (fun q m => logMessage m q) msgs (set_mCompileError true p)
        | Accepted iSetNum letterIdx buffIdx next =>
            parseLoop fuel' next
              (set_mDescBindingRanges
                 (mergeAt iSetNum letterIdx (wrap16 buffIdx) (mDescBindingRanges p)) p)
        end
    end.

Definition parseNumBindingsFromSource (p : VulkanProgram) : VulkanProgram :=
  let p0 := set_mDescBindingRanges freshBindingRanges p in
  parseLoop (S (String.length (mSource p0)))
            (find c_ogreSetKeyword (mSource p0) 0) p0.

(** ** [VulkanProgram::gatherVertexInputs] *)

(** A [for]/[while] loop over a container whose body may raise. *)
Fixpoint forEach {S A : Type} (l : list A) (body : A -> M S unit) : M S unit :=
  match l with
  | [] => ret tt
  | x :: l' => body x ;;; forEach l' body
  end.

(** [std::sort( ..., SortByVertexInputLocation() )], by insertion: ascending
    [location].  Inputs with equal locations stay in discovery order here
    ([std::sort] leaves their relative order unspecified). *)
Fixpoint insertByLocation (a : VkVertexInputAttributeDescription)
    (l : list VkVertexInputAttributeDescription) : list VkVertexInputAttributeDescription :=
  match l with
  | [] => [a]
  | b :: l' => if location a <? location b then a :: b :: l'
               else b :: insertByLocation a l'
  end.

Definition sortByVertexInputLocation (l : list VkVertexInputAttributeDescription)
    : list VkVertexInputAttributeDescription :=
  fold_right insertByLocation [] l.

(** The body of the loop over [inputVars]. *)
Definition gatherInput (reflVar : SpvReflectInterfaceVariable) : M VulkanProgram unit :=
  let attrDesc := {| location := iv_location reflVar; attr_binding := 0;
                     format := iv_format reflVar; offset := 0 |} in
  when (location attrDesc =? uint32_max)
       (modify (fun p => set_mNumSystemGenVertexInputs
                           (wrap32 (mNumSystemGenVertexInputs p + 1)) p)) ;;;
  modify (fun p => set_mVertexInputs (mVertexInputs p ++ [attrDesc]) p).

Definition gatherVertexInputs (module : SpvReflectShaderModule) : M VulkanProgram unit :=
  modify (set_mNumSystemGenVertexInputs 0) ;;;
  modify (set_mVertexInputs []) ;;;
  (* the call that asks for the count *)
  let '(result, inputVars) := spvReflectEnumerateInputVariables module in
  if negb (result =? SPV_REFLECT_RESULT_SUCCESS)
  then raise (ExcSpvReflectEnumerateInputVariables result)
  else if Z.of_nat (length inputVars) =? 0 then ret tt
  else
    (* the call that fills [inputVars] *)
    let '(result, inputVars) := spvReflectEnumerateInputVariables module in
    if negb (result =? SPV_REFLECT_RESULT_SUCCESS)
    then raise (ExcSpvReflectEnumerateInputVariables result)
    else
      forEach inputVars gatherInput ;;;
      modify (fun p => set_mVertexInputs (sortByVertexInputLocation (mVertexInputs p)) p).

(** ** [VulkanProgram::compile] *)

Definition compile (checkErrors : bool) : M VulkanProgram bool :=
  modify (set_mCompiled false) ;;;
  modify (set_mCompileError false) ;;;
  modify parseNumBindingsFromSource ;;;
  p <- get ;;
  let stage := getEshLanguage p in
  let src := mSource p in
  (* shader.parse *)
  when (negb (mCompileError p) && negb (shader_parse src stage))
       (modify (logMessage LogGlslCompilerError) ;;; modify (set_mCompileError true)) ;;;
  (* program.link *)
  p <- get ;;
  when (negb (mCompileError p) && negb (program_link src stage))
       (modify (logMessage LogGlslLinkerError) ;;; modify (set_mCompileError true)) ;;;
  (* program.getIntermediate *)
  p <- get ;;
  when (negb (mCompileError p))
       (modify (logMessage LogShaderMessages) ;;;
        modify (logMessage LogLinkerMessages) ;;;
        when (negb (program_getIntermediate src stage))
             (modify (logMessage LogNoIntermediate) ;;; modify (set_mCompileError true))) ;;;
  modify (set_mSpirv []) ;;;
  p <- get ;;
  when (negb (mCompileError p))
       (modify (set_mSpirv (GlslangToSpv src stage)) ;;;
        modify (logMessage LogGlslToSpirv)) ;;;
  modify (fun p => set_mCompiled (negb (mCompileError p)) p) ;;;
  p <- get ;;
  when (negb (mCompileError p)) (modify (logMessage LogCompiledSuccessfully)) ;;;
  p <- get ;;
  when (negb (mCompiled p) && checkErrors) (raise ExcFailedToCompile) ;;;
  p <- get ;;
  when (mCompiled p && negb (bool_decide (mSpirv p = [])))
       (let '(result, handle) := vkCreateShaderModule (mSpirv p) in
        modify (call_vkCreateShaderModule (mSpirv p)) ;;;
        modify (set_mShaderModule handle) ;;;
        when (negb (result =? VK_SUCCESS)) (raise (ExcVkCreateShaderModule result))) ;;;
  p <- get ;;
  when (negb (bool_decide (mSpirv p = [])))
       (let '(result, module) := spvReflectCreateShaderModule (mSpirv p) in
        if negb (result =? SPV_REFLECT_RESULT_SUCCESS)
        then raise (ExcSpvReflectCreateShaderModule result)
        else gatherVertexInputs module) ;;;
  p <- get ;;
  ret (mCompiled p).

(** [VulkanProgram::loadFromSource]. *)
Definition loadFromSource : M VulkanProgram bool := compile true.

(** ** [VulkanProgram::buildConstantDefinitions] *)

(** [std::map::insert] / [unordered_map::insert]: an existing key keeps its
    value. *)
Definition map_insert_new {K V : Type} `{Countable K} (k : K) (v : V)
    (m : gmap K V) : gmap K V :=
  match m !! k with
  | Some _ => m
  | None => <[k := v]> m
  end.

(** A loop that threads a local variable through a body that may raise. *)
Fixpoint foldM {S A B : Type} (f : B -> A -> M S B) (b : B) (l : list A) : M S B :=
  match l with
  | [] => ret b
  | x :: l' => b' <- f b x ;; foldM f b' l'
  end.

(** The [if]/[else if] chain on [rowCount] and [columnCount]; a shape
    outside the chain keeps the incoming type. *)
Definition matrixConstantType (rowCount columnCount : Z)
    (constantType : GpuConstantType) : GpuConstantType :=
  if (rowCount =? 2) && (columnCount =? 2) then GCT_MATRIX_2X2
  else if (rowCount =? 2) && (columnCount =? 3) then GCT_MATRIX_2X3
  else if (rowCount =? 2) && (columnCount =? 4) then GCT_MATRIX_2X4
  else if (rowCount =? 3) && (columnCount =? 2) then GCT_MATRIX_3X2
  else if (rowCount =? 3) && (columnCount =? 3) then GCT_MATRIX_3X3
  else if (rowCount =? 3) && (columnCount =? 4) then GCT_MATRIX_3X4
  else if (rowCount =? 4) && (columnCount =? 2) then GCT_MATRIX_4X2
  else if (rowCount =? 4) && (columnCount =? 3) then GCT_MATRIX_4X3
  else if (rowCount =? 4) && (columnCount =? 4) then GCT_MATRIX_4X4
  else constantType.

(** How the type selection for one block member ends: with a type, with
    [continue] (no definition), or with a raised error. *)
Inductive MemberShape :=
| ShapeConst (t : GpuConstantType)
| ShapeContinue
| ShapeRaise (e : OgreException).

Definition memberShape (blockVariable : SpvReflectBlockVariable) : MemberShape :=
  let constantType := VulkanMappings_get_op (bv_op blockVariable) in
  let type_flags := bv_type_flags blockVariable in
  if bool_decide (constantType = GCT_MATRIX_4X4) then
    ShapeConst (matrixConstantType (matrix_row_count blockVariable)
                                   (matrix_column_count blockVariable) constantType)
  else if has_flag type_flags SPV_REFLECT_TYPE_FLAG_VECTOR then
    let componentCount := vector_component_count blockVariable in
    if has_flag type_flags SPV_REFLECT_TYPE_FLAG_FLOAT then
      match componentCount with
      | 1 => ShapeConst GCT_FLOAT1
      | 2 => ShapeConst GCT_FLOAT2
      | 3 => ShapeConst GCT_FLOAT3
      | 4 => ShapeConst GCT_FLOAT4
      | _ => ShapeRaise ExcInvalidFloatVectorComponentCount
      end
    else if has_flag type_flags SPV_REFLECT_TYPE_FLAG_INT then
      match componentCount with
      | 1 => ShapeConst GCT_INT1
      | 2 => ShapeConst GCT_INT2
      | 3 => ShapeConst GCT_INT3
      | 4 => ShapeConst GCT_INT4
      | _ => ShapeRaise ExcInvalidIntVectorComponentCount
      end
    else ShapeConst constantType
  else if has_flag type_flags SPV_REFLECT_TYPE_FLAG_STRUCT then ShapeContinue
  else ShapeConst constantType.

Definition set_physicalIndex (v : Z) (def : GpuConstantDefinition) : GpuConstantDefinition :=
  {| constType := constType def; physicalIndex := v; logicalIndex := logicalIndex def;
     elementSize := elementSize def; arraySize := arraySize def;
     variability := variability def |}.

(** [def.arraySize * def.elementSize] in [size_t]. *)
Definition defWords (def : GpuConstantDefinition) : Z :=
  wrap64 (arraySize def * elementSize def).

(** The append to one logical-to-physical structure: record the use under
    the logical index and advance the running size. *)
Definition appendUse (def : GpuConstantDefinition) (b : GpuLogicalBufferStruct)
    : GpuLogicalBufferStruct :=
  {| lmap := map_insert_new (logicalIndex def)
                            (mkUse (physicalIndex def) (defWords def) GPV_GLOBAL) (lmap b);
     bufferSize := wrap64 (bufferSize b + defWords def) |}.

Definition set_floatBufferSize (v : Z) (c : GpuNamedConstants) : GpuNamedConstants :=
  mkNamed v (uintBufferSize c) (intBufferSize c) (cmap c).
Definition set_uintBufferSize (v : Z) (c : GpuNamedConstants) : GpuNamedConstants :=
  mkNamed (floatBufferSize c) v (intBufferSize c) (cmap c).
Definition set_intBufferSize (v : Z) (c : GpuNamedConstants) : GpuNamedConstants :=
  mkNamed (floatBufferSize c) (uintBufferSize c) v (cmap c).
Definition set_cmap (v : gmap string GpuConstantDefinition) (c : GpuNamedConstants)
    : GpuNamedConstants :=
  mkNamed (floatBufferSize c) (uintBufferSize c) (intBufferSize c) v.

(** The three-way placement [if( def.isFloat() ) ... else if(
    def.isUnsignedInt() ) ... else ...]: the source writes it out once for
    block members and once for the other bindings.  Returns [def] with its
    physical index set. *)
Definition placeInBuffer (def : GpuConstantDefinition) : M VulkanProgram GpuConstantDefinition :=
  p <- get ;;
  if isFloat (constType def) then
    let def := set_physicalIndex (bufferSize (mFloatLogicalToPhysical p)) def in
    modify (fun p => set_mFloatLogicalToPhysical (appendUse def (mFloatLogicalToPhysical p)) p) ;;;
    modify (fun p => set_mConstantDefs
                       (set_floatBufferSize (bufferSize (mFloatLogicalToPhysical p))
                                            (mConstantDefs p)) p) ;;;
    ret def
  else if isUnsignedInt (constType def) then
    let def := set_physicalIndex (bufferSize (mUIntLogicalToPhysical p)) def in
    modify (fun p => set_mUIntLogicalToPhysical (appendUse def (mUIntLogicalToPhysical p)) p) ;;;
    modify (fun p => set_mConstantDefs
                       (set_uintBufferSize (bufferSize (mUIntLogicalToPhysical p))
                                           (mConstantDefs p)) p) ;;;
    ret def
  else
    let def := set_physicalIndex (bufferSize (mIntLogicalToPhysical p)) def in
    modify (fun p => set_mIntLogicalToPhysical (appendUse def (mIntLogicalToPhysical p)) p) ;;;
    modify (fun p => set_mConstantDefs
                       (set_intBufferSize (bufferSize (mIntLogicalToPhysical p))
                                          (mConstantDefs p)) p) ;;;
    ret def.

(** The tail both branches share: optional array entries, the named map,
    the sorted list. *)
Definition publish (varName : string) (dims_count : Z) (def : GpuConstantDefinition)
    : M VulkanProgram unit :=
  when (negb (dims_count =? 0))
       (modify (fun p => set_mConstantDefs
                           (generateConstantDefinitionArrayEntries varName def
                                                                   (mConstantDefs p)) p)) ;;;
  modify (fun p => set_mConstantDefs
                     (set_cmap (map_insert_new varName def (cmap (mConstantDefs p)))
                               (mConstantDefs p)) p) ;;;
  modify (fun p => set_mConstantDefsSorted (mConstantDefsSorted p ++ [def]) p).

(** The body of the loop over [reflBinding.block.members]. *)
Definition processMember (prevSize : Z) (blockVariable : SpvReflectBlockVariable)
    : M VulkanProgram unit :=
  match memberShape blockVariable with
  | ShapeRaise e => raise e
  | ShapeContinue => ret tt
  | ShapeConst constantType =>
      let isArray := has_flag (bv_type_flags blockVariable) SPV_REFLECT_TYPE_FLAG_ARRAY in
      let def :=
        {| constType := constantType;
           physicalIndex := physicalIndex GpuConstantDefinition_ctor;
           logicalIndex := prevSize;
           elementSize := if isArray then array_stride blockVariable / 4
                          else getElementSize constantType false;
           arraySize := if isArray then array_dims_count blockVariable else 1;
           variability := GPV_GLOBAL |} in
      def <- placeInBuffer def ;;
      publish (bv_name blockVariable) (array_dims_count blockVariable) def ;;;
      modify (fun p => set_mConstantsBytesToWrite
                         (Z.max (mConstantsBytesToWrite p)
                                (wrap32 (logicalIndex def
                                         + arraySize def * elementSize def * 4))) p)
  end.

(** The binding-parameter record is kept under the raw binding index;
    [getConstantDefsBindingParams()] is the accessor of the same map. *)
Definition recordBindingParam (idx : Z) (bindingParam : VulkanConstantDefinitionBindingParam)
    (p : VulkanProgram) : VulkanProgram :=
  set_mConstantDefsBindingParams
    (map_insert_new idx bindingParam (mConstantDefsBindingParams p)) p.

(** The uniform-buffer branch of the loop over the bindings of a set;
    returns the new [prevSize]. *)
Definition processUniformBuffer (prevSize : Z) (reflBinding : SpvReflectDescriptorBinding)
    : M VulkanProgram Z :=
  forEach (block_members reflBinding) (processMember prevSize) ;;;
  p <- get ;;
  let bindingParam := {| bp_offset := block_offset reflBinding;
                         bp_size := block_size reflBinding |} in
  let prevSize :=
    if bool_decide (mConstantDefsBindingParams p !! binding reflBinding = None)
    then wrap64 (prevSize + alignMemory (block_size reflBinding)
                                        minUniformBufferOffsetAlignment)
    else prevSize in
  modify (recordBindingParam (binding reflBinding) bindingParam) ;;;
  ret prevSize.

(** The branch for every other descriptor type. *)
Definition processOtherBinding (prevSize : Z) (reflBinding : SpvReflectDescriptorBinding)
    : M VulkanProgram Z :=
  let type := descriptor_type reflBinding in
  let def :=
    {| constType := if type =? VK_DESCRIPTOR_TYPE_SAMPLER then GCT_SAMPLER2D
                    else if type =? VK_DESCRIPTOR_TYPE_UNIFORM_TEXEL_BUFFER then GCT_SAMPLER1D
                    else if type =? VK_DESCRIPTOR_TYPE_COMBINED_IMAGE_SAMPLER then GCT_SAMPLER2D
                    else constType GpuConstantDefinition_ctor;
       physicalIndex := physicalIndex GpuConstantDefinition_ctor;
       logicalIndex := prevSize;
       elementSize := 1;
       arraySize := 1;
       variability := variability GpuConstantDefinition_ctor |} in
  def <- placeInBuffer def ;;
  let varName := if bool_decide (db_name reflBinding = EmptyString)
                 then db_type_name reflBinding else db_name reflBinding in
  publish varName (db_array_dims_count reflBinding) def ;;;
  modify (fun p => set_mConstantsBytesToWrite
                     (Z.max (mConstantsBytesToWrite p)
                            (wrap32 (physicalIndex def
                                     + arraySize def * elementSize def * 4))) p) ;;;
  let bindingParam := {| bp_offset := logicalIndex def; bp_size := defWords def |} in
  let prevSize := wrap64 (prevSize + bp_size bindingParam) in
  modify (recordBindingParam (binding reflBinding) bindingParam) ;;;
  ret prevSize.

(** The body of the loop over [reflSet.bindings]. *)
Definition processBinding (prevSize : Z) (reflBinding : SpvReflectDescriptorBinding)
    : M VulkanProgram Z :=
  if negb (binding reflBinding =? OGRE_VULKAN_PARAMETER_SLOT) then ret prevSize
  else if descriptor_type reflBinding =? VK_DESCRIPTOR_TYPE_UNIFORM_BUFFER
       then processUniformBuffer prevSize reflBinding
       else processOtherBinding prevSize reflBinding.

(** The body of the loop over the descriptor sets: [prevSize] starts at 0
    in every set. *)
Definition processSet (reflSet : SpvReflectDescriptorSet) : M VulkanProgram unit :=
  foldM processBinding 0 (bindings reflSet) ;;; ret tt.

Definition buildConstantDefinitions : M VulkanProgram unit :=
  p <- get ;;
  if mCompileError p then ret tt
  else if bool_decide (mSpirv p = []) then ret tt
  else
    let '(result, module) := spvReflectCreateShaderModule (mSpirv p) in
    if negb (result =? SPV_REFLECT_RESULT_SUCCESS)
    then raise (ExcSpvReflectCreateShaderModule result)
    else
      (* the call that asks for [numDescSets] *)
      let '(result, sets) := spvReflectEnumerateDescriptorSets module in
      if negb (result =? SPV_REFLECT_RESULT_SUCCESS)
      then raise (ExcSpvReflectEnumerateDescriptorSets result)
      else
        (* the call that fills [sets] *)
        let '(result, sets) := spvReflectEnumerateDescriptorSets module in
        if negb (result =? SPV_REFLECT_RESULT_SUCCESS)
        then raise (ExcSpvReflectEnumerateDescriptorSets result)
        else forEach sets processSet.

(** [VulkanProgram::getBufferRequiredSize]. *)
Definition getBufferRequiredSize (p : VulkanProgram) : Z := mConstantsBytesToWrite p.

(** ** [VulkanProgram::getLayoutForPso] *)

(** [std::lower_bound( first, last, value, SortByVertexInputLocation() )] on
    the list sorted by [gatherVertexInputs]: the first input whose location
    is not below [bLocation]; [None] stands for the end iterator. *)
Fixpoint lower_bound (l : list VkVertexInputAttributeDescription) (bLocation : Z)
    : option VkVertexInputAttributeDescription :=
  match l with
  | [] => None
  | a :: l' => if location a <? bLocation then lower_bound l' bLocation else Some a
  end.

(** The search and its test [itor != mVertexInputs.end() && itor->location
    == locationIdx].  The comparator takes the location as [uint32]; the
    equality compares in [size_t]. *)
Definition findInput (this : VulkanProgram) (locationIdx : Z)
    : option VkVertexInputAttributeDescription :=
  match lower_bound (mVertexInputs this) (wrap32 locationIdx) with
  | Some itor => if location itor =? locationIdx then Some itor else None
  | None => None
  end.

(** The two output arrays and the local variables of the function. *)
Record PsoState := mkPso {
  outBufferBindingDescs : list VkVertexInputBindingDescription;
  outVertexInputs : list VkVertexInputAttributeDescription;
  numShaderInputsFound : Z;
  uvCount : Z;
  inputRate_ : VkVertexInputRate;
  bindAccumOffset : Z
}.

Definition set_inputRate (v : VkVertexInputRate) (s : PsoState) : PsoState :=
  mkPso (outBufferBindingDescs s) (outVertexInputs s) (numShaderInputsFound s)
        (uvCount s) v (bindAccumOffset s).
Definition set_bindAccumOffset (v : Z) (s : PsoState) : PsoState :=
  mkPso (outBufferBindingDescs s) (outVertexInputs s) (numShaderInputsFound s)
        (uvCount s) (inputRate_ s) v.
Definition set_uvCount (v : Z) (s : PsoState) : PsoState :=
  mkPso (outBufferBindingDescs s) (outVertexInputs s) (numShaderInputsFound s)
        v (inputRate_ s) (bindAccumOffset s).
Definition push_outVertexInput (a : VkVertexInputAttributeDescription) (s : PsoState)
    : PsoState :=
  mkPso (outBufferBindingDescs s) (outVertexInputs s ++ [a]) (numShaderInputsFound s)
        (uvCount s) (inputRate_ s) (bindAccumOffset s).
Definition push_outBufferBindingDesc (d : VkVertexInputBindingDescription) (s : PsoState)
    : PsoState :=
  mkPso (outBufferBindingDescs s ++ [d]) (outVertexInputs s) (numShaderInputsFound s)
        (uvCount s) (inputRate_ s) (bindAccumOffset s).
Definition incr_numShaderInputsFound (s : PsoState) : PsoState :=
  mkPso (outBufferBindingDescs s) (outVertexInputs s) (wrap64 (numShaderInputsFound s + 1))
        (uvCount s) (inputRate_ s) (bindAccumOffset s).

(** The rate checks made for an element the shader consumes. *)
Definition checkInputRate (it : VertexElement2) : M PsoState unit :=
  s <- get ;;
  if 1 <? mInstancingStepRate it then raise ExcInstancingStepRate
  else if bool_decide (inputRate_ s = VK_VERTEX_INPUT_RATE_MAX_ENUM) then
    if mInstancingStepRate it =? 0
    then modify (set_inputRate VK_VERTEX_INPUT_RATE_VERTEX)
    else modify (set_inputRate VK_VERTEX_INPUT_RATE_INSTANCE)
  else if ((mInstancingStepRate it =? 0)
             && negb (bool_decide (inputRate_ s = VK_VERTEX_INPUT_RATE_VERTEX)))
          || ((mInstancingStepRate it =? 1)
                && negb (bool_decide (inputRate_ s = VK_VERTEX_INPUT_RATE_INSTANCE)))
  then raise ExcMixedVertexAndInstanceRate
  else ret tt.

(** The body of [while( it != en )]. *)
Definition processElement (this : VulkanProgram) (bufferIdx : Z) (it : VertexElement2)
    : M PsoState unit :=
  s <- get ;;
  let isUv := bool_decide (mSemantic it = VES_TEXTURE_COORDINATES) in
  let locationIdx :=
    if isUv then wrap64 (getAttributeIndexFor (mSemantic it) + uvCount s)
    else getAttributeIndexFor (mSemantic it) in
  when isUv (modify (fun s => set_uvCount (wrap64 (uvCount s + 1)) s)) ;;;
  match findInput this locationIdx with
  | Some itor =>
      checkInputRate it ;;;
      modify (fun s => push_outVertexInput
                         {| location := location itor;
                            attr_binding := wrap32 bufferIdx;
                            format := VulkanMappings_get_type (mType it);
                            offset := bindAccumOffset s |} s) ;;;
      modify incr_numShaderInputsFound
  | None => ret tt
  end ;;;
  modify (fun s => set_bindAccumOffset (wrap32 (bindAccumOffset s + getTypeSize (mType it))) s).

(** The body of the loop over [vertexElements]. *)
Definition processBuffer (this : VulkanProgram) (bufferIdx : Z)
    (elements : list VertexElement2) : M PsoState unit :=
  modify (set_inputRate VK_VERTEX_INPUT_RATE_MAX_ENUM) ;;;
  modify (set_bindAccumOffset 0) ;;;
  forEach elements (processElement this bufferIdx) ;;;
  s <- get ;;
  when (negb (bool_decide (inputRate_ s = VK_VERTEX_INPUT_RATE_MAX_ENUM)))
       (modify (push_outBufferBindingDesc
                  {| desc_binding := wrap32 bufferIdx;
                     stride := bindAccumOffset s;
                     inputRate := inputRate_ s |})).

(** [for( bufferIdx = 0; bufferIdx < vertexElementsSize; ++bufferIdx )]. *)
Fixpoint forEachBuffer (this : VulkanProgram) (bufferIdx : Z)
    (vertexElements : list (list VertexElement2)) : M PsoState unit :=
  match vertexElements with
  | [] => ret tt
  | elements :: rest =>
      processBuffer this bufferIdx elements ;;;
      forEachBuffer this (bufferIdx + 1) rest
  end.

(** The DRAWID block: location 15, bound to slot 15, per instance. *)
Definition checkDrawId (this : VulkanProgram) : M PsoState unit :=
  match findInput this 15 with
  | Some itor =>
      modify (push_outVertexInput
                {| location := location itor; attr_binding := 15;
                   format := VK_FORMAT_R32_UINT; offset := 0 |}) ;;;
      modify incr_numShaderInputsFound ;;;
      modify (push_outBufferBindingDesc
                {| desc_binding := 15; stride := 4;
                   inputRate := VK_VERTEX_INPUT_RATE_INSTANCE |})
  | None => ret tt
  end.

Definition getLayoutForPso (this : VulkanProgram)
    (vertexElements : list (list VertexElement2))
    (outBufferBindingDescs0 : list VkVertexInputBindingDescription)
    (outVertexInputs0 : list VkVertexInputAttributeDescription)
    : Outcome PsoState unit :=
  let numShaderInputs := Z.of_nat (length (mVertexInputs this)) in
  (forEachBuffer this 0 vertexElements ;;;
   checkDrawId this ;;;
   s <- get ;;
   when (numShaderInputsFound s <? numShaderInputs) (raise ExcMissingInputAttribute))
    {| outBufferBindingDescs := outBufferBindingDescs0;
       outVertexInputs := outVertexInputs0;
       numShaderInputsFound := mNumSystemGenVertexInputs this;
       uvCount := 0;
       inputRate_ := VK_VERTEX_INPUT_RATE_MAX_ENUM;
       bindAccumOffset := 0 |}.

(** ** Notions the statements below are phrased with *)

(** The positions the annotation scan visits, each with the table built
    from the annotations accepted before it: the first occurrence of the
    set keyword with the reset table, then, after every accepted
    annotation, the position the search resumes at. *)
Inductive Scanned (src : string) : Z -> list (list VulkanDescBindingRange.t) -> Prop :=
| Scanned_first :
    Scanned src (find c_ogreSetKeyword src 0) freshBindingRanges
| Scanned_next startPos tbl iSetNum letterIdx buffIdx next :
    Scanned src startPos tbl ->
    startPos <> npos ->
    annotationAt src startPos = Accepted iSetNum letterIdx buffIdx next ->
    Scanned src next (mergeAt iSetNum letterIdx (wrap16 buffIdx) tbl).

(** A position the loop can be at: [npos], or a place where the set
    keyword fits into the source. *)
Definition scanPosition (src : string) (startPos : Z) : Prop :=
  startPos = npos \/ (0 <= startPos /\ startPos + size c_ogreSetKeyword <= size src).

(** What holds of a cell of the table: it is as constructed, or it spans
    a non-empty range. *)
Definition cellInvariant (r : VulkanDescBindingRange.t) : Prop :=
  r = VulkanDescBindingRange.ctor \/
  VulkanDescBindingRange.start r < VulkanDescBindingRange.end_ r.

(** The set index written after the set keyword found at [startPos], when
    the keyword is closed by [','] or [')'] before the end of its line. *)
Definition setIndexAt (src : string) (startPos : Z) : option Z :=
  let pos := startPos + size c_ogreSetKeyword in
  let eol := find_char nl src pos in
  let endPos := Z.min (find_char "," src pos) (find_char ")" src pos) in
  if (endPos <? npos) && ((eol =? npos) || (endPos <? eol))
  then Some (atoi (substr src pos (endPos - pos)))
  else None.

(** The semantic type the specification assigns to a block member by its
    shape: a lookup keyed by (rows, columns) for matrices and by component
    count for float and integer vectors. *)
Definition matrixShapes : list (Z * Z * GpuConstantType) :=
  [ (2, 2, GCT_MATRIX_2X2); (2, 3, GCT_MATRIX_2X3); (2, 4, GCT_MATRIX_2X4);
    (3, 2, GCT_MATRIX_3X2); (3, 3, GCT_MATRIX_3X3); (3, 4, GCT_MATRIX_3X4);
    (4, 2, GCT_MATRIX_4X2); (4, 3, GCT_MATRIX_4X3); (4, 4, GCT_MATRIX_4X4) ].

Definition floatVectors : list (Z * GpuConstantType) :=
  [ (1, GCT_FLOAT1); (2, GCT_FLOAT2); (3, GCT_FLOAT3); (4, GCT_FLOAT4) ].

Definition intVectors : list (Z * GpuConstantType) :=
  [ (1, GCT_INT1); (2, GCT_INT2); (3, GCT_INT3); (4, GCT_INT4) ].

(** A member is treated as a matrix when the mapping of its SPIR-V opcode
    answers [GCT_MATRIX_4X4]. *)
Definition isMatrixMember (bv : SpvReflectBlockVariable) : bool :=
  bool_decide (VulkanMappings_get_op (bv_op bv) = GCT_MATRIX_4X4).

Inductive MemberEmits (bv : SpvReflectBlockVariable) : GpuConstantType -> Prop :=
| Emits_matrix t :
    isMatrixMember bv = true ->
    In (matrix_row_count bv, matrix_column_count bv, t) matrixShapes ->
    MemberEmits bv t
| Emits_matrix_other_shape :
    isMatrixMember bv = true ->
    (forall t, ~ In (matrix_row_count bv, matrix_column_count bv, t) matrixShapes) ->
    MemberEmits bv GCT_MATRIX_4X4
| Emits_float_vector t :
    isMatrixMember bv = false ->
    has_flag (bv_type_flags bv) SPV_REFLECT_TYPE_FLAG_VECTOR = true ->
    has_flag (bv_type_flags bv) SPV_REFLECT_TYPE_FLAG_FLOAT = true ->
    In (vector_component_count bv, t) floatVectors ->
    MemberEmits bv t
| Emits_int_vector t :
    isMatrixMember bv = false ->
    has_flag (bv_type_flags bv) SPV_REFLECT_TYPE_FLAG_VECTOR = true ->
    has_flag (bv_type_flags bv) SPV_REFLECT_TYPE_FLAG_FLOAT = false ->
    has_flag (bv_type_flags bv) SPV_REFLECT_TYPE_FLAG_INT = true ->
    In (vector_component_count bv, t) intVectors ->
    MemberEmits bv t
| Emits_other_vector :
    isMatrixMember bv = false ->
    has_flag (bv_type_flags bv) SPV_REFLECT_TYPE_FLAG_VECTOR = true ->
    has_flag (bv_type_flags bv) SPV_REFLECT_TYPE_FLAG_FLOAT = false ->
    has_flag (bv_type_flags bv) SPV_REFLECT_TYPE_FLAG_INT = false ->
    MemberEmits bv (VulkanMappings_get_op (bv_op bv))
| Emits_scalar :
    isMatrixMember bv = false ->
    has_flag (bv_type_flags bv) SPV_REFLECT_TYPE_FLAG_VECTOR = false ->
    has_flag (bv_type_flags bv) SPV_REFLECT_TYPE_FLAG_STRUCT = false ->
    MemberEmits bv (VulkanMappings_get_op (bv_op bv)).

(** A struct-typed member (neither mapped to a matrix nor flagged as a
    vector). *)
Definition isStructMember (bv : SpvReflectBlockVariable) : bool :=
  negb (isMatrixMember bv)
  && negb (has_flag (bv_type_flags bv) SPV_REFLECT_TYPE_FLAG_VECTOR)
  && has_flag (bv_type_flags bv) SPV_REFLECT_TYPE_FLAG_STRUCT.

(** A float or integer vector whose component count is not 1, 2, 3 or 4. *)
Definition isIllegalVector (bv : SpvReflectBlockVariable) : bool :=
  negb (isMatrixMember bv)
  && has_flag (bv_type_flags bv) SPV_REFLECT_TYPE_FLAG_VECTOR
  && (has_flag (bv_type_flags bv) SPV_REFLECT_TYPE_FLAG_FLOAT
      || has_flag (bv_type_flags bv) SPV_REFLECT_TYPE_FLAG_INT)
  && negb ((1 <=? vector_component_count bv) && (vector_component_count bv <=? 4)).

(** The three parameter buffers, and the one a definition goes to. *)
Inductive ParamBuffer := FloatBuffer | UIntBuffer | IntBuffer.

#[global] Instance ParamBuffer_eq_dec : EqDecision ParamBuffer.
Proof. solve_decision. Defined.

Definition bufferOf (def : GpuConstantDefinition) : ParamBuffer :=
  if isFloat (constType def) then FloatBuffer
  else if isUnsignedInt (constType def) then UIntBuffer
  else IntBuffer.

(** The running size of a parameter buffer. *)
Definition runningSize (b : ParamBuffer) (p : VulkanProgram) : Z :=
  match b with
  | FloatBuffer => bufferSize (mFloatLogicalToPhysical p)
  | UIntBuffer => bufferSize (mUIntLogicalToPhysical p)
  | IntBuffer => bufferSize (mIntLogicalToPhysical p)
  end.

(** The definitions of a list that went to buffer [b], in discovery order. *)
Definition inBuffer (b : ParamBuffer) (defs : list GpuConstantDefinition)
    : list GpuConstantDefinition :=
  filter (fun d => bufferOf d = b) defs.

(** A run of appends to one buffer: each definition sits at the running
    size before it, and the running size moves on by its word count (in
    [size_t]). *)
Fixpoint chain (running : Z) (defs : list GpuConstantDefinition) (final : Z) : Prop :=
  match defs with
  | [] => final = running
  | d :: defs' => physicalIndex d = running /\
                  chain (wrap64 (running + defWords d)) defs' final
  end.

(** The words a list of definitions occupies. *)
Definition totalWords (defs : list GpuConstantDefinition) : Z :=
  fold_right (fun d acc => arraySize d * elementSize d + acc) 0 defs.

(** The state relation of a stretch of [buildConstantDefinitions]: some
    definitions were appended to the sorted list, and in every buffer they
    form a chain from the old running size to the new one. *)
Definition Appended (p p' : VulkanProgram) : Prop :=
  exists defs,
    mConstantDefsSorted p' = mConstantDefsSorted p ++ defs /\
    forall b, chain (runningSize b p) (inBuffer b defs) (runningSize b p').

(** The input location of every element of a buffer, given the number of
    texture-coordinate elements met in the buffers before it: a
    texture-coordinate element takes the base location plus the number of
    texture-coordinate elements met so far in the whole mesh. *)
Fixpoint locate (uv : Z) (elements : list VertexElement2) : list (VertexElement2 * Z) :=
  match elements with
  | [] => []
  | it :: rest =>
      if bool_decide (mSemantic it = VES_TEXTURE_COORDINATES)
      then (it, wrap64 (getAttributeIndexFor (mSemantic it) + uv))
             :: locate (wrap64 (uv + 1)) rest
      else (it, getAttributeIndexFor (mSemantic it)) :: locate uv rest
  end.

(** The texture-coordinate count after a buffer. *)
Fixpoint uvAfter (uv : Z) (elements : list VertexElement2) : Z :=
  match elements with
  | [] => uv
  | it :: rest =>
      if bool_decide (mSemantic it = VES_TEXTURE_COORDINATES)
      then uvAfter (wrap64 (uv + 1)) rest
      else uvAfter uv rest
  end.

Fixpoint locateAll (uv : Z) (vertexElements : list (list VertexElement2))
    : list (list (VertexElement2 * Z)) :=
  match vertexElements with
  | [] => []
  | elements :: rest => locate uv elements :: locateAll (uvAfter uv elements) rest
  end.

(** The elements of a located buffer that the shader consumes. *)
Definition consumed (this : VulkanProgram) (located : list (VertexElement2 * Z))
    : list VertexElement2 :=
  map fst (filter (fun e => is_Some (findInput this (snd e))) located).

(** The number of mesh elements the shader consumes, over all buffers. *)
Definition numConsumed (this : VulkanProgram) (vertexElements : list (list VertexElement2)) : Z :=
  Z.of_nat (length (concat (map (consumed this) (locateAll 0 vertexElements)))).

(** 1 when the shader declares the draw-index input, 0 otherwise. *)
Definition drawIdDeclared (this : VulkanProgram) : Z :=
  match findInput this 15 with Some _ => 1 | None => 0 end.

(** [k] increments of a [size_t] counter. *)
Definition bump (k : nat) (n : Z) : Z := Nat.iter k (fun x => wrap64 (x + 1)) n.

(** The input rate an instancing step rate of 0 or 1 stands for. *)
Definition rateOf (it : VertexElement2) : VkVertexInputRate :=
  if mInstancingStepRate it =? 0 then VK_VERTEX_INPUT_RATE_VERTEX
  else VK_VERTEX_INPUT_RATE_INSTANCE.

(** A relation between the state before a computation and the state it
    leaves, whether it returns or raises. *)
Definition steps {S A : Type} (R : S -> S -> Prop) (m : M S A) : Prop :=
  forall s, R s (state_of (m s)).

(** The derived state the specification says recompilation rebuilds. *)
Definition compiledView (p : VulkanProgram)
    : bool * bool * list Z * list (list VulkanDescBindingRange.t)
      * Z * list VkVertexInputAttributeDescription :=
  (mCompiled p, mCompileError p, mSpirv p, mDescBindingRanges p,
   mNumSystemGenVertexInputs p, mVertexInputs p).

(** What the annotation scan leaves alone: everything but the table, the
    error flag and the log. *)
Definition parseFrame (p : VulkanProgram) :=
  (mName p, mSource p, mType_ p, mCompiled p, mSpirv p, mShaderModule p,
   (mNumSystemGenVertexInputs p, mVertexInputs p),
   (mConstantDefsSorted p, mConstantDefsBindingParams p, mConstantsBytesToWrite p,
    mConstantDefs p, mFloatLogicalToPhysical p, mUIntLogicalToPhysical p,
    mIntLogicalToPhysical p),
   vkCreateShaderModuleCalls p).

(** What [gatherVertexInputs] leaves alone: everything but the vertex
    inputs and their system-generated count. *)
Definition gatherFrame (p : VulkanProgram) :=
  (mName p, mSource p, mType_ p, mCompiled p, mCompileError p, mSpirv p,
   mShaderModule p, mDescBindingRanges p,
   (mConstantDefsSorted p, mConstantDefsBindingParams p, mConstantsBytesToWrite p,
    mConstantDefs p, mFloatLogicalToPhysical p, mUIntLogicalToPhysical p,
    mIntLogicalToPhysical p),
   logMessages p, vkCreateShaderModuleCalls p).

(** What [compile] leaves alone: the identity of the program and all the
    constant-definition state. *)
Definition compileFrame (p : VulkanProgram) :=
  (mName p, mSource p, mType_ p,
   (mConstantDefsSorted p, mConstantDefsBindingParams p, mConstantsBytesToWrite p,
    mConstantDefs p, mFloatLogicalToPhysical p, mUIntLogicalToPhysical p,
    mIntLogicalToPhysical p)).

(** What [buildConstantDefinitions] leaves alone: everything [compile]
    produced. *)
Definition reflectFrame (p : VulkanProgram) :=
  (mName p, mSource p, mType_ p, mCompiled p, mCompileError p, mSpirv p,
   mShaderModule p, mDescBindingRanges p,
   (mNumSystemGenVertexInputs p, mVertexInputs p),
   logMessages p, vkCreateShaderModuleCalls p).

(** The relation every stretch of [buildConstantDefinitions] keeps. *)
Definition Reflected (p p' : VulkanProgram) : Prop :=
  Appended p p' /\ reflectFrame p = reflectFrame p'.

(** What the caller of a computation observes besides the state. *)
Definition result_of {S A : Type} (o : Outcome S A) : A + OgreException :=
  match o with Returns a _ => inl a | Raises e _ => inr e end.

End Program.

Section MoreNotions.

Context {ext : Collaborators}.

(** ** Further functions of the program, and notions to state what they do *)

(** A table of the declared dimensions: one row per descriptor set, one
    cell per binding type. *)
Definition tableShape (tbl : list (list VulkanDescBindingRange.t)) : Prop :=
  length tbl = Z.to_nat OGRE_VULKAN_MAX_NUM_BOUND_DESCRIPTOR_SETS /\
  Forall (fun row => length row = Z.to_nat NumDescBindingTypes) tbl.

(** The cell of (set, type) exists and its range holds slot [k]. *)
Definition covers (tbl : list (list VulkanDescBindingRange.t))
    (iSetNum letterIdx k : Z) : Prop :=
  exists row r,
    tbl !! Z.to_nat iSetNum = Some row /\
    row !! Z.to_nat letterIdx = Some r /\
    VulkanDescBindingRange.start r <= k < VulkanDescBindingRange.end_ r.

(** [VulkanProgram::createLowLevelImpl].  The assignment to
    [mAssemblerProgram], a member of the base class, is outside the state
    modelled here. *)
Definition createLowLevelImpl : M VulkanProgram unit :=
  p <- get ;;
  when (negb (mCompiled p)) (compile true ;;; ret tt).

(** The attribute description [gatherVertexInputs] builds for a reflected
    input variable. *)
Definition attributeOf (reflVar : SpvReflectInterfaceVariable)
    : VkVertexInputAttributeDescription :=
  {| location := iv_location reflVar; attr_binding := 0;
     format := iv_format reflVar; offset := 0 |}.

(** Ascending by [location]: what [SortByVertexInputLocation] orders by and
    what [std::lower_bound] relies on. *)
Fixpoint ascending (l : list VkVertexInputAttributeDescription) : Prop :=
  match l with
  | [] => True
  | a :: l' => Forall (fun b => location a <= location b) l' /\ ascending l'
  end.

(** The reflected inputs the system generates: those without a location. *)
Definition systemGenerated (inputVars : list SpvReflectInterfaceVariable)
    : list SpvReflectInterfaceVariable :=
  filter (fun v => iv_location v = uint32_max) inputVars.

(** The logical-to-physical structure of a parameter buffer. *)
Definition logicalBuffer (b : ParamBuffer) (p : VulkanProgram) : GpuLogicalBufferStruct :=
  match b with
  | FloatBuffer => mFloatLogicalToPhysical p
  | UIntBuffer => mUIntLogicalToPhysical p
  | IntBuffer => mIntLogicalToPhysical p
  end.

(** Nothing recorded is lost or changed: the bytes to write do not shrink,
    and every binding parameter and every logical index that was recorded
    keeps its value. *)
Definition OnlyAdds (p p' : VulkanProgram) : Prop :=
  getBufferRequiredSize p <= getBufferRequiredSize p' /\
  (forall k v, mConstantDefsBindingParams p !! k = Some v ->
               mConstantDefsBindingParams p' !! k = Some v) /\
  (forall b k u, lmap (logicalBuffer b p) !! k = Some u ->
                 lmap (logicalBuffer b p') !! k = Some u).

(** The buffer sizes published in the named constants are the running
    sizes of the three logical-to-physical structures. *)
Definition sizesMirrored (p : VulkanProgram) : Prop :=
  floatBufferSize (mConstantDefs p) = bufferSize (mFloatLogicalToPhysical p) /\
  uintBufferSize (mConstantDefs p) = bufferSize (mUIntLogicalToPhysical p) /\
  intBufferSize (mConstantDefs p) = bufferSize (mIntLogicalToPhysical p).

(** The descriptor sets SPIRV-Reflect reports for the SPIR-V of a program. *)
Definition reflectedSets (p : VulkanProgram) : list SpvReflectDescriptorSet :=
  snd (spvReflectEnumerateDescriptorSets (snd (spvReflectCreateShaderModule (mSpirv p)))).

(** The attributes one buffer contributes to the layout: one for every
    element the shader consumes, at the byte offset where the element sits
    in the buffer - the sizes of all the elements before it, consumed or
    not, in [uint32]. *)
Fixpoint attributesOf (this : VulkanProgram) (bufferIdx : Z) (off : Z)
    (located : list (VertexElement2 * Z)) : list VkVertexInputAttributeDescription :=
  match located with
  | [] => []
  | (it, loc) :: rest =>
      match findInput this loc with
      | Some itor => [{| location := location itor; attr_binding := wrap32 bufferIdx;
                         format := VulkanMappings_get_type (mType it); offset := off |}]
      | None => []
      end ++ attributesOf this bufferIdx (wrap32 (off + getTypeSize (mType it))) rest
  end.

(** The byte size of the elements of a buffer, in [uint32]. *)
Definition strideFrom (off : Z) (elements : list VertexElement2) : Z :=
  fold_left (fun off it => wrap32 (off + getTypeSize (mType it))) elements off.

(** The binding description of a buffer: none when the shader consumes no
    element of it. *)
Definition bindingOf (this : VulkanProgram) (bufferIdx : Z) (elements : list VertexElement2)
    (located : list (VertexElement2 * Z)) : list VkVertexInputBindingDescription :=
  match consumed this located with
  | [] => []
  | it :: _ => [{| desc_binding := wrap32 bufferIdx; stride := strideFrom 0 elements;
                   inputRate := rateOf it |}]
  end.

Fixpoint attributesOfAll (this : VulkanProgram) (bufferIdx : Z) (uv : Z)
    (vertexElements : list (list VertexElement2)) : list VkVertexInputAttributeDescription :=
  match vertexElements with
  | [] => []
  | elements :: rest =>
      attributesOf this bufferIdx 0 (locate uv elements)
        ++ attributesOfAll this (bufferIdx + 1) (uvAfter uv elements) rest
  end.

Fixpoint bindingsOfAll (this : VulkanProgram) (bufferIdx : Z) (uv : Z)
    (vertexElements : list (list VertexElement2)) : list VkVertexInputBindingDescription :=
  match vertexElements with
  | [] => []
  | elements :: rest =>
      bindingOf this bufferIdx elements (locate uv elements)
        ++ bindingsOfAll this (bufferIdx + 1) (uvAfter uv elements) rest
  end.

(** The attribute and the binding of the draw index, when the shader
    declares an input at location 15. *)
Definition drawIdAttribute (this : VulkanProgram) : list VkVertexInputAttributeDescription :=
  match findInput this 15 with
  | Some itor => [{| location := location itor; attr_binding := 15;
                     format := VK_FORMAT_R32_UINT; offset := 0 |}]
  | None => []
  end.

Definition drawIdBinding (this : VulkanProgram) : list VkVertexInputBindingDescription :=
  match findInput this 15 with
  | Some _ => [{| desc_binding := 15; stride := 4;
                  inputRate := VK_VERTEX_INPUT_RATE_INSTANCE |}]
  | None => []
  end.

(** The consumed elements of a buffer all ask for the rate [r], with a
    step rate of 0 or 1. *)
Definition uniformRate (r : VkVertexInputRate) (used : list VertexElement2) : Prop :=
  Forall (fun it => 0 <= mInstancingStepRate it <= 1 /\ rateOf it = r) used.

(** [VulkanProgram::unloadHighLevelImpl].  Beside the program, the handles
    passed to [vkDestroyShaderModule]. *)
Definition unloadHighLevelImpl (p : VulkanProgram) : VulkanProgram * list Z :=
  let p := set_mSpirv [] (set_mCompiled false p) in
  if negb (mShaderModule p =? 0)
  then (set_mShaderModule 0 p, [mShaderModule p])
  else (p, []).

(** The use [buildConstantDefinitions] records for a definition in the
    logical-to-physical map of its buffer. *)
Definition useOf (d : GpuConstantDefinition) : GpuLogicalIndexUse :=
  mkUse (physicalIndex d) (defWords d) GPV_GLOBAL.

(** The slots of the annotations the scan has accepted when it is at
    [startPos], the latest first. *)
Inductive ScannedSlots (src : string) : Z -> list (Z * Z * Z) -> Prop :=
| ScannedSlots_first :
    ScannedSlots src (find c_ogreSetKeyword src 0) []
| ScannedSlots_next startPos slots iSetNum letterIdx buffIdx next :
    ScannedSlots src startPos slots ->
    startPos <> npos ->
    annotationAt src startPos = Accepted iSetNum letterIdx buffIdx next ->
    ScannedSlots src next ((iSetNum, letterIdx, buffIdx) :: slots).

(** The scan ends at [startPos]: the source is exhausted, or the annotation
    there is rejected. *)
Definition scanEnds (src : string) (startPos : Z) : Prop :=
  startPos = npos \/ exists msgs, annotationAt src startPos = Rejected msgs.

(** One slot merged into a table, and the table that holds a list of
    slots: each merged into the table as reset. *)
Definition mergeSlot (slot : Z * Z * Z) (tbl : list (list VulkanDescBindingRange.t))
    : list (list VulkanDescBindingRange.t) :=
  mergeAt (fst (fst slot)) (snd (fst slot)) (wrap16 (snd slot)) tbl.

Definition tableOf (slots : list (Z * Z * Z)) : list (list VulkanDescBindingRange.t) :=
  fold_right mergeSlot freshBindingRanges slots.

End MoreNotions.

(** ** A sample platform and sample inputs

    Concrete collaborators on which the functions can be evaluated.  The
    descriptor-set limit is 4 and the parameter slot 0; the toolchain
    accepts every source, lowers the empty source to no SPIR-V word at all
    and any other source to the SPIR-V magic word, and reflection hands back
    the module given here. *)

(** Modelled from the spec: [alignMemory] is declared in OgreVulkanUtils.h,
    not in this file; the "alignment-padded" offset is the size rounded up
    to the next multiple of the alignment. *)
Definition alignToNextMultiple (offset alignment : Z) : Z :=
  ((offset + alignment - 1) / alignment) * alignment.

(** SPIR-V opcodes [SpvOpTypeBool], [SpvOpTypeInt], [SpvOpTypeFloat],
    [SpvOpTypeVector], [SpvOpTypeMatrix] and [SpvOpTypeStruct]. *)
Definition SpvOpTypeInt : Z := 21.
Definition SpvOpTypeFloat : Z := 22.
Definition SpvOpTypeVector : Z := 23.
Definition SpvOpTypeMatrix : Z := 24.
Definition SpvOpTypeStruct : Z := 30.

Definition sample_get_op (op : Z) : GpuConstantType :=
  if op =? SpvOpTypeMatrix then GCT_MATRIX_4X4
  else if op =? SpvOpTypeFloat then GCT_FLOAT1
  else if op =? SpvOpTypeVector then GCT_FLOAT4
  else if op =? SpvOpTypeInt then GCT_INT1
  else GCT_UNKNOWN.

Definition sample_isFloat (t : GpuConstantType) : bool :=
  match t with
  | GCT_FLOAT1 | GCT_FLOAT2 | GCT_FLOAT3 | GCT_FLOAT4
  | GCT_MATRIX_2X2 | GCT_MATRIX_2X3 | GCT_MATRIX_2X4
  | GCT_MATRIX_3X2 | GCT_MATRIX_3X3 | GCT_MATRIX_3X4
  | GCT_MATRIX_4X2 | GCT_MATRIX_4X3 | GCT_MATRIX_4X4 => true
  | _ => false
  end.

Definition sample_isUnsignedInt (t : GpuConstantType) : bool :=
  match t with GCT_OTHER _ => true | _ => false end.

Definition sample_getElementSize (t : GpuConstantType) (padToMultiplesOf4 : bool) : Z :=
  match t with
  | GCT_FLOAT1 | GCT_INT1 | GCT_SAMPLER1D | GCT_SAMPLER2D => 1
  | GCT_FLOAT2 | GCT_INT2 => 2
  | GCT_FLOAT3 | GCT_INT3 => 3
  | GCT_FLOAT4 | GCT_INT4 | GCT_MATRIX_2X2 => 4
  | GCT_MATRIX_2X3 | GCT_MATRIX_3X2 => 6
  | GCT_MATRIX_2X4 | GCT_MATRIX_4X2 => 8
  | GCT_MATRIX_3X3 => 9
  | GCT_MATRIX_3X4 | GCT_MATRIX_4X3 => 12
  | GCT_MATRIX_4X4 => 16
  | _ => 4
  end.

Definition sampleCollaborators (module : SpvReflectShaderModule) : Collaborators :=
  {| OGRE_VULKAN_MAX_NUM_BOUND_DESCRIPTOR_SETS := 4;
     OGRE_VULKAN_PARAMETER_SLOT := 0;
     minUniformBufferOffsetAlignment := 16;
     alignMemory := alignToNextMultiple;
     shader_parse := fun _ _ => true;
     program_link := fun _ _ => true;
     program_getIntermediate := fun _ _ => true;
     GlslangToSpv := fun src _ => if bool_decide (src = EmptyString) then []
                                  else [0x07230203];
     vkCreateShaderModule := fun _ => (VK_SUCCESS, 1);
     spvReflectCreateShaderModule := fun _ => (SPV_REFLECT_RESULT_SUCCESS, module);
     spvReflectEnumerateDescriptorSets := fun m => (SPV_REFLECT_RESULT_SUCCESS, fst m);
     spvReflectEnumerateInputVariables := fun m => (SPV_REFLECT_RESULT_SUCCESS, snd m);
     VulkanMappings_get_op := sample_get_op;
     VulkanMappings_get_type := fun t => t;
     isFloat := sample_isFloat;
     isUnsignedInt := sample_isUnsignedInt;
     getElementSize := sample_getElementSize;
     generateConstantDefinitionArrayEntries := fun _ _ c => c;
     getAttributeIndexFor := fun sem => match sem with
                                        | VES_TEXTURE_COORDINATES => 7
                                        | VES_OTHER n => n
                                        end;
     getTypeSize := fun _ => 16 |}.

Definition emptyLogical : GpuLogicalBufferStruct := {| lmap := ∅; bufferSize := 0 |}.

(** A program as the resource system creates it: nothing compiled, nothing
    reflected, empty shared structures. *)
Definition newProgram (name source : string) (type : GpuProgramType) : VulkanProgram :=
  {| mName := name; mSource := source; mType_ := type;
     mCompiled := false; mCompileError := false; mSpirv := []; mShaderModule := 0;
     mDescBindingRanges := [];
     mNumSystemGenVertexInputs := 0; mVertexInputs := [];
     mConstantDefsSorted := []; mConstantDefsBindingParams := ∅;
     mConstantsBytesToWrite := 0;
     mConstantDefs := {| floatBufferSize := 0; uintBufferSize := 0;
                         intBufferSize := 0; cmap := ∅ |};
     mFloatLogicalToPhysical := emptyLogical;
     mUIntLogicalToPhysical := emptyLogical;
     mIntLogicalToPhysical := emptyLogical;
     logMessages := []; vkCreateShaderModuleCalls := [] |}.

Definition line (s : string) : string := s +:+ String nl EmptyString.

(** A valid annotation followed, on the next line, by one naming set 8. *)
Definition sourceSet8SecondLine : string :=
  line "layout( ogre_set0, ogre_B0 ) uniform A { vec4 a; };"
  +:+ line "layout( ogre_set8, ogre_B1 ) uniform B { vec4 b; };".

(** The same two annotations written on one line. *)
Definition sourceSet8SameLine : string :=
  line ("layout( ogre_set0, ogre_B0 ) uniform A { vec4 a; }; "
        +:+ "layout( ogre_set8, ogre_B1 ) uniform B { vec4 b; };").

(** The annotation of the specification's example, alone. *)
Definition sourceSet8Only : string :=
  line "layout( ogre_set8, ogre_B0 ) uniform A { vec4 a; };".

Definition memberVec4 (name : string) : SpvReflectBlockVariable :=
  {| bv_name := name; bv_op := SpvOpTypeVector;
     bv_type_flags := Z.lor SPV_REFLECT_TYPE_FLAG_VECTOR SPV_REFLECT_TYPE_FLAG_FLOAT;
     matrix_row_count := 0; matrix_column_count := 0; vector_component_count := 4;
     array_stride := 0; array_dims_count := 0 |}.

Definition memberStruct (name : string) : SpvReflectBlockVariable :=
  {| bv_name := name; bv_op := SpvOpTypeStruct;
     bv_type_flags := SPV_REFLECT_TYPE_FLAG_STRUCT;
     matrix_row_count := 0; matrix_column_count := 0; vector_component_count := 0;
     array_stride := 0; array_dims_count := 0 |}.

Definition uniformBlock (size_ : Z) (members : list SpvReflectBlockVariable)
    : SpvReflectDescriptorBinding :=
  {| binding := 0; descriptor_type := VK_DESCRIPTOR_TYPE_UNIFORM_BUFFER;
     block_offset := 0; block_size := size_; block_members := members;
     db_name := "Params"; db_type_name := "Params"; db_array_dims_count := 0 |}.

Definition samplerBinding (name : string) : SpvReflectDescriptorBinding :=
  {| binding := 0; descriptor_type := VK_DESCRIPTOR_TYPE_SAMPLER;
     block_offset := 0; block_size := 0; block_members := [];
     db_name := name; db_type_name := "sampler"; db_array_dims_count := 0 |}.

Definition sampleSource : string := "void main(){}".

(** A module with one descriptor set: a uniform block [{ vec4 a; }] of 16
    bytes and a sampler, both at the parameter slot. *)
Definition blockAndSampler : SpvReflectShaderModule :=
  ([ {| bindings := [uniformBlock 16 [memberVec4 "a"]; samplerBinding "s"] |} ], []).

(** A uniform block with a struct member and a vector member. *)
Definition blockWithStruct : SpvReflectShaderModule :=
  ([ {| bindings := [uniformBlock 32 [memberStruct "s"; memberVec4 "a"]] |} ], []).

(** A uniform block of two vectors. *)
Definition blockOfTwo : SpvReflectShaderModule :=
  ([ {| bindings := [uniformBlock 32 [memberVec4 "a"; memberVec4 "b"]] |} ], []).

(** A program whose reflected vertex inputs sit at the given locations. *)
Definition shaderWithInputs (locations : list Z) : VulkanProgram :=
  set_mVertexInputs (map (fun l => {| location := l; attr_binding := 0;
                                      format := 0; offset := 0 |}) locations)
                    (newProgram "p" sampleSource GPT_VERTEX_PROGRAM).

(** A mesh element of semantic [n] with the given instancing step rate. *)
Definition element (n rate : Z) : VertexElement2 :=
  {| mType := 0; mSemantic := VES_OTHER n; mInstancingStepRate := rate |}.

(** ** Further sample inputs *)

(** A source with one annotation and nothing after it. *)
Definition sourceOneAnnotation : string :=
  line "layout( ogre_set1, ogre_t3 ) uniform samplerBuffer b;".

(** A module with three input variables: at locations 1 and 0, and one the
    system generates. *)
Definition threeInputs : SpvReflectShaderModule :=
  ([], [ {| iv_location := 1; iv_format := 103 |};
         {| iv_location := uint32_max; iv_format := 98 |};
         {| iv_location := 0; iv_format := 109 |} ]).

(** A module whose only binding is a sampler outside the parameter slot. *)
Definition samplerOffSlot : SpvReflectShaderModule :=
  ([ {| bindings := [ {| binding := 1; descriptor_type := VK_DESCRIPTOR_TYPE_SAMPLER;
                         block_offset := 0; block_size := 0; block_members := [];
                         db_name := "s"; db_type_name := "sampler";
                         db_array_dims_count := 0 |} ] |} ], []).

(** A binding at the parameter slot that has no name of its own. *)
Definition unnamedTexelBuffer : SpvReflectDescriptorBinding :=
  {| binding := 0; descriptor_type := VK_DESCRIPTOR_TYPE_UNIFORM_TEXEL_BUFFER;
     block_offset := 0; block_size := 0; block_members := [];
     db_name := EmptyString; db_type_name := "samplerBuffer"; db_array_dims_count := 0 |}.

(** Two annotations, each on a line of its own. *)
Definition sourceTwoAnnotations : string :=
  line "layout( ogre_set0, ogre_B0 ) uniform A { vec4 a; };"
  +:+ line "layout( ogre_set1, ogre_t3 ) uniform samplerBuffer b;".

(** Annotations whose numbers do not fit [int]. *)
Definition sourceSetBeyondInt : string :=
  line "layout( ogre_set4294967296, ogre_B0 ) uniform A { vec4 a; };".

Definition sourceSlotBeyondInt : string :=
  line "layout( ogre_set0, ogre_B4294967297 ) uniform A { vec4 a; };".

Definition sourceSetBeyondLong : string :=
  line "layout( ogre_set18446744073709551616, ogre_B0 ) uniform A { vec4 a; };".

(** * Properties *)

Section Properties.

Context {ext : Collaborators}.

(** ** String search *)

Lemma prefix_length (s1 s2 : string) :
  String.prefix s1 s2 = true -> (String.length s1 <= String.length s2)%nat.
Proof.
  revert s1; induction s2 as [|c s2 IH]; intros [|d s1]; simpl; try lia; try discriminate.
  destruct (ascii_dec d c); [|discriminate].
  intros H; apply IH in H; lia.
Qed.

Lemma find_from_bounds (needle s : string) (skip : nat) (idx : Z) :
  find_from needle s skip idx = npos \/
  (idx + Z.of_nat skip <= find_from needle s skip idx /\
   find_from needle s skip idx + size needle <= idx + size s).
Proof.
  revert skip idx; induction s as [|c s IH]; intros skip idx.
  - destruct skip; cbn [find_from]; [|by left].
    destruct (String.prefix needle EmptyString) eqn:E; [|by left].
    right. apply prefix_length in E. unfold size; simpl in *; lia.
  - destruct skip as [|k]; cbn [find_from].
    + destruct (String.prefix needle (String c s)) eqn:E.
      * right. apply prefix_length in E. unfold size; simpl in *; lia.
      * destruct (IH O (idx + 1)) as [->|[H1 H2]]; [by left|right].
        unfold size in *; simpl String.length; lia.
    + destruct (IH k (idx + 1)) as [->|[H1 H2]]; [by left|right].
      unfold size in *; simpl String.length; lia.
Qed.

(** A successful search answers a position at or after [pos] at which the
    needle still fits. *)
Lemma find_bounds (needle s : string) (pos : Z) :
  0 <= pos ->
  find needle s pos = npos \/
  (pos <= find needle s pos /\ find needle s pos + size needle <= size s).
Proof.
  intros Hpos; unfold find.
  destruct (size s <? pos) eqn:E; [by left|].
  destruct (find_from_bounds needle s (Z.to_nat pos) 0) as [->|[H1 H2]]; [by left|right].
  lia.
Qed.

Lemma find_npos (needle s : string) :
  size s < npos -> find needle s npos = npos.
Proof.
  intros H; unfold find.
  destruct (size s <? npos) eqn:E; [done|]. apply Z.ltb_ge in E; lia.
Qed.

Lemma size_nonneg (s : string) : 0 <= size s.
Proof. unfold size; lia. Qed.

Lemma wrap64_small (z : Z) : 0 <= z < 2 ^ 64 -> wrap64 z = z.
Proof. intros H; unfold wrap64; by apply Z.mod_small. Qed.

Lemma wrap16_small (z : Z) : 0 <= z < 2 ^ 16 -> wrap16 z = z.
Proof. intros H; unfold wrap16; by apply Z.mod_small. Qed.

Lemma wrap64_le (z : Z) : 0 <= z -> 0 <= wrap64 z <= z.
Proof.
  intros H; unfold wrap64; split; [apply Z.mod_pos_bound; lia|].
  apply Z.mod_le; lia.
Qed.

(** ** The annotation scan *)

Lemma scanPosition_first (src : string) :
  scanPosition src (find c_ogreSetKeyword src 0).
Proof.
  destruct (find_bounds c_ogreSetKeyword src 0) as [H|[H1 H2]]; [lia|by left|right; lia].
Qed.

(** An accepted annotation carries indices inside the table and a slot
    below 65535, and the search resumes strictly further on. *)
Lemma annotationAt_Accepted (src : string) (startPos iSetNum letterIdx buffIdx next : Z) :
  size src < npos ->
  0 <= startPos -> startPos + size c_ogreSetKeyword <= size src ->
  annotationAt src startPos = Accepted iSetNum letterIdx buffIdx next ->
  0 <= iSetNum < OGRE_VULKAN_MAX_NUM_BOUND_DESCRIPTOR_SETS /\
  0 <= buffIdx < 65535 /\
  next = find c_ogreSetKeyword src
              (find_char nl src (startPos + size c_ogreSetKeyword)) /\
  (next = npos \/ (startPos < next /\ next + size c_ogreSetKeyword <= size src)).
Proof.
  intros Hsz H0 Hfit. unfold annotationAt.
  assert (Hpos : 0 < size c_ogreSetKeyword) by (vm_compute; done).
  rewrite (wrap64_small (startPos + _)) by (unfold npos in *; lia).
  set (pos := startPos + size c_ogreSetKeyword).
  repeat match goal with
         | |- context [if ?b then Rejected _ else _] => destruct b eqn:?; [discriminate|]
         end.
  intros [= <- <- <- <-].
  repeat match goal with
         | H : (_ || _) = false |- _ => apply orb_false_elim in H; destruct H
         end.
  split; [lia|]. split; [lia|]. split; [done|].
  destruct (find_bounds (String nl EmptyString) src pos) as [He|[He1 He2]]; [lia| |].
  - unfold find_char. rewrite He. left. by apply find_npos.
  - unfold find_char.
    destruct (find_bounds c_ogreSetKeyword src (find (String nl EmptyString) src pos))
      as [Hn|[Hn1 Hn2]]; [lia|by left|right]. lia.
Qed.

Lemma keyword_size_pos : 0 < size c_ogreSetKeyword.
Proof. by vm_compute. Qed.

Lemma fitting_position_not_npos (src : string) (startPos : Z) :
  size src < npos -> startPos + size c_ogreSetKeyword <= size src -> startPos <> npos.
Proof. pose proof keyword_size_pos. lia. Qed.

(** The loop does not depend on its fuel once the fuel exceeds the number
    of characters left: the bound of [parseNumBindingsFromSource] is never
    what ends the loop. *)
Lemma parseLoop_fuel (fuel1 fuel2 : nat) (startPos : Z) (p : VulkanProgram) :
  size (mSource p) < npos ->
  scanPosition (mSource p) startPos ->
  (startPos <> npos -> size (mSource p) - startPos < Z.of_nat fuel1) ->
  (startPos <> npos -> size (mSource p) - startPos < Z.of_nat fuel2) ->
  parseLoop fuel1 startPos p = parseLoop fuel2 startPos p.
Proof.
  revert fuel2 startPos p; induction fuel1 as [|f1 IH]; intros fuel2 startPos p Hsz Hpos H1 H2.
  - destruct Hpos as [->|[Ha Hb]].
    + by destruct fuel2.
    + exfalso. pose proof keyword_size_pos.
      specialize (H1 (fitting_position_not_npos _ _ Hsz Hb)). lia.
  - destruct Hpos as [->|[Ha Hb]]; [by destruct fuel2|].
    pose proof (fitting_position_not_npos _ _ Hsz Hb) as Hne.
    pose proof keyword_size_pos.
    destruct fuel2 as [|f2]; [specialize (H2 Hne); lia|].
    simpl. destruct (startPos =? npos); [done|].
    destruct (annotationAt (mSource p) startPos) as [msgs|i j k next] eqn:E; [done|].
    destruct (annotationAt_Accepted _ _ _ _ _ _ Hsz Ha Hb E) as (_ & _ & _ & Hnext).
    apply IH; simpl; try done.
    + destruct Hnext as [->|[? ?]]; [by left|right; lia].
    + intros Hn. destruct Hnext as [->|[? ?]]; [congruence|]. specialize (H1 Hne). lia.
    + intros Hn. destruct Hnext as [->|[? ?]]; [congruence|]. specialize (H2 Hne). lia.
Qed.

(** The loop satisfies the equation of the [while] statement it stands for. *)
Lemma parseLoop_unfold (startPos : Z) (p : VulkanProgram) :
  size (mSource p) < npos ->
  scanPosition (mSource p) startPos ->
  parseLoop (S (String.length (mSource p))) startPos p =
  if startPos =? npos then p
  else match annotationAt (mSource p) startPos with
       | Rejected msgs =>
           fold_left (fun q m => logMessage m q) msgs (set_mCompileError true p)
       | Accepted iSetNum letterIdx buffIdx next =>
           let p' := set_mDescBindingRanges
                       (mergeAt iSetNum letterIdx (wrap16 buffIdx) (mDescBindingRanges p)) p in
           parseLoop (S (String.length (mSource p'))) next p'
       end.
Proof.
  intros Hsz Hpos. simpl parseLoop at 1.
  destruct (startPos =? npos) eqn:En; [done|]. apply Z.eqb_neq in En.
  destruct (annotationAt (mSource p) startPos) as [msgs|i j k next] eqn:E; [done|].
  destruct Hpos as [?|[Ha Hb]]; [done|].
  destruct (annotationAt_Accepted _ _ _ _ _ _ Hsz Ha Hb E) as (_ & _ & _ & Hnext).
  cbv zeta. apply parseLoop_fuel; simpl; try done.
  - destruct Hnext as [->|[? ?]]; [by left|right; lia].
  - intros Hn. destruct Hnext as [->|[? ?]]; [congruence|]. unfold size in *. lia.
  - intros Hn. destruct Hnext as [->|[? ?]]; [congruence|]. unfold size in *. lia.
Qed.

Lemma fold_logMessage_table (msgs : list LogEntry) (p : VulkanProgram) :
  mDescBindingRanges (fold_left (fun q m => logMessage m q) msgs p) = mDescBindingRanges p.
Proof. revert p; induction msgs as [|m msgs IH]; intros p; simpl; [done|by rewrite IH]. Qed.

Lemma annotationAt_slot (src : string) (startPos iSetNum letterIdx buffIdx next : Z) :
  annotationAt src startPos = Accepted iSetNum letterIdx buffIdx next ->
  0 <= buffIdx < 65535.
Proof.
  unfold annotationAt.
  repeat match goal with
         | |- context [if ?b then Rejected _ else _] => destruct b eqn:?; [discriminate|]
         end.
  intros [= <- <- <- <-].
  repeat match goal with
         | H : (_ || _) = false |- _ => apply orb_false_elim in H; destruct H
         end.
  lia.
Qed.

Lemma merge_bounds (idx : Z) (r : VulkanDescBindingRange.t) :
  0 <= idx < 65535 ->
  VulkanDescBindingRange.start (VulkanDescBindingRange.merge idx r) <= idx
  < VulkanDescBindingRange.end_ (VulkanDescBindingRange.merge idx r).
Proof.
  intros H; simpl. rewrite wrap16_small by lia. lia.
Qed.

Lemma mergeAt_cells (i j idx : Z) (tbl : list (list VulkanDescBindingRange.t)) :
  0 <= idx < 65535 ->
  Forall (Forall cellInvariant) tbl ->
  Forall (Forall cellInvariant) (mergeAt i j idx tbl).
Proof.
  intros Hidx Htbl. unfold mergeAt.
  apply Forall_alter; [done|]. intros row _ Hrow.
  apply Forall_alter; [done|]. intros r _ _.
  right. pose proof (merge_bounds idx r Hidx). lia.
Qed.

Lemma parseLoop_cells (fuel : nat) (startPos : Z) (p : VulkanProgram) :
  Forall (Forall cellInvariant) (mDescBindingRanges p) ->
  Forall (Forall cellInvariant) (mDescBindingRanges (parseLoop fuel startPos p)).
Proof.
  revert startPos p; induction fuel as [|fuel IH]; intros startPos p Hp; simpl.
  - by destruct (startPos =? npos).
  - destruct (startPos =? npos); [done|].
    destruct (annotationAt (mSource p) startPos) as [msgs|i j k next] eqn:E.
    + by rewrite fold_logMessage_table.
    + apply IH; simpl. apply mergeAt_cells; [|done].
      apply annotationAt_slot in E. rewrite wrap16_small; lia.
Qed.

Lemma freshBindingRanges_cells : Forall (Forall cellInvariant) freshBindingRanges.
Proof.
  unfold freshBindingRanges.
  apply Forall_replicate, Forall_replicate. by left.
Qed.

(** C2 (as amended): a cell of the binding range table is either as
    constructed (start = 65535, end = 0) or spans a non-empty range
    start < end.  [merge( idx )] with [idx] in [0, 65535) - the only values
    the parser passes - yields [start <= idx < end] on any cell, and every
    cell of the table that [parseNumBindingsFromSource] leaves behind is of
    one of the two kinds. *)
Theorem binding_range_cells (p : VulkanProgram) (idx : Z) (r : VulkanDescBindingRange.t) :
  (0 <= idx < 65535 ->
   VulkanDescBindingRange.start (VulkanDescBindingRange.merge idx r) <= idx
   < VulkanDescBindingRange.end_ (VulkanDescBindingRange.merge idx r)) /\
  Forall (Forall cellInvariant) (mDescBindingRanges (parseNumBindingsFromSource p)).
Proof.
  split; [apply merge_bounds|].
  unfold parseNumBindingsFromSource. apply parseLoop_cells; simpl.
  apply freshBindingRanges_cells.
Qed.

Lemma annotationAt_out_of_range (src : string) (startPos n : Z) :
  size src < npos ->
  0 <= startPos -> startPos + size c_ogreSetKeyword <= size src ->
  setIndexAt src startPos = Some n ->
  OGRE_VULKAN_MAX_NUM_BOUND_DESCRIPTOR_SETS <= n ->
  annotationAt src startPos = Rejected [LogSetOutOfRange (near src startPos)].
Proof.
  intros Hsz H0 Hfit Hset Hn. pose proof keyword_size_pos as Hk.
  unfold setIndexAt in Hset. unfold annotationAt.
  rewrite (wrap64_small (startPos + _)) by (unfold npos in *; lia).
  set (pos := startPos + size c_ogreSetKeyword) in *.
  set (eol := find_char nl src pos) in *.
  set (endPos := Z.min (find_char "," src pos) (find_char ")" src pos)) in *.
  destruct ((endPos <? npos) && ((eol =? npos) || (endPos <? eol))) eqn:E; [|discriminate].
  injection Hset as <-.
  apply andb_prop in E as [E1 E2]. apply Z.ltb_lt in E1.
  assert (Hge : pos <= endPos).
  { subst endPos. unfold find_char.
    destruct (find_bounds (String "," EmptyString) src pos) as [->|[? _]]; [lia| |];
      destruct (find_bounds (String ")" EmptyString) src pos) as [->|[? _]];
      unfold npos in *; lia. }
  replace ((endPos =? npos) || ((eol <=? endPos) && negb (eol =? npos))) with false; cycle 1.
  { symmetry. apply orb_false_intro; [apply Z.eqb_neq; lia|].
    apply orb_prop in E2 as [E2|E2].
    - rewrite E2. apply andb_false_r.
    - apply Z.ltb_lt in E2. apply andb_false_intro1, Z.leb_gt. lia. }
  rewrite (wrap64_small (endPos - pos)) by (unfold npos in *; lia).
  replace (OGRE_VULKAN_MAX_NUM_BOUND_DESCRIPTOR_SETS <=? _) with true
    by (symmetry; apply Z.leb_le; lia).
  by rewrite orb_true_r.
Qed.

Lemma set_ranges_twice (t1 t2 : list (list VulkanDescBindingRange.t)) (p : VulkanProgram) :
  set_mDescBindingRanges t2 (set_mDescBindingRanges t1 p) = set_mDescBindingRanges t2 p.
Proof. done. Qed.

(** Every scanned position is reached by the loop, with the table of the
    annotations accepted so far, after as many turns as annotations. *)
Lemma scanned_loop (src : string) (startPos : Z) (tbl : list (list VulkanDescBindingRange.t)) :
  size src < npos ->
  Scanned src startPos tbl ->
  exists k : nat,
    scanPosition src startPos /\
    (startPos <> npos -> Z.of_nat k <= startPos) /\
    forall (p : VulkanProgram) (fuel : nat),
      mSource p = src ->
      parseLoop (k + fuel) (find c_ogreSetKeyword src 0)
                (set_mDescBindingRanges freshBindingRanges p)
      = parseLoop fuel startPos (set_mDescBindingRanges tbl p).
Proof.
  intros Hsz Hs. induction Hs as [|startPos tbl i j b next Hs (k & Hpos & Hk & IH) Hne E].
  - exists O. split; [apply scanPosition_first|]. split; [|done].
    intros Hn. destruct (find_bounds c_ogreSetKeyword src 0) as [?|[? ?]]; [lia|done|lia].
  - destruct Hpos as [?|[Ha Hb]]; [done|].
    destruct (annotationAt_Accepted _ _ _ _ _ _ Hsz Ha Hb E) as (_ & _ & _ & Hnext).
    exists (S k). split; [|split].
    + destruct Hnext as [->|[? ?]]; [by left|right; lia].
    + intros Hn. destruct Hnext as [?|[? ?]]; [done|]. specialize (Hk Hne). lia.
    + intros p fuel Hp.
      replace (S k + fuel)%nat with (k + S fuel)%nat by lia.
      rewrite (IH p (S fuel) Hp). simpl.
      destruct (startPos =? npos) eqn:En; [apply Z.eqb_eq in En; done|].
      by rewrite Hp, E.
Qed.

(** C7 (as amended): when the left-to-right scan, which resumes after the
    line of each accepted annotation, is at a set keyword that is closed by
    ',' or ')' on its line and whose set index - the [int] that [atoi] reads
    from the digits, so narrowed when the number does not fit - is at or
    above the maximum set count, [parseNumBindingsFromSource] sets the
    compile-error flag,
    logs the one out-of-range diagnostic and returns at once: the table
    holds exactly the ranges merged from the annotations accepted before it
    (they are not cleared), and nothing of this or a later annotation. *)
Theorem parse_stops_at_out_of_range_set
    (p : VulkanProgram) (startPos n : Z) (tbl : list (list VulkanDescBindingRange.t)) :
  size (mSource p) < npos ->
  Scanned (mSource p) startPos tbl ->
  startPos <> npos ->
  setIndexAt (mSource p) startPos = Some n ->
  OGRE_VULKAN_MAX_NUM_BOUND_DESCRIPTOR_SETS <= n ->
  parseNumBindingsFromSource p
  = logMessage (LogSetOutOfRange (near (mSource p) startPos))
               (set_mCompileError true (set_mDescBindingRanges tbl p)) /\
  mCompileError (parseNumBindingsFromSource p) = true /\
  logMessages (parseNumBindingsFromSource p)
  = logMessages p ++ [LogSetOutOfRange (near (mSource p) startPos)] /\
  mDescBindingRanges (parseNumBindingsFromSource p) = tbl.
Proof.
  intros Hsz Hs Hne Hset Hn.
  destruct (scanned_loop _ _ _ Hsz Hs) as (k & Hpos & Hk & Hloop).
  destruct Hpos as [?|[Ha Hb]]; [done|]. specialize (Hk Hne).
  pose proof keyword_size_pos as Hkw.
  assert (Heq : parseNumBindingsFromSource p
                = logMessage (LogSetOutOfRange (near (mSource p) startPos))
                    (set_mCompileError true (set_mDescBindingRanges tbl p))).
  { unfold parseNumBindingsFromSource. cbn [mSource set_mDescBindingRanges].
    replace (S (String.length (mSource p)))
      with (k + S (String.length (mSource p) - k))%nat by (unfold size in *; lia).
    rewrite (Hloop p _ eq_refl). simpl.
    destruct (startPos =? npos) eqn:En; [apply Z.eqb_eq in En; done|].
    by rewrite (annotationAt_out_of_range _ _ _ Hsz Ha Hb Hset Hn). }
  rewrite Heq. by repeat split.
Qed.

(** ** Computations and the states they leave *)

Section Steps.

Context {S : Type} (R : S -> S -> Prop).
Hypothesis R_refl : forall s, R s s.
Hypothesis R_trans : forall a b c, R a b -> R b c -> R a c.

Lemma steps_ret {A} (a : A) : steps R (ret a).
Proof using R_refl. intros s; apply R_refl. Qed.

Lemma steps_raise {A} (e : OgreException) : steps R (@raise S A e).
Proof using R_refl. intros s; apply R_refl. Qed.

Lemma steps_get : steps R (@get S).
Proof using R_refl. intros s; apply R_refl. Qed.

Lemma steps_modify (f : S -> S) : (forall s, R s (f s)) -> steps R (modify f).
Proof. intros H s; apply H. Qed.

Lemma steps_bind {A B} (m : M S A) (k : A -> M S B) :
  steps R m -> (forall a, steps R (k a)) -> steps R (bind m k).
Proof using R_trans.
  intros Hm Hk s. unfold bind. specialize (Hm s).
  destruct (m s) as [a s'|e s']; simpl in *; [|done].
  eapply R_trans; [exact Hm|apply Hk].
Qed.

Lemma steps_when (b : bool) (m : M S unit) : steps R m -> steps R (when b m).
Proof using R_refl. intros Hm; destruct b; simpl; [done|apply steps_ret]. Qed.

Lemma steps_forEach {A} (l : list A) (body : A -> M S unit) :
  (forall x, steps R (body x)) -> steps R (forEach l body).
Proof using R_refl R_trans.
  intros Hb; induction l as [|x l IH]; simpl; [apply steps_ret|].
  apply steps_bind; [apply Hb|intros _; apply IH].
Qed.

Lemma steps_foldM {A B} (f : B -> A -> M S B) (b : B) (l : list A) :
  (forall b x, steps R (f b x)) -> steps R (foldM f b l).
Proof using R_refl R_trans.
  intros Hf; revert b; induction l as [|x l IH]; intros b; simpl; [apply steps_ret|].
  apply steps_bind; [apply Hf|intros b'; apply IH].
Qed.

End Steps.

(** ** Compilation *)

Arguments parseNumBindingsFromSource : simpl never.

Lemma fold_logMessage_frame (msgs : list LogEntry) (p : VulkanProgram) :
  parseFrame (fold_left (fun q m => logMessage m q) msgs p) = parseFrame p.
Proof. revert p; induction msgs as [|m msgs IH]; intros p; simpl; [done|by rewrite IH]. Qed.

Lemma fold_logMessage_flag (msgs : list LogEntry) (p : VulkanProgram) :
  mCompileError (fold_left (fun q m => logMessage m q) msgs p) = mCompileError p.
Proof. revert p; induction msgs as [|m msgs IH]; intros p; simpl; [done|by rewrite IH]. Qed.

(** The scan reads the source and writes the table, the flag and the log,
    nothing else. *)
Lemma parseLoop_frame (fuel : nat) (startPos : Z) (p : VulkanProgram) :
  parseFrame (parseLoop fuel startPos p) = parseFrame p.
Proof.
  revert startPos p; induction fuel as [|fuel IH]; intros startPos p; simpl.
  - by destruct (startPos =? npos).
  - destruct (startPos =? npos); [done|].
    destruct (annotationAt (mSource p) startPos) as [msgs|i j k next].
    + by rewrite fold_logMessage_frame.
    + by rewrite IH.
Qed.

Lemma parse_frame (p : VulkanProgram) :
  parseFrame (parseNumBindingsFromSource p) = parseFrame p.
Proof. unfold parseNumBindingsFromSource. by rewrite parseLoop_frame. Qed.

(** The table and the flag the scan leaves depend on the source, the table
    and the flag it starts from. *)
Lemma parseLoop_congr (fuel : nat) (startPos : Z) (p q : VulkanProgram) :
  mSource p = mSource q ->
  mDescBindingRanges p = mDescBindingRanges q ->
  mCompileError p = mCompileError q ->
  mDescBindingRanges (parseLoop fuel startPos p) = mDescBindingRanges (parseLoop fuel startPos q) /\
  mCompileError (parseLoop fuel startPos p) = mCompileError (parseLoop fuel startPos q).
Proof.
  revert startPos p q; induction fuel as [|fuel IH]; intros startPos p q Hs Ht He; simpl.
  - by destruct (startPos =? npos).
  - destruct (startPos =? npos); [done|]. rewrite <- Hs.
    destruct (annotationAt (mSource p) startPos) as [msgs|i j k next].
    + by rewrite !fold_logMessage_table, !fold_logMessage_flag.
    + apply IH; simpl; [done|by rewrite Ht|done].
Qed.

Lemma parse_congr (p q : VulkanProgram) :
  mSource p = mSource q ->
  mCompileError p = mCompileError q ->
  mDescBindingRanges (parseNumBindingsFromSource p)
  = mDescBindingRanges (parseNumBindingsFromSource q) /\
  mCompileError (parseNumBindingsFromSource p) = mCompileError (parseNumBindingsFromSource q).
Proof.
  intros Hs He. unfold parseNumBindingsFromSource. cbn [mSource set_mDescBindingRanges].
  rewrite <- Hs. by apply parseLoop_congr.
Qed.

(** [gatherVertexInputs] writes the vertex inputs and their count only, and
    what it writes does not depend on what was there. *)
Lemma gatherVertexInputs_frame (module : SpvReflectShaderModule) :
  steps (fun s s' => gatherFrame s = gatherFrame s') (gatherVertexInputs module).
Proof.
  assert (Ht : forall a b c : VulkanProgram,
             gatherFrame a = gatherFrame b -> gatherFrame b = gatherFrame c ->
             gatherFrame a = gatherFrame c) by (intros; congruence).
  unfold gatherVertexInputs.
  apply steps_bind; [done|by apply steps_modify|intros _].
  apply steps_bind; [done|by apply steps_modify|intros _].
  destruct (spvReflectEnumerateInputVariables module) as [result inputVars].
  destruct (negb (result =? SPV_REFLECT_RESULT_SUCCESS)); [by apply steps_raise|].
  destruct (Z.of_nat (length inputVars) =? 0); [by apply steps_ret|].
  apply steps_bind; [done| |intros _; by apply steps_modify].
  apply steps_forEach; [done..|]. intros x. unfold gatherInput.
  apply steps_bind; [done| |intros _; by apply steps_modify].
  apply steps_when; [done|]. by apply steps_modify.
Qed.

Arguments gatherVertexInputs : simpl never.

Arguments gatherInput : simpl never.

(** The loop of [gatherVertexInputs] as a fold over the count and the list. *)
Lemma gather_loop (inputVars : list SpvReflectInterfaceVariable) (s : VulkanProgram) :
  exists s',
    forEach inputVars gatherInput s = Returns tt s' /\
    (mNumSystemGenVertexInputs s', mVertexInputs s')
    = fold_left (fun acc reflVar =>
                   (if iv_location reflVar =? uint32_max then wrap32 (fst acc + 1)
                    else fst acc,
                    snd acc ++ [{| location := iv_location reflVar; attr_binding := 0;
                                   format := iv_format reflVar; offset := 0 |}]))
                inputVars (mNumSystemGenVertexInputs s, mVertexInputs s).
Proof.
  revert s; induction inputVars as [|v vars IH]; intros s; simpl.
  - by exists s.
  - unfold bind at 1. unfold gatherInput, bind, when, modify, ret. simpl.
    destruct (iv_location v =? uint32_max); simpl.
    + edestruct IH as (s' & -> & Hs'). exists s'. split; [done|]. by rewrite Hs'.
    + edestruct IH as (s' & -> & Hs'). exists s'. split; [done|]. by rewrite Hs'.
Qed.

Lemma gatherVertexInputs_congr (module : SpvReflectShaderModule) (p q : VulkanProgram) :
  result_of (gatherVertexInputs module p) = result_of (gatherVertexInputs module q) /\
  mNumSystemGenVertexInputs (state_of (gatherVertexInputs module p))
  = mNumSystemGenVertexInputs (state_of (gatherVertexInputs module q)) /\
  mVertexInputs (state_of (gatherVertexInputs module p))
  = mVertexInputs (state_of (gatherVertexInputs module q)).
Proof.
  unfold gatherVertexInputs.
  destruct (spvReflectEnumerateInputVariables module) as [result inputVars].
  unfold bind, modify, ret, raise.
  destruct (negb (result =? SPV_REFLECT_RESULT_SUCCESS)); [done|].
  destruct (Z.of_nat (length inputVars) =? 0); [done|].
  destruct (gather_loop inputVars
              (set_mVertexInputs [] (set_mNumSystemGenVertexInputs 0 p))) as (p' & -> & Hp).
  destruct (gather_loop inputVars
              (set_mVertexInputs [] (set_mNumSystemGenVertexInputs 0 q))) as (q' & -> & Hq).
  simpl in *. rewrite <- Hq in Hp. injection Hp as -> ->. done.
Qed.

(** Case analysis over the branches of [compile]: known conditions are
    rewritten, the next one is split at its innermost test. *)
Ltac destruct_cond b :=
  lazymatch b with
  | negb ?x => destruct_cond x
  | ?x && _ => destruct_cond x
  | _ => destruct b eqn:?
  end.

Ltac rewrite_known :=
  repeat match goal with
         | H : ?a = true |- context [?a] =>
             lazymatch a with true => fail | false => fail | _ => rewrite H end
         | H : ?a = false |- context [?a] =>
             lazymatch a with true => fail | false => fail | _ => rewrite H end
         end.

Ltac compile_cases_with tac :=
  repeat (cbn; tac; rewrite_known; cbn;
          match goal with
          | |- context [if ?b then _ else _] => destruct_cond b
          | |- context [let '(_, _) := ?x in _] => destruct x eqn:?
          end);
  cbn; tac; rewrite_known; cbn.

Ltac compile_cases := compile_cases_with idtac.

Ltac use_gather_frame :=
  repeat match goal with
         | |- context [gatherVertexInputs ?m ?s] =>
             let o := fresh "o" in
             let Ho := fresh "Ho" in
             let Hf := fresh "Hf" in
             pose proof (gatherVertexInputs_frame m s) as Hf;
             destruct (gatherVertexInputs m s) as [[] ?|? ?] eqn:Ho;
             cbn in Hf |- *; injection Hf as ?
         end.

Ltac bool_facts :=
  repeat match goal with
         | H : bool_decide _ = true |- _ => apply bool_decide_eq_true in H
         | H : bool_decide _ = false |- _ => apply bool_decide_eq_false in H
         | H : negb _ = true |- _ => apply negb_true_iff in H
         | H : negb _ = false |- _ => apply negb_false_iff in H
         | H : (_ && _) = true |- _ => apply andb_prop in H; destruct H
         end.

(** C8 (as amended): in [compile], [vkCreateShaderModule] is called exactly
    when compilation succeeded and the SPIR-V is not empty (and otherwise
    the module handle is left as it was); the value [compile] returns is
    [mCompiled], which is the negation of the error flag; so a compilation
    whose SPIR-V has zero length produces no module, and [compile] still
    returns true for it when no step flagged an error. *)
Theorem compile_shader_module (checkErrors : bool) (p : VulkanProgram) :
  let o := compile checkErrors p in
  let p' := state_of o in
  (mCompiled p' = true -> mSpirv p' <> [] ->
   vkCreateShaderModuleCalls p' = vkCreateShaderModuleCalls p ++ [mSpirv p']) /\
  (mCompiled p' = false \/ mSpirv p' = [] ->
   vkCreateShaderModuleCalls p' = vkCreateShaderModuleCalls p /\
   mShaderModule p' = mShaderModule p) /\
  mCompiled p' = negb (mCompileError p') /\
  (forall b s, o = Returns b s -> b = mCompiled s) /\
  (mSpirv p' = [] -> mCompileError p' = false -> result_of o = inl true).
Proof.
  intros o p'; subst o p'.
  pose proof (parse_frame (set_mCompileError false (set_mCompiled false p))) as Hfr.
  cbv [compile bind modify get when ret raise]. cbn.
  set (q := parseNumBindingsFromSource _) in *.
  injection Hfr as Hcalls _ _ _ _ Hmod _ _ _ _ _ _.
  cbn in Hcalls, Hmod.
  compile_cases.
  all: use_gather_frame.
  all: bool_facts.
  all: cbn in *.
  all: repeat split; intros;
         repeat match goal with
                | H : _ \/ _ |- _ => destruct H
                | H : Returns _ _ = Returns _ _ |- _ => injection H as <- <-
                end;
         cbn in *; rewrite_known; try done; try congruence.
  all: match goal with
       | H1 : _ = mCompiled ?s, H2 : _ = mCompileError ?s |- _ =>
           rewrite <- H1, <- H2; rewrite_known; done
       end.
Qed.
Lemma getEshLanguage_congr (p q : VulkanProgram) :
  mType_ p = mType_ q -> getEshLanguage p = getEshLanguage q.
Proof. unfold getEshLanguage. by intros ->. Qed.

(** What [compile] answers and derives depends on the source and the stage
    kind only; the vertex inputs are either left as they were or rebuilt from
    the SPIR-V alone. *)
Lemma compile_congr (checkErrors : bool) (p q : VulkanProgram) :
  mSource p = mSource q -> mType_ p = mType_ q ->
  let p' := state_of (compile checkErrors p) in
  let q' := state_of (compile checkErrors q) in
  result_of (compile checkErrors p) = result_of (compile checkErrors q) /\
  (mCompiled p', mCompileError p', mSpirv p', mDescBindingRanges p')
  = (mCompiled q', mCompileError q', mSpirv q', mDescBindingRanges q') /\
  (((mNumSystemGenVertexInputs p', mVertexInputs p')
    = (mNumSystemGenVertexInputs p, mVertexInputs p) /\
    (mNumSystemGenVertexInputs q', mVertexInputs q')
    = (mNumSystemGenVertexInputs q, mVertexInputs q)) \/
   (mNumSystemGenVertexInputs p', mVertexInputs p')
   = (mNumSystemGenVertexInputs q', mVertexInputs q')).
Proof.
  intros Hsrc Hty p' q'; subst p' q'.
  pose proof (parse_frame (set_mCompileError false (set_mCompiled false p))) as Hfp.
  pose proof (parse_frame (set_mCompileError false (set_mCompiled false q))) as Hfq.
  destruct (parse_congr (set_mCompileError false (set_mCompiled false p))
                        (set_mCompileError false (set_mCompiled false q)))
    as [Htbl Herr]; [done..|].
  cbv [compile bind modify get when ret raise]. cbn.
  set (qp := parseNumBindingsFromSource (set_mCompileError false (set_mCompiled false p))) in *.
  set (qq := parseNumBindingsFromSource (set_mCompileError false (set_mCompiled false q))) in *.
  injection Hfp as ?. injection Hfq as ?. cbn in *.
  assert (Hs : mSource qq = mSource qp) by congruence.
  assert (Hl : getEshLanguage qq = getEshLanguage qp)
    by (apply getEshLanguage_congr; congruence).
  symmetry in Herr. symmetry in Htbl.
  compile_cases_with ltac:(rewrite ?Hs, ?Hl, ?Herr, ?Htbl).
  all: try (split; [congruence|]; split; [congruence|];
            first [left; split; congruence | right; congruence]).
  match goal with
  | |- context [gatherVertexInputs ?m ?s] =>
      match goal with
      | |- context [gatherVertexInputs m ?t] =>
          lazymatch t with
          | s => fail
          | _ =>
              pose proof (gatherVertexInputs_congr m s t) as Hc;
              pose proof (gatherVertexInputs_frame m s) as Hfs;
              pose proof (gatherVertexInputs_frame m t) as Hft;
              destruct (gatherVertexInputs m s) as [[] ?|? ?];
              destruct (gatherVertexInputs m t) as [[] ?|? ?];
              cbn in Hc, Hfs, Hft |- *;
              destruct Hc as (Hc1 & Hc2 & Hc3);
              injection Hfs as ?; injection Hft as ?
          end
      end
  end; try discriminate.
  all: split; [congruence|]; split; [congruence|]; right; congruence.
Qed.

(** C4 (as amended): compiling the same unchanged source twice gives the
    same answer (or raises the same error) and leaves the same derived
    state both times - success and error flags, SPIR-V words, binding range
    table, vertex-input list and its system-generated count.  [compile]
    does not build the constant definitions: it leaves them, the binding
    parameters and the shared parameter buffers as they were. *)
Theorem compile_twice (checkErrors : bool) (p : VulkanProgram) :
  let o1 := compile checkErrors p in
  let o2 := compile checkErrors (state_of o1) in
  result_of o2 = result_of o1 /\
  compiledView (state_of o2) = compiledView (state_of o1) /\
  compileFrame (state_of o1) = compileFrame p.
Proof.
  intros o1 o2; subst o1 o2.
  assert (Hframe : compileFrame (state_of (compile checkErrors p)) = compileFrame p).
  { pose proof (parse_frame (set_mCompileError false (set_mCompiled false p))) as Hfr.
    cbv [compile bind modify get when ret raise]. cbn.
    set (q := parseNumBindingsFromSource _) in *.
    injection Hfr as ?. cbn in *.
    compile_cases; use_gather_frame; unfold compileFrame; cbn; congruence. }
  split; [|split; [|done]].
  - injection Hframe as _ Hsrc Hty _.
    destruct (compile_congr checkErrors (state_of (compile checkErrors p)) p Hsrc Hty)
      as (Hres & _ & _). done.
  - injection Hframe as _ Hsrc Hty _.
    destruct (compile_congr checkErrors (state_of (compile checkErrors p)) p Hsrc Hty)
      as (_ & Hcore & Hvin).
    unfold compiledView. cbv zeta in Hcore, Hvin.
    destruct Hvin as [[Hvin _]|Hvin]; congruence.
Qed.

(** ** Constant definitions *)

Lemma wrap64_defWords (def : GpuConstantDefinition) (v : Z) :
  defWords (set_physicalIndex v def) = defWords def.
Proof. done. Qed.

Lemma bufferOf_set_physicalIndex (def : GpuConstantDefinition) (v : Z) :
  bufferOf (set_physicalIndex v def) = bufferOf def.
Proof. done. Qed.

(** One placement: the definition gets the running size of its buffer as
    physical index, and that buffer alone moves on by its word count. *)
Lemma placeInBuffer_spec (def : GpuConstantDefinition) (p : VulkanProgram) :
  exists p',
    placeInBuffer def p
    = Returns (set_physicalIndex (runningSize (bufferOf def) p) def) p' /\
    (forall b, runningSize b p'
               = if decide (b = bufferOf def)
                 then wrap64 (runningSize b p + defWords def)
                 else runningSize b p) /\
    mConstantDefsSorted p' = mConstantDefsSorted p /\
    mConstantDefsBindingParams p' = mConstantDefsBindingParams p /\
    reflectFrame p' = reflectFrame p.
Proof.
  unfold placeInBuffer, bufferOf, bind, get, modify, ret.
  destruct (isFloat (constType def)); [|destruct (isUnsignedInt (constType def))];
    eexists; (split; [reflexivity|]); (split; [|done]);
    intros []; by cbn.
Qed.

Lemma publish_spec (varName : string) (dims_count : Z) (def : GpuConstantDefinition)
    (p : VulkanProgram) :
  exists p',
    publish varName dims_count def p = Returns tt p' /\
    mConstantDefsSorted p' = mConstantDefsSorted p ++ [def] /\
    (forall b, runningSize b p' = runningSize b p) /\
    mConstantDefsBindingParams p' = mConstantDefsBindingParams p /\
    reflectFrame p' = reflectFrame p.
Proof.
  unfold publish, bind, when, modify, ret.
  destruct (negb (dims_count =? 0)); eexists; (split; [reflexivity|]);
    (repeat split; try done); by intros [].
Qed.

Arguments placeInBuffer : simpl never.
Arguments publish : simpl never.

(** What the body of the member loop does, by the outcome of the type
    selection. *)
Lemma processMember_spec (prevSize : Z) (bv : SpvReflectBlockVariable) (p : VulkanProgram) :
  match memberShape bv with
  | ShapeConst t =>
      exists d p',
        processMember prevSize bv p = Returns tt p' /\
        constType d = t /\ logicalIndex d = prevSize /\
        physicalIndex d = runningSize (bufferOf d) p /\
        mConstantDefsSorted p' = mConstantDefsSorted p ++ [d] /\
        (forall b, runningSize b p'
                   = if decide (b = bufferOf d)
                     then wrap64 (runningSize b p + defWords d)
                     else runningSize b p) /\
        mConstantDefsBindingParams p' = mConstantDefsBindingParams p /\
        reflectFrame p' = reflectFrame p
  | ShapeContinue => processMember prevSize bv p = Returns tt p
  | ShapeRaise e => processMember prevSize bv p = Raises e p
  end.
Proof.
  unfold processMember. destruct (memberShape bv) as [t| |e]; [|done..].
  match goal with |- context [placeInBuffer ?d] => set (def := d) end.
  destruct (placeInBuffer_spec def p) as (p1 & E1 & Hsz1 & Hs1 & Hb1 & Hf1).
  set (d := set_physicalIndex (runningSize (bufferOf def) p) def) in *.
  destruct (publish_spec (bv_name bv) (array_dims_count bv) d p1)
    as (p2 & E2 & Hs2 & Hsz2 & Hb2 & Hf2).
  exists d. eexists. unfold bind at 1. rewrite E1. unfold bind, modify. rewrite E2.
  split; [reflexivity|]. cbn.
  repeat split; try done; try congruence.
  - intros b. change (bufferOf d) with (bufferOf def).
    change (defWords d) with (defWords def).
    rewrite <- Hsz1, <- Hsz2. by destruct b.
  - rewrite <- Hf1, <- Hf2. done.
Qed.

Lemma chain_app (a b c : Z) (ds1 ds2 : list GpuConstantDefinition) :
  chain a ds1 b -> chain b ds2 c -> chain a (ds1 ++ ds2) c.
Proof.
  revert a; induction ds1 as [|d ds1 IH]; intros a; simpl.
  - by intros ->.
  - intros [-> H1] H2. split; [done|]. by apply IH.
Qed.

Lemma inBuffer_app (b : ParamBuffer) (ds1 ds2 : list GpuConstantDefinition) :
  inBuffer b (ds1 ++ ds2) = inBuffer b ds1 ++ inBuffer b ds2.
Proof. apply filter_app. Qed.

Lemma Appended_refl (p : VulkanProgram) : Appended p p.
Proof. exists []. split; [by rewrite app_nil_r|]. by intros b. Qed.

Lemma Appended_trans (p q r : VulkanProgram) :
  Appended p q -> Appended q r -> Appended p r.
Proof.
  intros (ds1 & H1 & C1) (ds2 & H2 & C2). exists (ds1 ++ ds2). split.
  - by rewrite H2, H1, app_assoc.
  - intros b. rewrite inBuffer_app. eapply chain_app; [apply C1|apply C2].
Qed.

(** Appending one placed definition. *)
Lemma Appended_one (p p' : VulkanProgram) (d : GpuConstantDefinition) :
  mConstantDefsSorted p' = mConstantDefsSorted p ++ [d] ->
  physicalIndex d = runningSize (bufferOf d) p ->
  (forall b, runningSize b p'
             = if decide (b = bufferOf d)
               then wrap64 (runningSize b p + defWords d)
               else runningSize b p) ->
  Appended p p'.
Proof.
  intros Hs Hp Hsz. exists [d]. split; [done|]. intros b. specialize (Hsz b).
  unfold inBuffer. rewrite filter_cons, filter_nil.
  destruct (decide (bufferOf d = b)) as [<-|Hne]; simpl.
  - rewrite decide_True in Hsz by done. done.
  - rewrite decide_False in Hsz by done. done.
Qed.

(** Writes that touch neither the sorted list nor a running size. *)
Lemma Appended_same (p p' : VulkanProgram) :
  mConstantDefsSorted p' = mConstantDefsSorted p ->
  (forall b, runningSize b p' = runningSize b p) ->
  Appended p p'.
Proof.
  intros Hs Hsz. exists []. split; [by rewrite app_nil_r|]. intros b; simpl. apply Hsz.
Qed.

Lemma Reflected_refl (p : VulkanProgram) : Reflected p p.
Proof. split; [apply Appended_refl|done]. Qed.

Lemma Reflected_trans (p q r : VulkanProgram) :
  Reflected p q -> Reflected q r -> Reflected p r.
Proof.
  intros [A1 F1] [A2 F2]. split; [by eapply Appended_trans|congruence].
Qed.

Lemma processMember_Reflected (prevSize : Z) (bv : SpvReflectBlockVariable) :
  steps Reflected (processMember prevSize bv).
Proof.
  intros p. pose proof (processMember_spec prevSize bv p) as H.
  destruct (memberShape bv) as [t| |e].
  - destruct H as (d & p' & -> & _ & _ & Hp & Hs & Hsz & _ & Hf). simpl.
    split; [by eapply Appended_one|done].
  - rewrite H. apply Reflected_refl.
  - rewrite H. apply Reflected_refl.
Qed.

Arguments processMember : simpl never.

Lemma processUniformBuffer_Reflected (prevSize : Z) (b : SpvReflectDescriptorBinding) :
  steps Reflected (processUniformBuffer prevSize b).
Proof.
  unfold processUniformBuffer.
  apply steps_bind; [apply Reflected_trans| |intros _].
  - apply steps_forEach; [apply Reflected_refl|apply Reflected_trans|].
    apply processMember_Reflected.
  - apply steps_bind; [apply Reflected_trans|apply steps_get, Reflected_refl|intros p].
    apply steps_bind; [apply Reflected_trans| |intros _; apply steps_ret, Reflected_refl].
    apply steps_modify. intros s. split; [|done].
    apply Appended_same; [done|by intros []].
Qed.

Lemma processOtherBinding_Reflected (prevSize : Z) (b : SpvReflectDescriptorBinding) :
  steps Reflected (processOtherBinding prevSize b).
Proof.
  intros p. unfold processOtherBinding.
  match goal with |- context [placeInBuffer ?d] => set (def := d) end.
  destruct (placeInBuffer_spec def p) as (p1 & E1 & Hsz1 & Hs1 & Hb1 & Hf1).
  set (d := set_physicalIndex (runningSize (bufferOf def) p) def) in *.
  match goal with |- context [publish ?n ?k] => set (name := n) end.
  destruct (publish_spec name (db_array_dims_count b) d p1)
    as (p2 & E2 & Hs2 & Hsz2 & Hb2 & Hf2).
  unfold bind at 1. rewrite E1. unfold bind at 1. fold d. rewrite E2.
  unfold bind, modify, ret. cbn.
  split.
  - apply (Appended_one _ _ d); cbn; [congruence|done|].
    intros b'. change (bufferOf d) with (bufferOf def).
    change (defWords d) with (defWords def).
    rewrite <- Hsz1, <- Hsz2. by destruct b'.
  - rewrite <- Hf1, <- Hf2. done.
Qed.

Lemma processBinding_Reflected (prevSize : Z) (b : SpvReflectDescriptorBinding) :
  steps Reflected (processBinding prevSize b).
Proof.
  unfold processBinding.
  destruct (negb (binding b =? OGRE_VULKAN_PARAMETER_SLOT));
    [apply steps_ret, Reflected_refl|].
  destruct (descriptor_type b =? VK_DESCRIPTOR_TYPE_UNIFORM_BUFFER).
  - apply processUniformBuffer_Reflected.
  - apply processOtherBinding_Reflected.
Qed.

Lemma buildConstantDefinitions_Reflected : steps Reflected buildConstantDefinitions.
Proof.
  unfold buildConstantDefinitions.
  apply steps_bind; [apply Reflected_trans|apply steps_get, Reflected_refl|intros p].
  destruct (mCompileError p); [apply steps_ret, Reflected_refl|].
  destruct (bool_decide (mSpirv p = [])); [apply steps_ret, Reflected_refl|].
  destruct (spvReflectCreateShaderModule (mSpirv p)) as [result module].
  destruct (negb (result =? _)); [apply steps_raise, Reflected_refl|].
  destruct (spvReflectEnumerateDescriptorSets module) as [result' sets].
  destruct (negb (result' =? _)); [apply steps_raise, Reflected_refl|].
  apply steps_forEach; [apply Reflected_refl|apply Reflected_trans|].
  intros reflSet. unfold processSet.
  apply steps_bind; [apply Reflected_trans| |intros _; apply steps_ret, Reflected_refl].
  apply steps_foldM; [apply Reflected_refl|apply Reflected_trans|].
  apply processBinding_Reflected.
Qed.

Lemma totalWords_nonneg (ds : list GpuConstantDefinition) :
  Forall (fun d => 0 <= arraySize d /\ 0 <= elementSize d) ds -> 0 <= totalWords ds.
Proof.
  induction 1 as [|d ds [Ha He] _ IH]; simpl; [done|]. nia.
Qed.

(** Without wrap-around a chain is laid out back to back: it ends at the
    start plus the total, and a later definition begins at or after the end
    of an earlier one. *)
Lemma chain_ordered (running final : Z) (ds : list GpuConstantDefinition) :
  chain running ds final ->
  0 <= running ->
  Forall (fun d => 0 <= arraySize d /\ 0 <= elementSize d) ds ->
  running + totalWords ds < 2 ^ 64 ->
  final = running + totalWords ds /\
  forall (i j : nat) (di dj : GpuConstantDefinition),
    (i < j)%nat -> ds !! i = Some di -> ds !! j = Some dj ->
    physicalIndex di <= physicalIndex dj /\
    physicalIndex di + arraySize di * elementSize di <= physicalIndex dj.
Proof.
  revert running; induction ds as [|d ds IH]; intros running Hc H0 Hnn Hlt; simpl in *.
  - split; [lia|]. intros i j di dj _ Hi; by destruct i.
  - destruct Hc as [Hphys Hc]. inversion Hnn as [|? ? [Ha He] Hnn']; subst.
    pose proof (totalWords_nonneg ds Hnn') as Htw.
    assert (Hw : 0 <= arraySize d * elementSize d) by nia.
    assert (Hstep : wrap64 (physicalIndex d + defWords d)
                    = physicalIndex d + arraySize d * elementSize d).
    { unfold defWords. rewrite (wrap64_small (arraySize d * elementSize d)) by lia.
      apply wrap64_small. lia. }
    rewrite Hstep in Hc.
    destruct (IH _ Hc) as [Hfin Hord]; [lia|done|lia|].
    split; [lia|].
    intros i j di dj Hij Hi Hj.
    destruct j as [|j]; [lia|]. simpl in Hj.
    destruct i as [|i]; simpl in Hi.
    + injection Hi as <-.
      assert (Hge : physicalIndex d + arraySize d * elementSize d <= physicalIndex dj).
      { clear - Hc Hj Hnn' Hw H0 Hord Htw Hlt.
        destruct j as [|j].
        - destruct ds as [|d0 ds']; [done|]. simpl in Hj. injection Hj as <-.
          simpl in Hc. lia.
        - destruct ds as [|d0 ds']; [done|]. simpl in Hc. destruct Hc as [Hp0 _].
          destruct (Hord O (S j) d0 dj) as [? _]; [lia|done|done|]. lia. }
      lia.
    + apply (Hord i j); [lia|done|done].
Qed.

(** C3: within each of the three parameter buffers, the definitions that
    [buildConstantDefinitions] appends form a chain: each one's physical
    offset is that buffer's running size before its append and the running
    size then advances by arraySize * elementSize words.  Consequently (the
    sizes being non-negative and the running size staying inside [size_t])
    the buffer ends at its old size plus the words appended, physical
    offsets never decrease in discovery order, and a later definition starts
    at or after the end of an earlier one: their word ranges do not overlap. *)
Theorem physical_offsets_in_order (p : VulkanProgram) (b : ParamBuffer) :
  let p' := state_of (buildConstantDefinitions p) in
  let appended := drop (length (mConstantDefsSorted p)) (mConstantDefsSorted p') in
  let defs := inBuffer b appended in
  0 <= runningSize b p ->
  Forall (fun d => 0 <= arraySize d /\ 0 <= elementSize d) defs ->
  runningSize b p + totalWords defs < 2 ^ 64 ->
  mConstantDefsSorted p' = mConstantDefsSorted p ++ appended /\
  chain (runningSize b p) defs (runningSize b p') /\
  runningSize b p' = runningSize b p + totalWords defs /\
  forall (i j : nat) (di dj : GpuConstantDefinition),
    (i < j)%nat -> defs !! i = Some di -> defs !! j = Some dj ->
    physicalIndex di <= physicalIndex dj /\
    physicalIndex di + arraySize di * elementSize di <= physicalIndex dj.
Proof.
  intros p' appended defs H0 Hnn Hlt.
  destruct (buildConstantDefinitions_Reflected p) as [(ds & Hds & Hchain) _].
  fold p' in Hds, Hchain.
  assert (Happ : appended = ds).
  { unfold appended. rewrite Hds. by rewrite drop_app_length. }
  subst defs. rewrite Happ in *.
  split; [done|]. split; [apply Hchain|].
  by apply (chain_ordered _ _ _ (Hchain b)).
Qed.

(** C10: when the compile-error flag is set or the SPIR-V is empty,
    [buildConstantDefinitions] returns at once: it raises nothing and leaves
    the whole program state - sorted definitions, named constants, the shared
    logical-to-physical maps and buffer sizes - exactly as it was. *)
Theorem buildConstantDefinitions_skips (p : VulkanProgram) :
  mCompileError p = true \/ mSpirv p = [] ->
  buildConstantDefinitions p = Returns tt p.
Proof.
  intros H. unfold buildConstantDefinitions, bind, get, ret.
  destruct (mCompileError p); [done|].
  destruct H as [H|H]; [done|]. by rewrite H.
Qed.

(** ** Block members *)

Lemma vector_count_match {X : Type} (c : Z) (x1 x2 x3 x4 x : X) :
  match c with 1 => x1 | 2 => x2 | 3 => x3 | 4 => x4 | _ => x end
  = if c =? 1 then x1 else if c =? 2 then x2 else if c =? 3 then x3
    else if c =? 4 then x4 else x.
Proof.
  destruct c as [|q|q]; try reflexivity.
  destruct q as [q|q|]; try reflexivity;
    destruct q as [q|q|]; try reflexivity;
    destruct q; reflexivity.
Qed.

Lemma matrixConstantType_spec (r c : Z) :
  In (r, c, matrixConstantType r c GCT_MATRIX_4X4) matrixShapes \/
  (matrixConstantType r c GCT_MATRIX_4X4 = GCT_MATRIX_4X4 /\
   forall t, ~ In (r, c, t) matrixShapes).
Proof.
  unfold matrixConstantType.
  repeat match goal with
         | |- context [if ?b then _ else _] =>
             destruct b eqn:?;
             [left;
              match goal with
              | H : (_ && _) = true |- _ =>
                  apply andb_prop in H as [?%Z.eqb_eq ?%Z.eqb_eq]; subst;
                  simpl; tauto
              end|]
         end.
  right. split; [done|]. intros t Hin. simpl in Hin.
  repeat match goal with
         | H : (_ && _) = false |- _ => apply andb_false_iff in H
         end.
  repeat match goal with
         | H : _ \/ _ |- _ => destruct H
         | H : (_, _, _) = (_, _, _) |- _ => injection H as <- <- <-
         | H : (_ =? _) = false |- _ => apply Z.eqb_neq in H
         end; try done.
Qed.

(** The type selection of the code agrees with the lookup by shape. *)
Lemma memberShape_spec (bv : SpvReflectBlockVariable) :
  match memberShape bv with
  | ShapeConst t =>
      MemberEmits bv t /\ isStructMember bv = false /\ isIllegalVector bv = false
  | ShapeContinue => isStructMember bv = true /\ isIllegalVector bv = false
  | ShapeRaise e =>
      isIllegalVector bv = true /\
      (e = ExcInvalidFloatVectorComponentCount \/ e = ExcInvalidIntVectorComponentCount)
  end.
Proof.
  unfold memberShape, isStructMember, isIllegalVector, isMatrixMember.
  destruct (bool_decide (VulkanMappings_get_op (bv_op bv) = GCT_MATRIX_4X4)) eqn:Em.
  - apply bool_decide_eq_true in Em. rewrite Em. simpl. split; [|done].
    destruct (matrixConstantType_spec (matrix_row_count bv) (matrix_column_count bv))
      as [Hin|[-> Hout]].
    + apply Emits_matrix; [unfold isMatrixMember; by rewrite Em, bool_decide_eq_true_2|done].
    + apply Emits_matrix_other_shape;
        [unfold isMatrixMember; by rewrite Em, bool_decide_eq_true_2|done].
  - simpl.
    destruct (has_flag (bv_type_flags bv) SPV_REFLECT_TYPE_FLAG_VECTOR) eqn:Ev; simpl.
    + destruct (has_flag (bv_type_flags bv) SPV_REFLECT_TYPE_FLAG_FLOAT) eqn:Ef; simpl.
      * rewrite vector_count_match.
        repeat match goal with
               | |- context [if ?c =? ?k then _ else _] =>
                   destruct (c =? k) eqn:?;
                   [match goal with
                    | H : (_ =? _) = true |- _ => apply Z.eqb_eq in H; rewrite H
                    end;
                    split; [|done];
                    apply Emits_float_vector; try done;
                    match goal with H : _ = _ |- _ => rewrite H end; simpl; tauto|]
               end.
        split; [|by left].
        repeat match goal with
               | H : (_ =? _) = false |- _ => apply Z.eqb_neq in H
               end.
        apply negb_true_iff, andb_false_iff.
        destruct (1 <=? vector_component_count bv) eqn:E1; [right|by left].
        apply Z.leb_le in E1. apply Z.leb_gt. lia.
      * destruct (has_flag (bv_type_flags bv) SPV_REFLECT_TYPE_FLAG_INT) eqn:Ei; simpl.
        -- rewrite vector_count_match.
           repeat match goal with
                  | |- context [if ?c =? ?k then _ else _] =>
                      destruct (c =? k) eqn:?;
                      [match goal with
                       | H : (_ =? _) = true |- _ => apply Z.eqb_eq in H; rewrite H
                       end;
                       split; [|done];
                       apply Emits_int_vector; try done;
                       match goal with H : _ = _ |- _ => rewrite H end; simpl; tauto|]
                  end.
           split; [|by right].
           repeat match goal with
                  | H : (_ =? _) = false |- _ => apply Z.eqb_neq in H
                  end.
           apply negb_true_iff, andb_false_iff.
           destruct (1 <=? vector_component_count bv) eqn:E1; [right|by left].
           apply Z.leb_le in E1. apply Z.leb_gt. lia.
        -- split; [|done]. by apply Emits_other_vector.
    + destruct (has_flag (bv_type_flags bv) SPV_REFLECT_TYPE_FLAG_STRUCT) eqn:Es; [done|].
      split; [|done]. by apply Emits_scalar.
Qed.

(** The member loop: one definition per member that is not a struct, in
    order, unless a member is an illegal vector. *)
Lemma members_loop (prevSize : Z) (members : list SpvReflectBlockVariable)
    (p : VulkanProgram) :
  (Forall (fun bv => isIllegalVector bv = false) members ->
   exists ds p',
     forEach members (processMember prevSize) p = Returns tt p' /\
     mConstantDefsSorted p' = mConstantDefsSorted p ++ ds /\
     Forall2 (fun bv d => MemberEmits bv (constType d) /\ logicalIndex d = prevSize)
             (filter (fun bv => isStructMember bv = false) members) ds /\
     mConstantDefsBindingParams p' = mConstantDefsBindingParams p) /\
  (Exists (fun bv => isIllegalVector bv = true) members ->
   exists e s,
     forEach members (processMember prevSize) p = Raises e s /\
     (e = ExcInvalidFloatVectorComponentCount \/ e = ExcInvalidIntVectorComponentCount)).
Proof.
  revert p; induction members as [|bv members IH]; intros p.
  - split.
    + intros _. exists [], p. simpl. by rewrite app_nil_r.
    + intros H; inversion H.
  - pose proof (processMember_spec prevSize bv p) as Hm.
    pose proof (memberShape_spec bv) as Hs.
    simpl forEach. unfold bind.
    destruct (memberShape bv) as [t| |e].
    + destruct Hm as (d & p1 & -> & Ht & Hl & _ & Hsort & _ & Hbp & _).
      destruct Hs as (Hemit & Hstr & Hill).
      destruct (IH p1) as [IH1 IH2]. split.
      * intros Hall. inversion Hall as [|? ? _ Hall']; subst.
        destruct (IH1 Hall') as (ds & p' & E & Hs' & HF & Hb').
        exists (d :: ds), p'. rewrite E. split; [done|]. split.
        { rewrite Hs', Hsort. by rewrite <- app_assoc. }
        split; [|congruence].
        rewrite filter_cons. rewrite decide_True by done.
        constructor; [done|done].
      * intros Hex. inversion Hex as [? ? Hbad|? ? Hex']; subst; [congruence|].
        apply (IH2 Hex').
    + rewrite Hm. destruct Hs as (Hstr & Hill).
      destruct (IH p) as [IH1 IH2]. split.
      * intros Hall. inversion Hall as [|? ? _ Hall']; subst.
        destruct (IH1 Hall') as (ds & p' & E & Hs' & HF & Hb').
        exists ds, p'. split; [done|]. split; [done|]. split; [|done].
        rewrite filter_cons. rewrite decide_False by congruence. done.
      * intros Hex. inversion Hex as [? ? Hbad|? ? Hex']; subst; [congruence|].
        apply (IH2 Hex').
    + rewrite Hm. destruct Hs as (Hill & He). split.
      * intros Hall. inversion Hall; subst. congruence.
      * intros _. by exists e, p.
Qed.

Lemma processBinding_uniform (prevSize : Z) (reflBinding : SpvReflectDescriptorBinding) :
  binding reflBinding = OGRE_VULKAN_PARAMETER_SLOT ->
  descriptor_type reflBinding = VK_DESCRIPTOR_TYPE_UNIFORM_BUFFER ->
  processBinding prevSize reflBinding = processUniformBuffer prevSize reflBinding.
Proof.
  intros H1 H2. unfold processBinding. by rewrite H1, Z.eqb_refl, H2, Z.eqb_refl.
Qed.

(** C9 (as amended): for a uniform block bound at the reserved parameter
    slot, [buildConstantDefinitions] appends, in member order, exactly one
    definition for every member that is not a struct, with the semantic type
    its shape selects (the nine matrix shapes by rows and columns, float and
    integer vectors by component count 1-4) and the current logical offset;
    struct-typed members are skipped and get no definition; a float or
    integer vector with any other component count raises a fatal error. *)
Theorem uniform_block_members (prevSize : Z) (reflBinding : SpvReflectDescriptorBinding)
    (p : VulkanProgram) :
  binding reflBinding = OGRE_VULKAN_PARAMETER_SLOT ->
  descriptor_type reflBinding = VK_DESCRIPTOR_TYPE_UNIFORM_BUFFER ->
  let members := block_members reflBinding in
  (Forall (fun bv => isIllegalVector bv = false) members ->
   exists ds prevSize' p',
     processBinding prevSize reflBinding p = Returns prevSize' p' /\
     mConstantDefsSorted p' = mConstantDefsSorted p ++ ds /\
     Forall2 (fun bv d => MemberEmits bv (constType d) /\ logicalIndex d = prevSize)
             (filter (fun bv => isStructMember bv = false) members) ds) /\
  (Exists (fun bv => isIllegalVector bv = true) members ->
   exists e s,
     processBinding prevSize reflBinding p = Raises e s /\
     (e = ExcInvalidFloatVectorComponentCount \/ e = ExcInvalidIntVectorComponentCount)).
Proof.
  intros Hslot Hty members. rewrite processBinding_uniform by done.
  unfold processUniformBuffer. fold members.
  destruct (members_loop prevSize members p) as [H1 H2]. split.
  - intros Hall. destruct (H1 Hall) as (ds & p' & E & Hs & HF & Hb).
    exists ds. unfold bind at 1. rewrite E.
    unfold bind, get, modify, ret. do 2 eexists. split; [reflexivity|].
    split; [done|done].
  - intros Hex. destruct (H2 Hex) as (e & s & E & He).
    exists e, s. unfold bind at 1. by rewrite E.
Qed.

(** C1 (as amended): for a uniform-buffer binding at the reserved parameter
    slot, the alignment-padded size of the block is added to the running
    logical offset exactly when the binding index has no binding-parameter
    record yet, that is on the first sighting of the index; when the index
    has been recorded before (a repeat sighting) the running offset is left
    unchanged.  Either way the index is recorded afterwards, an earlier
    record being kept. *)
Theorem padding_on_first_sighting (prevSize : Z) (reflBinding : SpvReflectDescriptorBinding)
    (p : VulkanProgram) :
  binding reflBinding = OGRE_VULKAN_PARAMETER_SLOT ->
  descriptor_type reflBinding = VK_DESCRIPTOR_TYPE_UNIFORM_BUFFER ->
  Forall (fun bv => isIllegalVector bv = false) (block_members reflBinding) ->
  exists p',
    processBinding prevSize reflBinding p
    = Returns (match mConstantDefsBindingParams p !! binding reflBinding with
               | None => wrap64 (prevSize
                                 + alignMemory (block_size reflBinding)
                                               minUniformBufferOffsetAlignment)
               | Some _ => prevSize
               end) p' /\
    mConstantDefsBindingParams p'
    = map_insert_new (binding reflBinding)
        {| bp_offset := block_offset reflBinding; bp_size := block_size reflBinding |}
        (mConstantDefsBindingParams p) /\
    is_Some (mConstantDefsBindingParams p' !! binding reflBinding).
Proof.
  intros Hslot Hty Hall. rewrite processBinding_uniform by done.
  unfold processUniformBuffer.
  destruct (members_loop prevSize (block_members reflBinding) p) as [H1 _].
  destruct (H1 Hall) as (ds & p' & E & Hs & HF & Hb).
  unfold bind at 1. rewrite E. unfold bind, get, modify, ret.
  eexists. rewrite Hslot, Hb. split; [|split].
  - destruct (mConstantDefsBindingParams p !! OGRE_VULKAN_PARAMETER_SLOT) eqn:El.
    + rewrite bool_decide_eq_false_2 by done. reflexivity.
    + rewrite bool_decide_eq_true_2 by done. reflexivity.
  - cbn. by rewrite Hb.
  - cbn. rewrite Hb. unfold map_insert_new.
    destruct (mConstantDefsBindingParams p !! OGRE_VULKAN_PARAMETER_SLOT) eqn:El.
    + by rewrite El.
    + by rewrite lookup_insert_eq.
Qed.

(** ** Vertex-input matching *)

(** The location [processElement] looks up for [it] when [uv]
    texture-coordinate elements came before it. *)
Lemma locate_cons (uv : Z) (it : VertexElement2) (rest : list VertexElement2) :
  locate uv (it :: rest)
  = (it, if bool_decide (mSemantic it = VES_TEXTURE_COORDINATES)
         then wrap64 (getAttributeIndexFor (mSemantic it) + uv)
         else getAttributeIndexFor (mSemantic it))
      :: locate (if bool_decide (mSemantic it = VES_TEXTURE_COORDINATES)
                 then wrap64 (uv + 1) else uv) rest.
Proof. simpl. by destruct (bool_decide _). Qed.

Lemma uvAfter_cons (uv : Z) (it : VertexElement2) (rest : list VertexElement2) :
  uvAfter uv (it :: rest)
  = uvAfter (if bool_decide (mSemantic it = VES_TEXTURE_COORDINATES)
             then wrap64 (uv + 1) else uv) rest.
Proof. simpl. by destruct (bool_decide _). Qed.

Lemma consumed_cons (this : VulkanProgram) (it : VertexElement2) (loc : Z)
    (located : list (VertexElement2 * Z)) :
  consumed this ((it, loc) :: located)
  = match findInput this loc with
    | Some _ => it :: consumed this located
    | None => consumed this located
    end.
Proof.
  unfold consumed. rewrite filter_cons. simpl.
  destruct (findInput this loc) eqn:E.
  - rewrite decide_True by (by eexists). done.
  - rewrite decide_False by (intros [? ?]; done). done.
Qed.

(** One turn of the element loop, case by case. *)
Lemma processElement_cases (this : VulkanProgram) (bufferIdx : Z) (it : VertexElement2)
    (s : PsoState) :
  let isUv := bool_decide (mSemantic it = VES_TEXTURE_COORDINATES) in
  let loc := if isUv then wrap64 (getAttributeIndexFor (mSemantic it) + uvCount s)
             else getAttributeIndexFor (mSemantic it) in
  let s0 := if isUv then set_uvCount (wrap64 (uvCount s + 1)) s else s in
  let advance := fun s1 : PsoState =>
    set_bindAccumOffset (wrap32 (bindAccumOffset s1 + getTypeSize (mType it))) s1 in
  let emit := fun (itor : VkVertexInputAttributeDescription) (s1 : PsoState) =>
    incr_numShaderInputsFound
      (push_outVertexInput
         {| location := location itor; attr_binding := wrap32 bufferIdx;
            format := VulkanMappings_get_type (mType it);
            offset := bindAccumOffset s1 |} s1) in
  processElement this bufferIdx it s
  = match findInput this loc with
    | None => Returns tt (advance s0)
    | Some itor =>
        if 1 <? mInstancingStepRate it then Raises ExcInstancingStepRate s0
        else if bool_decide (inputRate_ s = VK_VERTEX_INPUT_RATE_MAX_ENUM)
             then Returns tt (advance (emit itor (set_inputRate (rateOf it) s0)))
             else if ((mInstancingStepRate it =? 0)
                        && negb (bool_decide (inputRate_ s = VK_VERTEX_INPUT_RATE_VERTEX)))
                     || ((mInstancingStepRate it =? 1)
                           && negb (bool_decide (inputRate_ s = VK_VERTEX_INPUT_RATE_INSTANCE)))
                  then Raises ExcMixedVertexAndInstanceRate s0
                  else Returns tt (advance (emit itor s0))
    end.
Proof.
  intros isUv loc s0 advance emit. subst isUv loc s0 advance emit.
  unfold processElement, checkInputRate, rateOf, bind, get, modify, when, ret, raise.
  destruct (bool_decide (mSemantic it = VES_TEXTURE_COORDINATES)); cbn;
    (destruct (findInput this _); [|done]); cbn;
    (destruct (1 <? mInstancingStepRate it); [done|]); cbn;
    (destruct (bool_decide (inputRate_ s = VK_VERTEX_INPUT_RATE_MAX_ENUM)); cbn;
     [by destruct (mInstancingStepRate it =? 0)|]);
    by destruct (_ || _).
Qed.

Lemma bump_succ_r (k : nat) (n : Z) : bump (S k) n = bump k (wrap64 (n + 1)).
Proof. unfold bump. by rewrite Nat.iter_succ_r. Qed.

Lemma bump_le (k : nat) (n : Z) : 0 <= n -> 0 <= bump k n <= n + Z.of_nat k.
Proof.
  intros Hn. induction k as [|k IH]; [simpl; lia|].
  unfold bump in *. simpl Nat.iter.
  pose proof (wrap64_le (Nat.iter k (fun x => wrap64 (x + 1)) n + 1)). lia.
Qed.

Arguments processElement : simpl never.

(** The element loop of one buffer, against the located elements the
    shader consumes. *)
Lemma elements_loop (this : VulkanProgram) (bufferIdx : Z) (els : list VertexElement2)
    (s : PsoState) :
  let used := consumed this (locate (uvCount s) els) in
  match forEach els (processElement this bufferIdx) s with
  | Returns _ s' =>
      uvCount s' = uvAfter (uvCount s) els /\
      numShaderInputsFound s' = bump (length used) (numShaderInputsFound s) /\
      outBufferBindingDescs s' = outBufferBindingDescs s /\
      Forall (fun it => mInstancingStepRate it <= 1) used /\
      Forall (fun it =>
                (mInstancingStepRate it = 0 -> inputRate_ s' = VK_VERTEX_INPUT_RATE_VERTEX) /\
                (mInstancingStepRate it = 1 -> inputRate_ s' = VK_VERTEX_INPUT_RATE_INSTANCE))
             used /\
      (inputRate_ s = VK_VERTEX_INPUT_RATE_MAX_ENUM ->
       match used with
       | [] => inputRate_ s' = VK_VERTEX_INPUT_RATE_MAX_ENUM
       | it :: _ => inputRate_ s' = rateOf it
       end) /\
      (inputRate_ s <> VK_VERTEX_INPUT_RATE_MAX_ENUM -> inputRate_ s' = inputRate_ s)
  | Raises e _ =>
      (e = ExcInstancingStepRate \/ e = ExcMixedVertexAndInstanceRate) /\ used <> []
  end.
Proof.
  revert s; induction els as [|it els IH]; intros s used; subst used.
  - simpl. repeat split; try done; constructor.
  - simpl forEach. unfold bind. rewrite processElement_cases.
    rewrite locate_cons, consumed_cons.
    set (isUv := bool_decide (mSemantic it = VES_TEXTURE_COORDINATES)).
    set (loc := if isUv then _ else _).
    rewrite uvAfter_cons. fold isUv.
    set (uv' := if isUv then wrap64 (uvCount s + 1) else uvCount s).
    set (s0 := if isUv then set_uvCount (wrap64 (uvCount s + 1)) s else s).
    assert (Hs0 : uvCount s0 = uv' /\ inputRate_ s0 = inputRate_ s /\
                  numShaderInputsFound s0 = numShaderInputsFound s /\
                  outBufferBindingDescs s0 = outBufferBindingDescs s)
      by (subst s0 uv'; by destruct isUv).
    destruct Hs0 as (Huv & Hrate & Hfound & Hout).
    destruct (findInput this loc) as [itor|] eqn:Efind.
    + destruct (1 <? mInstancingStepRate it) eqn:Egt; [split; [by left|done]|].
      apply Z.ltb_ge in Egt.
      destruct (bool_decide (inputRate_ s = VK_VERTEX_INPUT_RATE_MAX_ENUM)) eqn:Emax.
      * apply bool_decide_eq_true in Emax.
        match goal with |- context [forEach els _ ?s1] => specialize (IH s1); set (s1' := s1) in * end.
        assert (Hs1 : uvCount s1' = uv' /\ inputRate_ s1' = rateOf it /\
                      numShaderInputsFound s1' = wrap64 (numShaderInputsFound s + 1) /\
                      outBufferBindingDescs s1' = outBufferBindingDescs s)
          by (subst s1'; cbn; by rewrite ?Huv, ?Hfound, ?Hout).
        destruct Hs1 as (Huv1 & Hrate1 & Hfound1 & Hout1).
        rewrite Huv1 in IH. cbv zeta in IH.
        destruct (forEach els (processElement this bufferIdx) s1') as [[] s'|e s'].
        -- destruct IH as (IHuv & IHfound & IHout & IHle & IHcons & _ & IHkeep).
           assert (Hne : inputRate_ s1' <> VK_VERTEX_INPUT_RATE_MAX_ENUM).
           { rewrite Hrate1. unfold rateOf. by destruct (_ =? 0). }
           specialize (IHkeep Hne). rewrite Hrate1 in IHkeep.
           split_and!; try done.
           ++ simpl length. rewrite bump_succ_r. congruence.
           ++ congruence.
           ++ by constructor.
           ++ constructor; [|done]. rewrite IHkeep. unfold rateOf. split; intros ->; done.
        -- destruct IH as [He _]. split; [done|done].
      * apply bool_decide_eq_false in Emax.
        destruct (_ || _) eqn:Emix; [split; [by right|done]|].
        apply orb_false_elim in Emix as [Em0 Em1].
        match goal with |- context [forEach els _ ?s1] => specialize (IH s1); set (s1' := s1) in * end.
        assert (Hs1 : uvCount s1' = uv' /\ inputRate_ s1' = inputRate_ s /\
                      numShaderInputsFound s1' = wrap64 (numShaderInputsFound s + 1) /\
                      outBufferBindingDescs s1' = outBufferBindingDescs s)
          by (subst s1'; cbn; by rewrite ?Huv, ?Hfound, ?Hout, ?Hrate).
        destruct Hs1 as (Huv1 & Hrate1 & Hfound1 & Hout1).
        rewrite Huv1 in IH. cbv zeta in IH.
        destruct (forEach els (processElement this bufferIdx) s1') as [[] s'|e s'].
        -- destruct IH as (IHuv & IHfound & IHout & IHle & IHcons & _ & IHkeep).
           assert (Hne : inputRate_ s1' <> VK_VERTEX_INPUT_RATE_MAX_ENUM) by congruence.
           specialize (IHkeep Hne). rewrite Hrate1 in IHkeep.
           split_and!; try done.
           ++ simpl length. rewrite bump_succ_r. congruence.
           ++ congruence.
           ++ by constructor.
           ++ constructor; [|done]. rewrite IHkeep. split; intros Hr; rewrite Hr in *; simpl in *.
              ** rewrite ?andb_true_l in Em0. apply negb_false_iff, bool_decide_eq_true in Em0. done.
              ** rewrite ?andb_true_l in Em1. apply negb_false_iff, bool_decide_eq_true in Em1. done.
        -- destruct IH as [He _]. split; [done|done].
    + match goal with |- context [forEach els _ ?s1] => specialize (IH s1); set (s1' := s1) in * end.
      assert (Hs1 : uvCount s1' = uv' /\ inputRate_ s1' = inputRate_ s /\
                    numShaderInputsFound s1' = numShaderInputsFound s /\
                    outBufferBindingDescs s1' = outBufferBindingDescs s)
        by (subst s1'; cbn; by rewrite ?Huv, ?Hfound, ?Hout, ?Hrate).
      destruct Hs1 as (Huv1 & Hrate1 & Hfound1 & Hout1).
      rewrite Huv1, Hrate1, Hfound1, Hout1 in IH. cbv zeta in IH.
      destruct (forEach els (processElement this bufferIdx) s1') as [[] s'|e s']; [|done].
      destruct IH as (IHuv & IHfound & IHout & IHle & IHcons & IHfirst & IHkeep).
      repeat split; done.
Qed.

Lemma bump_add (a b : nat) (n : Z) : bump (a + b) n = bump b (bump a n).
Proof. unfold bump. rewrite Nat.add_comm. apply Nat.iter_add. Qed.

Lemma rateOf_not_max (it : VertexElement2) : rateOf it <> VK_VERTEX_INPUT_RATE_MAX_ENUM.
Proof. unfold rateOf. by destruct (_ =? 0). Qed.

(** One buffer: its elements are checked and, when the shader consumes
    any of them, one binding description is appended with the rate of the
    first consumed element. *)
Lemma buffer_step (this : VulkanProgram) (bufferIdx : Z) (els : list VertexElement2)
    (s : PsoState) :
  let used := consumed this (locate (uvCount s) els) in
  match processBuffer this bufferIdx els s with
  | Returns _ s' =>
      uvCount s' = uvAfter (uvCount s) els /\
      numShaderInputsFound s' = bump (length used) (numShaderInputsFound s) /\
      Forall (fun it => mInstancingStepRate it <= 1) used /\
      ~ (Exists (fun it => mInstancingStepRate it = 0) used /\
         Exists (fun it => mInstancingStepRate it = 1) used) /\
      match used with
      | [] => outBufferBindingDescs s' = outBufferBindingDescs s
      | it :: _ =>
          exists stride_,
            outBufferBindingDescs s'
            = outBufferBindingDescs s
                ++ [{| desc_binding := wrap32 bufferIdx; stride := stride_;
                       inputRate := rateOf it |}]
      end
  | Raises e _ =>
      (e = ExcInstancingStepRate \/ e = ExcMixedVertexAndInstanceRate) /\ used <> []
  end.
Proof.
  intros used. unfold processBuffer.
  unfold bind at 1. unfold modify at 1. unfold bind at 1. unfold modify at 1.
  unfold bind at 1.
  pose proof (elements_loop this bufferIdx els
                (set_bindAccumOffset 0 (set_inputRate VK_VERTEX_INPUT_RATE_MAX_ENUM s))) as H.
  cbn [uvCount set_bindAccumOffset set_inputRate numShaderInputsFound
       outBufferBindingDescs inputRate_] in H. cbv zeta in H. fold used in H.
  destruct (forEach els _ _) as [[] s'|e s']; [|done].
  destruct H as (Huv & Hfound & Hout & Hle & Hcons & Hfirst & _).
  specialize (Hfirst eq_refl).
  unfold bind, get, when, modify, ret.
  assert (Hmix : ~ (Exists (fun it => mInstancingStepRate it = 0) used /\
                    Exists (fun it => mInstancingStepRate it = 1) used)).
  { intros [H0 H1]. rewrite Exists_exists in H0, H1.
    destruct H0 as (it0 & Hin0 & Hr0). destruct H1 as (it1 & Hin1 & Hr1).
    rewrite Forall_forall in Hcons.
    destruct (Hcons it0 Hin0) as [Hv _]. destruct (Hcons it1 Hin1) as [_ Hi].
    specialize (Hv Hr0). specialize (Hi Hr1). congruence. }
  destruct used as [|it used'].
  - rewrite Hfirst. cbn. by split_and!.
  - rewrite bool_decide_eq_false_2 by (rewrite Hfirst; apply rateOf_not_max).
    cbn. split_and!; try done. rewrite Hfirst, Hout. by eexists.
Qed.

Arguments processBuffer : simpl never.

(** The loop over the buffers. *)
Lemma buffers_loop (this : VulkanProgram) (bufferIdx : Z)
    (vertexElements : list (list VertexElement2)) (s : PsoState) :
  let locatedAll := locateAll (uvCount s) vertexElements in
  match forEachBuffer this bufferIdx vertexElements s with
  | Returns _ s' =>
      numShaderInputsFound s'
      = bump (length (concat (map (consumed this) locatedAll))) (numShaderInputsFound s) /\
      Forall (fun located =>
                Forall (fun it => mInstancingStepRate it <= 1) (consumed this located) /\
                ~ (Exists (fun it => mInstancingStepRate it = 0) (consumed this located) /\
                   Exists (fun it => mInstancingStepRate it = 1) (consumed this located)))
             locatedAll /\
      exists l,
        outBufferBindingDescs s' = outBufferBindingDescs s ++ l /\
        forall (i : nat) located it used',
          locatedAll !! i = Some located ->
          consumed this located = it :: used' ->
          exists stride_,
            {| desc_binding := wrap32 (bufferIdx + Z.of_nat i); stride := stride_;
               inputRate := rateOf it |} ∈ l
  | Raises e _ =>
      (e = ExcInstancingStepRate \/ e = ExcMixedVertexAndInstanceRate) /\
      Exists (fun located => consumed this located <> []) locatedAll
  end.
Proof.
  revert bufferIdx s; induction vertexElements as [|els rest IH]; intros bufferIdx s.
  - simpl. split_and!; [done|constructor|]. exists []. split; [by rewrite app_nil_r|].
    intros i located it used' Hi; by destruct i.
  - simpl forEachBuffer. simpl locateAll. unfold bind.
    pose proof (buffer_step this bufferIdx els s) as Hb. cbv zeta in Hb.
    destruct (processBuffer this bufferIdx els s) as [[] s1|e s1].
    + destruct Hb as (Huv & Hfound & Hle & Hmix & Hout).
      specialize (IH (bufferIdx + 1) s1). rewrite Huv in IH. cbv zeta in IH.
      destruct (forEachBuffer this (bufferIdx + 1) rest s1) as [[] s'|e s'].
      * destruct IH as (IHfound & IHall & l & IHout & IHdesc).
        split_and!.
        -- simpl. rewrite length_app, bump_add. congruence.
        -- by constructor.
        -- destruct (consumed this (locate (uvCount s) els)) as [|it0 used0] eqn:Eused.
           ++ exists l. split; [congruence|].
              intros [|i] located it used' Hi Hc; simpl in Hi.
              ** injection Hi as <-. congruence.
              ** destruct (IHdesc i located it used' Hi Hc) as [st Hin].
                 exists st. replace (bufferIdx + Z.of_nat (S i)) with (bufferIdx + 1 + Z.of_nat i) by lia.
                 done.
           ++ destruct Hout as [st0 Hout]. eexists (_ :: l). split.
              { rewrite IHout, Hout, <- app_assoc. reflexivity. }
              intros [|i] located it used' Hi Hc; simpl in Hi.
              ** injection Hi as <-. rewrite Eused in Hc. injection Hc as <- <-.
                 exists st0. rewrite Z.add_0_r. by left.
              ** destruct (IHdesc i located it used' Hi Hc) as [st Hin].
                 exists st. replace (bufferIdx + Z.of_nat (S i)) with (bufferIdx + 1 + Z.of_nat i) by lia.
                 by right.
      * destruct IH as [He Hex]. split; [done|by right].
    + destruct Hb as [He Hne]. split; [done|by left].
Qed.

Lemma checkDrawId_spec (this : VulkanProgram) (s : PsoState) :
  exists s',
    checkDrawId this s = Returns tt s' /\
    numShaderInputsFound s'
    = bump (Z.to_nat (drawIdDeclared this)) (numShaderInputsFound s) /\
    exists l, outBufferBindingDescs s' = outBufferBindingDescs s ++ l.
Proof.
  unfold checkDrawId, drawIdDeclared, bind, modify.
  destruct (findInput this 15); eexists; (split; [reflexivity|]); cbn.
  - split; [done|]. by eexists.
  - split; [done|]. exists []. by rewrite app_nil_r.
Qed.

Arguments checkDrawId : simpl never.

Lemma consumed_none (this : VulkanProgram) (locatedAll : list (list (VertexElement2 * Z))) :
  length (concat (map (consumed this) locatedAll)) = O ->
  ~ Exists (fun located => consumed this located <> []) locatedAll.
Proof.
  induction locatedAll as [|x xs IH]; simpl; intros Hlen Hex; [inversion Hex|].
  rewrite length_app in Hlen.
  inversion Hex as [? ? Hne|? ? Hex']; subst.
  - destruct (consumed this x); [done|simpl in Hlen; lia].
  - apply IH; [lia|done].
Qed.

(** The three stages of [getLayoutForPso]. *)
Lemma getLayoutForPso_stages (this : VulkanProgram)
    (vertexElements : list (list VertexElement2))
    (outBufferBindingDescs0 : list VkVertexInputBindingDescription)
    (outVertexInputs0 : list VkVertexInputAttributeDescription) :
  getLayoutForPso this vertexElements outBufferBindingDescs0 outVertexInputs0
  = match forEachBuffer this 0 vertexElements
            {| outBufferBindingDescs := outBufferBindingDescs0;
               outVertexInputs := outVertexInputs0;
               numShaderInputsFound := mNumSystemGenVertexInputs this;
               uvCount := 0;
               inputRate_ := VK_VERTEX_INPUT_RATE_MAX_ENUM;
               bindAccumOffset := 0 |} with
    | Returns _ s1 =>
        match checkDrawId this s1 with
        | Returns _ s2 =>
            if numShaderInputsFound s2 <? Z.of_nat (length (mVertexInputs this))
            then Raises ExcMissingInputAttribute s2
            else Returns tt s2
        | Raises e s2 => Raises e s2
        end
    | Raises e s1 => Raises e s1
    end.
Proof.
  unfold getLayoutForPso, bind, get, when, raise, ret.
  destruct (forEachBuffer _ _ _ _) as [[] s1|e s1]; [|done].
  destruct (checkDrawId this s1) as [[] s2|e s2]; [|done].
  by destruct (_ <? _).
Qed.

(** C5: [getLayoutForPso] counts the system-generated inputs, one for every
    mesh element whose location is found among the shader inputs, and one
    for the draw-index input when declared; when that count is below the
    number of shader inputs the call raises a fatal error.  A mesh element
    whose location is not found is skipped without any check (whatever its
    instancing rate), so when the shader consumes no mesh element at all the
    only error the call can raise is the missing-attribute one. *)
Theorem missing_attribute_is_fatal (this : VulkanProgram)
    (vertexElements : list (list VertexElement2))
    (outBufferBindingDescs0 : list VkVertexInputBindingDescription)
    (outVertexInputs0 : list VkVertexInputAttributeDescription) :
  0 <= mNumSystemGenVertexInputs this ->
  let o := getLayoutForPso this vertexElements outBufferBindingDescs0 outVertexInputs0 in
  (mNumSystemGenVertexInputs this + numConsumed this vertexElements + drawIdDeclared this
   < Z.of_nat (length (mVertexInputs this)) ->
   raised o = true) /\
  (numConsumed this vertexElements = 0 ->
   forall e s, o = Raises e s -> e = ExcMissingInputAttribute) /\
  (forall bufferIdx it s,
     findInput this (if bool_decide (mSemantic it = VES_TEXTURE_COORDINATES)
                     then wrap64 (getAttributeIndexFor (mSemantic it) + uvCount s)
                     else getAttributeIndexFor (mSemantic it)) = None ->
     exists s',
       processElement this bufferIdx it s = Returns tt s' /\
       outVertexInputs s' = outVertexInputs s /\
       numShaderInputsFound s' = numShaderInputsFound s /\
       inputRate_ s' = inputRate_ s).
Proof.
  intros Hsys o. subst o. rewrite getLayoutForPso_stages. unfold numConsumed.
  match goal with |- context [forEachBuffer this 0 vertexElements ?s0] => set (s0' := s0) end.
  pose proof (buffers_loop this 0 vertexElements s0') as Hloop. cbv zeta in Hloop.
  change (uvCount s0') with 0 in Hloop.
  change (numShaderInputsFound s0') with (mNumSystemGenVertexInputs this) in Hloop.
  set (n := length (concat (map (consumed this) (locateAll 0 vertexElements)))) in *.
  assert (Hskip : forall bufferIdx it s,
     findInput this (if bool_decide (mSemantic it = VES_TEXTURE_COORDINATES)
                     then wrap64 (getAttributeIndexFor (mSemantic it) + uvCount s)
                     else getAttributeIndexFor (mSemantic it)) = None ->
     exists s',
       processElement this bufferIdx it s = Returns tt s' /\
       outVertexInputs s' = outVertexInputs s /\
       numShaderInputsFound s' = numShaderInputsFound s /\
       inputRate_ s' = inputRate_ s).
  { intros bufferIdx it s Hnone. rewrite processElement_cases. cbv zeta.
    rewrite Hnone. eexists. split; [reflexivity|].
    by destruct (bool_decide (mSemantic it = VES_TEXTURE_COORDINATES)). }
  destruct (forEachBuffer this 0 vertexElements s0') as [[] s1|e s1].
  - destruct Hloop as (Hfound & _ & _).
    destruct (checkDrawId_spec this s1) as (s2 & -> & Hfound2 & _).
    pose proof (bump_le n (mNumSystemGenVertexInputs this) Hsys) as Hb1.
    rewrite <- Hfound in Hb1.
    pose proof (bump_le (Z.to_nat (drawIdDeclared this)) (numShaderInputsFound s1)
                  ltac:(lia)) as Hb2.
    rewrite <- Hfound2 in Hb2.
    assert (Hd : 0 <= drawIdDeclared this)
      by (unfold drawIdDeclared; destruct (findInput this 15); lia).
    destruct (numShaderInputsFound s2 <? Z.of_nat (length (mVertexInputs this))) eqn:E.
    + split_and!; [done| |done]. intros _ e s Hr. by inversion Hr.
    + apply Z.ltb_ge in E. split_and!; [intros Hlt; lia|done|done].
  - destruct Hloop as [He Hex]. split_and!; [done| |done].
    intros Hzero. exfalso. apply (consumed_none this (locateAll 0 vertexElements)); [|done].
    fold n. lia.
Qed.

(** C6 (as amended): the rate checks of [getLayoutForPso] apply to the
    elements of a vertex buffer that the shader consumes (those whose
    location is found among the shader inputs); elements it does not consume
    are not checked.  For every buffer: a consumed element with instancing
    step rate above 1 makes the call raise; a consumed rate-0 element
    together with a consumed rate-1 element, in either order, makes the call
    raise; and when the call returns, the buffer's binding description has
    the input rate of its first consumed element (0: per vertex, otherwise
    per instance). *)
Theorem rate_checks_on_consumed_elements (this : VulkanProgram)
    (vertexElements : list (list VertexElement2))
    (outBufferBindingDescs0 : list VkVertexInputBindingDescription)
    (outVertexInputs0 : list VkVertexInputAttributeDescription)
    (bufferIdx : nat) (located : list (VertexElement2 * Z)) :
  locateAll 0 vertexElements !! bufferIdx = Some located ->
  let used := consumed this located in
  let o := getLayoutForPso this vertexElements outBufferBindingDescs0 outVertexInputs0 in
  (Exists (fun it => 1 < mInstancingStepRate it) used -> raised o = true) /\
  (Exists (fun it => mInstancingStepRate it = 0) used ->
   Exists (fun it => mInstancingStepRate it = 1) used -> raised o = true) /\
  (forall s it used',
     o = Returns tt s -> used = it :: used' ->
     exists stride_,
       {| desc_binding := wrap32 (Z.of_nat bufferIdx); stride := stride_;
          inputRate := rateOf it |} ∈ outBufferBindingDescs s).
Proof.
  intros Hloc used o. subst o. rewrite getLayoutForPso_stages.
  match goal with |- context [forEachBuffer this 0 vertexElements ?s0] => set (s0' := s0) end.
  pose proof (buffers_loop this 0 vertexElements s0') as Hloop. cbv zeta in Hloop.
  change (uvCount s0') with 0 in Hloop.
  destruct (forEachBuffer this 0 vertexElements s0') as [[] s1|e s1]; [|by split_and!].
  destruct Hloop as (_ & Hall & l & Hout & Hdesc).
  rewrite Forall_forall in Hall.
  destruct (Hall located) as [Hle Hmix]; [by eapply list_elem_of_lookup_2|].
  fold used in Hle, Hmix.
  split_and!.
  - intros Hex. exfalso. rewrite Exists_exists in Hex. destruct Hex as (it & Hin & Hgt).
    rewrite Forall_forall in Hle. specialize (Hle it Hin). lia.
  - intros H0 H1. exfalso. by apply Hmix.
  - intros s it used' Hret Hused.
    destruct (Hdesc bufferIdx located it used' Hloc Hused) as [st Hin].
    exists st. rewrite Z.add_0_l in Hin.
    destruct (checkDrawId_spec this s1) as (s2 & E2 & _ & l2 & Hout2).
    rewrite E2 in Hret.
    destruct (numShaderInputsFound s2 <? _); [done|].
    injection Hret as <-. rewrite Hout2, Hout.
    apply elem_of_app. left. apply elem_of_app. by right.
Qed.

(** * Further properties *)

(** ** The range table and the annotation scan *)

Lemma alter_alter_comm {A : Type} (f g : A -> A) (i j : nat) (l : list A) :
  (forall x, f (g x) = g (f x)) ->
  alter f i (alter g j l) = alter g j (alter f i l).
Proof.
  intros Hfg. revert i j; induction l as [|x l IH]; intros [|i] [|j]; try done.
  - cbn. by rewrite Hfg.
  - cbn. f_equal. apply IH.
Qed.

Lemma alter_alter_idem {A : Type} (f : A -> A) (i : nat) (l : list A) :
  (forall x, f (f x) = f x) -> alter f i (alter f i l) = alter f i l.
Proof.
  intros Hf. revert i; induction l as [|x l IH]; intros [|i]; try done.
  - cbn. by rewrite Hf.
  - cbn. f_equal. apply IH.
Qed.

Lemma merge_comm (a b : Z) (r : VulkanDescBindingRange.t) :
  VulkanDescBindingRange.merge a (VulkanDescBindingRange.merge b r)
  = VulkanDescBindingRange.merge b (VulkanDescBindingRange.merge a r).
Proof. unfold VulkanDescBindingRange.merge; simpl. f_equal; lia. Qed.

Lemma merge_idem (a : Z) (r : VulkanDescBindingRange.t) :
  VulkanDescBindingRange.merge a (VulkanDescBindingRange.merge a r)
  = VulkanDescBindingRange.merge a r.
Proof. unfold VulkanDescBindingRange.merge; simpl. f_equal; lia. Qed.

Lemma mergeAt_comm_idem (i j a i' j' b : Z)
    (tbl : list (list VulkanDescBindingRange.t)) :
  mergeAt i j a (mergeAt i' j' b tbl) = mergeAt i' j' b (mergeAt i j a tbl) /\
  mergeAt i j a (mergeAt i j a tbl) = mergeAt i j a tbl.
Proof.
  unfold mergeAt. split.
  - apply alter_alter_comm. intros row. destruct (decide (Z.to_nat j = Z.to_nat j')) as [E|E].
    + rewrite E. apply alter_alter_comm, merge_comm.
    + apply alter_alter_comm. intros r. apply merge_comm.
  - apply alter_alter_idem. intros row. apply alter_alter_idem. intros r. apply merge_idem.
Qed.

Lemma find_first_of_nonneg (letters : string) (c : ascii) :
  0 <= find_first_of letters c.
Proof.
  unfold find_first_of, find_char.
  destruct (find_bounds (String c EmptyString) letters 0) as [->|[? _]]; [lia| |lia].
  by vm_compute.
Qed.

Lemma annotationAt_indices (src : string)
    (startPos iSetNum letterIdx buffIdx next : Z) :
  annotationAt src startPos = Accepted iSetNum letterIdx buffIdx next ->
  0 <= iSetNum < OGRE_VULKAN_MAX_NUM_BOUND_DESCRIPTOR_SETS /\
  0 <= letterIdx < NumDescBindingTypes /\
  0 <= buffIdx < 65535.
Proof.
  unfold annotationAt.
  repeat match goal with
         | |- context [if ?b then Rejected _ else _] => destruct b eqn:?; [discriminate|]
         end.
  intros [= <- <- <- <-].
  repeat match goal with
         | H : (_ || _) = false |- _ => apply orb_false_elim in H; destruct H
         end.
  match goal with |- context [find_first_of ?l ?c] =>
    pose proof (find_first_of_nonneg l c) end.
  unfold NumDescBindingTypes, numBufferTypes in *. lia.
Qed.

(** The indices of the table write are inside the array: an accepted
    annotation has a set index in [0, max sets), a type index in [0, number
    of binding types) and a slot in [0, 65535). *)
Theorem accepted_annotation_in_range (src : string)
    (startPos iSetNum letterIdx buffIdx next : Z) :
  annotationAt src startPos = Accepted iSetNum letterIdx buffIdx next ->
  0 <= iSetNum < OGRE_VULKAN_MAX_NUM_BOUND_DESCRIPTOR_SETS /\
  0 <= letterIdx < NumDescBindingTypes /\
  0 <= buffIdx < 65535.
Proof.
  unfold annotationAt.
  repeat match goal with
         | |- context [if ?b then Rejected _ else _] => destruct b eqn:?; [discriminate|]
         end.
  intros [= <- <- <- <-].
  repeat match goal with
         | H : (_ || _) = false |- _ => apply orb_false_elim in H; destruct H
         end.
  match goal with |- context [find_first_of ?l ?c] =>
    pose proof (find_first_of_nonneg l c) end.
  unfold NumDescBindingTypes, numBufferTypes in *. lia.
Qed.

Lemma annotationAt_Rejected_nonempty (src : string) (startPos : Z) (msgs : list LogEntry) :
  annotationAt src startPos = Rejected msgs -> msgs <> [].
Proof.
  unfold annotationAt.
  repeat match goal with
         | |- context [if ?b then _ else _] => destruct b
         end; intros [= <-]; done.
Qed.

(** As [scanned_loop], with the number of turns bounded by the length of
    the source. *)
Lemma scanned_turns (src : string) (startPos : Z) (tbl : list (list VulkanDescBindingRange.t)) :
  size src < npos ->
  Scanned src startPos tbl ->
  exists k : nat,
    scanPosition src startPos /\
    (startPos <> npos -> Z.of_nat k <= startPos) /\
    Z.of_nat k <= size src /\
    forall (p : VulkanProgram) (fuel : nat),
      mSource p = src ->
      parseLoop (k + fuel) (find c_ogreSetKeyword src 0)
                (set_mDescBindingRanges freshBindingRanges p)
      = parseLoop fuel startPos (set_mDescBindingRanges tbl p).
Proof.
  intros Hsz Hs. pose proof keyword_size_pos as Hkw.
  induction Hs as [|startPos tbl i j b next Hs (k & Hpos & Hk & Hks & IH) Hne E].
  - exists O. split; [apply scanPosition_first|]. split; [|split; [|done]].
    + intros Hn. destruct (find_bounds c_ogreSetKeyword src 0) as [?|[? ?]]; [lia|done|lia].
    + pose proof (size_nonneg src). lia.
  - destruct Hpos as [?|[Ha Hb]]; [done|].
    destruct (annotationAt_Accepted _ _ _ _ _ _ Hsz Ha Hb E) as (_ & _ & _ & Hnext).
    specialize (Hk Hne).
    exists (S k). split; [|split; [|split]].
    + destruct Hnext as [->|[? ?]]; [by left|right; lia].
    + intros Hn. destruct Hnext as [?|[? ?]]; [done|]. lia.
    + lia.
    + intros p fuel Hp.
      replace (S k + fuel)%nat with (k + S fuel)%nat by lia.
      rewrite (IH p (S fuel) Hp). simpl.
      destruct (startPos =? npos) eqn:En; [apply Z.eqb_eq in En; done|].
      by rewrite Hp, E.
Qed.

Lemma fold_logMessage_logs (msgs : list LogEntry) (q : VulkanProgram) :
  logMessages (fold_left (fun q m => logMessage m q) msgs q) = logMessages q ++ msgs.
Proof.
  revert q; induction msgs as [|m msgs IH]; intros q; simpl; [by rewrite app_nil_r|].
  rewrite IH. simpl. by rewrite <- app_assoc.
Qed.

(** Whatever the diagnostic, the scan stops at the first annotation it
    rejects: the error flag is set, the messages of that diagnostic (at
    least one) are logged, and the table keeps exactly the ranges merged from
    the annotations accepted before. *)
Theorem parse_stops_at_rejected
    (p : VulkanProgram) (startPos : Z) (tbl : list (list VulkanDescBindingRange.t))
    (msgs : list LogEntry) :
  size (mSource p) < npos ->
  Scanned (mSource p) startPos tbl ->
  startPos <> npos ->
  annotationAt (mSource p) startPos = Rejected msgs ->
  mCompileError (parseNumBindingsFromSource p) = true /\
  logMessages (parseNumBindingsFromSource p) = logMessages p ++ msgs /\
  msgs <> [] /\
  mDescBindingRanges (parseNumBindingsFromSource p) = tbl.
Proof.
  intros Hsz Hs Hne Hrej.
  destruct (scanned_turns _ _ _ Hsz Hs) as (k & Hpos & Hk & Hks & Hloop).
  assert (Heq : parseNumBindingsFromSource p
                = fold_left (fun q m => logMessage m q) msgs
                    (set_mCompileError true (set_mDescBindingRanges tbl p))).
  { unfold parseNumBindingsFromSource. cbn [mSource set_mDescBindingRanges].
    replace (S (String.length (mSource p)))
      with (k + S (String.length (mSource p) - k))%nat by (unfold size in *; lia).
    rewrite (Hloop p _ eq_refl). simpl.
    destruct (startPos =? npos) eqn:En; [apply Z.eqb_eq in En; done|].
    by rewrite Hrej. }
  rewrite Heq. split_and!.
  - by rewrite fold_logMessage_flag.
  - by rewrite fold_logMessage_logs.
  - by eapply annotationAt_Rejected_nonempty.
  - by rewrite fold_logMessage_table.
Qed.

(** A scan that runs to the end of the source without a diagnostic writes
    the table of all its accepted annotations and nothing else: no flag, no
    message.  In particular a source without the set keyword leaves the
    table as reset. *)
Theorem parse_clean_scan (p : VulkanProgram) (tbl : list (list VulkanDescBindingRange.t)) :
  size (mSource p) < npos ->
  Scanned (mSource p) npos tbl ->
  parseNumBindingsFromSource p = set_mDescBindingRanges tbl p.
Proof.
  intros Hsz Hs.
  destruct (scanned_turns _ _ _ Hsz Hs) as (k & _ & _ & Hks & Hloop).
  unfold parseNumBindingsFromSource. cbn [mSource set_mDescBindingRanges].
  replace (S (String.length (mSource p)))
    with (k + S (String.length (mSource p) - k))%nat by (unfold size in *; lia).
  by rewrite (Hloop p _ eq_refl).
Qed.

(** The log only grows, and the error flag ends up set exactly when it was
    set before or a diagnostic was logged: the scan never clears the flag
    and never fails silently. *)
Lemma parseLoop_flag_and_log (fuel : nat) (startPos : Z) (p : VulkanProgram) :
  exists msgs,
    logMessages (parseLoop fuel startPos p) = logMessages p ++ msgs /\
    mCompileError (parseLoop fuel startPos p)
    = mCompileError p || negb (bool_decide (msgs = [])).
Proof.
  revert startPos p; induction fuel as [|fuel IH]; intros startPos p; simpl.
  - exists []. destruct (startPos =? npos); by rewrite app_nil_r, orb_false_r.
  - destruct (startPos =? npos); [exists []; by rewrite app_nil_r, orb_false_r|].
    destruct (annotationAt (mSource p) startPos) as [msgs|i j k next] eqn:E.
    + exists msgs. rewrite fold_logMessage_logs, fold_logMessage_flag. simpl.
      split; [done|]. apply annotationAt_Rejected_nonempty in E.
      rewrite bool_decide_eq_false_2 by done. by rewrite orb_true_r.
    + destruct (IH next (set_mDescBindingRanges
                           (mergeAt i j (wrap16 k) (mDescBindingRanges p)) p))
        as (msgs & Hl & Hf).
      exists msgs. by rewrite Hl, Hf.
Qed.

Theorem parse_flag_iff_logged (p : VulkanProgram) :
  parseFrame (parseNumBindingsFromSource p) = parseFrame p /\
  exists msgs,
    logMessages (parseNumBindingsFromSource p) = logMessages p ++ msgs /\
    mCompileError (parseNumBindingsFromSource p)
    = mCompileError p || negb (bool_decide (msgs = [])).
Proof.
  split; [apply parse_frame|].
  unfold parseNumBindingsFromSource.
  destruct (parseLoop_flag_and_log
              (S (String.length (mSource (set_mDescBindingRanges freshBindingRanges p))))
              (find c_ogreSetKeyword (mSource (set_mDescBindingRanges freshBindingRanges p)) 0)
              (set_mDescBindingRanges freshBindingRanges p)) as (msgs & Hl & Hf).
  by exists msgs.
Qed.

Lemma mergeAt_shape (i j k : Z) (tbl : list (list VulkanDescBindingRange.t)) :
  tableShape tbl -> tableShape (mergeAt i j k tbl).
Proof.
  intros [Hl Hr]. unfold mergeAt. split; [by rewrite length_alter|].
  apply Forall_alter; [done|]. intros row _ Hrow. by rewrite length_alter.
Qed.

Lemma Scanned_shape (src : string) (startPos : Z) (tbl : list (list VulkanDescBindingRange.t)) :
  Scanned src startPos tbl -> tableShape tbl.
Proof.
  induction 1 as [|? ? ? ? ? ? _ IH _ _].
  - unfold freshBindingRanges. split; [by rewrite length_replicate|].
    apply Forall_replicate. by rewrite length_replicate.
  - by apply mergeAt_shape.
Qed.

Lemma mergeAt_covers (i j k : Z) (tbl : list (list VulkanDescBindingRange.t)) :
  tableShape tbl ->
  0 <= i < OGRE_VULKAN_MAX_NUM_BOUND_DESCRIPTOR_SETS ->
  0 <= j < NumDescBindingTypes ->
  0 <= k < 65535 ->
  covers (mergeAt i j k tbl) i j k.
Proof.
  intros [Hl Hr] Hi Hj Hk. unfold covers, mergeAt.
  destruct (lookup_lt_is_Some_2 tbl (Z.to_nat i)) as [row Hrow]; [lia|].
  assert (Hlen : length row = Z.to_nat NumDescBindingTypes).
  { rewrite Forall_forall in Hr. apply Hr. by eapply list_elem_of_lookup_2. }
  destruct (lookup_lt_is_Some_2 row (Z.to_nat j)) as [r Hcell]; [lia|].
  exists (alter (VulkanDescBindingRange.merge k) (Z.to_nat j) row),
         (VulkanDescBindingRange.merge k r).
  split; [by rewrite list_lookup_alter_eq, Hrow|].
  split; [by rewrite list_lookup_alter_eq, Hcell|].
  apply merge_bounds. lia.
Qed.

Lemma mergeAt_keeps (i j k i' j' k' : Z) (tbl : list (list VulkanDescBindingRange.t)) :
  0 <= k' < 65535 ->
  covers tbl i j k -> covers (mergeAt i' j' k' tbl) i j k.
Proof.
  intros Hk' (row & r & Hrow & Hcell & Hin). unfold covers, mergeAt.
  destruct (decide (Z.to_nat i' = Z.to_nat i)) as [Ei|Ei].
  - rewrite Ei.
    destruct (decide (Z.to_nat j' = Z.to_nat j)) as [Ej|Ej].
    + exists (alter (VulkanDescBindingRange.merge k') (Z.to_nat j') row),
             (VulkanDescBindingRange.merge k' r).
      split; [by rewrite list_lookup_alter_eq, Hrow|].
      split; [by rewrite Ej, list_lookup_alter_eq, Hcell|].
      unfold VulkanDescBindingRange.merge.
      cbn [VulkanDescBindingRange.start VulkanDescBindingRange.end_]. lia.
    + exists (alter (VulkanDescBindingRange.merge k') (Z.to_nat j') row), r.
      split; [by rewrite list_lookup_alter_eq, Hrow|].
      split; [|done]. by rewrite list_lookup_alter_ne.
  - exists row, r. split; [|done]. by rewrite list_lookup_alter_ne.
Qed.

Lemma parseLoop_keeps (fuel : nat) (startPos : Z) (p : VulkanProgram) (i j k : Z) :
  covers (mDescBindingRanges p) i j k ->
  covers (mDescBindingRanges (parseLoop fuel startPos p)) i j k.
Proof.
  revert startPos p; induction fuel as [|fuel IH]; intros startPos p Hc; simpl.
  - by destruct (startPos =? npos).
  - destruct (startPos =? npos); [done|].
    destruct (annotationAt (mSource p) startPos) as [msgs|i' j' k' next] eqn:E.
    + by rewrite fold_logMessage_table.
    + apply IH; simpl. apply mergeAt_keeps; [|done].
      apply annotationAt_slot in E. rewrite wrap16_small; lia.
Qed.

(** Every slot of an accepted annotation ends up inside the range of its
    (set, type) cell in the table the scan leaves, whatever comes after it -
    more annotations or a diagnostic. *)
Theorem accepted_slot_covered
    (p : VulkanProgram) (startPos iSetNum letterIdx buffIdx next : Z)
    (tbl : list (list VulkanDescBindingRange.t)) :
  size (mSource p) < npos ->
  Scanned (mSource p) startPos tbl ->
  startPos <> npos ->
  annotationAt (mSource p) startPos = Accepted iSetNum letterIdx buffIdx next ->
  covers (mDescBindingRanges (parseNumBindingsFromSource p)) iSetNum letterIdx buffIdx.
Proof.
  intros Hsz Hs Hne Hacc.
  destruct (scanned_turns _ _ _ Hsz Hs) as (k & Hpos & Hk & Hks & Hloop).
  specialize (Hk Hne).
  destruct (annotationAt_indices _ _ _ _ _ _ Hacc) as (Hi & Hj & Hb).
  unfold parseNumBindingsFromSource. cbn [mSource set_mDescBindingRanges].
  replace (S (String.length (mSource p)))
    with (k + S (String.length (mSource p) - k))%nat by (unfold size in *; lia).
  rewrite (Hloop p _ eq_refl). simpl.
  destruct (startPos =? npos) eqn:En; [apply Z.eqb_eq in En; done|].
  rewrite Hacc. apply parseLoop_keeps. simpl.
  rewrite wrap16_small by lia.
  apply mergeAt_covers; [|done..]. by eapply Scanned_shape.
Qed.

(** ** The table and the order of the annotations *)

Lemma mergeSlot_comm (s s' : Z * Z * Z) (tbl : list (list VulkanDescBindingRange.t)) :
  mergeSlot s (mergeSlot s' tbl) = mergeSlot s' (mergeSlot s tbl).
Proof. unfold mergeSlot. exact (proj1 (mergeAt_comm_idem _ _ _ _ _ _ _)). Qed.

Lemma mergeSlot_idem (s : Z * Z * Z) (tbl : list (list VulkanDescBindingRange.t)) :
  mergeSlot s (mergeSlot s tbl) = mergeSlot s tbl.
Proof. unfold mergeSlot. exact (proj2 (mergeAt_comm_idem _ _ _ 0 0 0 tbl)). Qed.

Lemma mergeSlot_absorbed (slot : Z * Z * Z) (slots : list (Z * Z * Z))
    (tbl : list (list VulkanDescBindingRange.t)) :
  slot ∈ slots ->
  mergeSlot slot (fold_right mergeSlot tbl slots) = fold_right mergeSlot tbl slots.
Proof.
  induction slots as [|s slots IH]; intros Hin; [by apply elem_of_nil in Hin|].
  cbn [fold_right]. apply elem_of_cons in Hin as [->|Hin].
  - apply mergeSlot_idem.
  - rewrite mergeSlot_comm. by rewrite IH.
Qed.

Lemma mergeSlots_remove_dups (slots : list (Z * Z * Z))
    (tbl : list (list VulkanDescBindingRange.t)) :
  fold_right mergeSlot tbl (remove_dups slots) = fold_right mergeSlot tbl slots.
Proof.
  induction slots as [|s slots IH]; [done|]. cbn [remove_dups fold_right].
  destruct (decide_rel elem_of s slots) as [Hin|Hin].
  - rewrite IH. by rewrite mergeSlot_absorbed.
  - cbn [fold_right]. by rewrite IH.
Qed.

Lemma mergeSlots_permutation (slots slots' : list (Z * Z * Z))
    (tbl : list (list VulkanDescBindingRange.t)) :
  Permutation slots slots' ->
  fold_right mergeSlot tbl slots = fold_right mergeSlot tbl slots'.
Proof.
  induction 1 as [|s l l' _ IH|s s' l|l l' l'' _ IH1 _ IH2]; cbn [fold_right].
  - done.
  - by rewrite IH.
  - apply mergeSlot_comm.
  - by rewrite IH1.
Qed.

Lemma ScannedSlots_Scanned (src : string) (startPos : Z) (slots : list (Z * Z * Z)) :
  ScannedSlots src startPos slots -> Scanned src startPos (tableOf slots).
Proof.
  induction 1 as [|startPos slots i j k next _ IH Hne E].
  - apply Scanned_first.
  - exact (Scanned_next src startPos (tableOf slots) i j k next IH Hne E).
Qed.

(** The table [parseNumBindingsFromSource] leaves is determined by the set
    of slots of the annotations it accepted before the scan ended - at the
    end of the source or at a rejected annotation: merging any list that
    names the same slots, in any order and any number of times, into the
    reset table gives that table. *)
Theorem scanned_table_order_irrelevant (p : VulkanProgram) (startPos : Z)
    (slots slots' : list (Z * Z * Z)) :
  size (mSource p) < npos ->
  ScannedSlots (mSource p) startPos slots ->
  scanEnds (mSource p) startPos ->
  (forall slot, slot ∈ slots' <-> slot ∈ slots) ->
  mDescBindingRanges (parseNumBindingsFromSource p) = tableOf slots'.
Proof.
  intros Hsz Hs Hend Hsame.
  assert (Htbl : tableOf slots' = tableOf slots).
  { unfold tableOf.
    rewrite <- (mergeSlots_remove_dups slots'), <- (mergeSlots_remove_dups slots).
    apply mergeSlots_permutation.
    apply NoDup_Permutation; [apply NoDup_remove_dups..|].
    intros slot. by rewrite !elem_of_remove_dups. }
  rewrite Htbl. apply ScannedSlots_Scanned in Hs.
  destruct (scanned_turns _ _ _ Hsz Hs) as (k & _ & _ & Hks & Hloop).
  unfold parseNumBindingsFromSource. cbn [mSource set_mDescBindingRanges].
  replace (S (String.length (mSource p)))
    with (k + S (String.length (mSource p) - k))%nat by (unfold size in *; lia).
  rewrite (Hloop p _ eq_refl). simpl.
  destruct (startPos =? npos) eqn:En; [done|].
  destruct Hend as [->|[msgs Hrej]]; [done|].
  by rewrite Hrej, fold_logMessage_table.
Qed.

Lemma length_substring (n m : nat) (s : string) :
  String.length (String.substring n m s) = Nat.min m (String.length s - n).
Proof.
  revert n m; induction s as [|c s IH]; intros n m.
  - destruct n, m; simpl; lia.
  - destruct n as [|n]; simpl.
    + destruct m as [|m]; simpl; [done|]. rewrite IH. lia.
    + rewrite IH. done.
Qed.

(** The excerpt a diagnostic prints after "near:" starts at the annotation
    and is [min( startPos + 64, size - startPos )] characters long: it is
    not capped at 64 characters - for an annotation at [startPos] it can
    take up to [startPos + 64] - and it is the whole rest of the source once
    [startPos + 64 >= size - startPos]. *)
Theorem excerpt_length (src : string) (startPos : Z) :
  0 <= startPos <= size src ->
  size src < 2 ^ 63 ->
  size (near src startPos) = Z.min (startPos + 64) (size src - startPos).
Proof.
  intros Hpos Hsz. unfold near, substr.
  assert (H1 : wrap64 (startPos + 64) = startPos + 64) by (apply wrap64_small; lia).
  assert (H2 : wrap64 (size src - startPos) = size src - startPos)
    by (apply wrap64_small; lia).
  rewrite H1, H2.
  destruct (size src <? startPos) eqn:E; [apply Z.ltb_lt in E; lia|].
  unfold size in *. rewrite length_substring. lia.
Qed.

(** ** More on the vertex inputs and on compilation *)

Lemma insertByLocation_perm (a : VkVertexInputAttributeDescription)
    (l : list VkVertexInputAttributeDescription) :
  Permutation (insertByLocation a l) (a :: l).
Proof.
  induction l as [|b l IH]; simpl; [done|].
  destruct (location a <? location b); [done|].
  rewrite IH. apply perm_swap.
Qed.

Lemma insertByLocation_ascending (a : VkVertexInputAttributeDescription)
    (l : list VkVertexInputAttributeDescription) :
  ascending l -> ascending (insertByLocation a l).
Proof.
  induction l as [|b l IH]; simpl; [done|]. intros [Hb Hl].
  destruct (location a <? location b) eqn:E.
  - apply Z.ltb_lt in E. simpl. split_and!; [|done..].
    constructor; [lia|]. eapply Forall_impl; [exact Hb|]. simpl. intros; lia.
  - apply Z.ltb_ge in E. simpl. split; [|by apply IH].
    rewrite insertByLocation_perm. by constructor.
Qed.

Lemma sortByVertexInputLocation_perm (l : list VkVertexInputAttributeDescription) :
  Permutation (sortByVertexInputLocation l) l.
Proof.
  induction l as [|a l IH]; simpl; [done|].
  rewrite insertByLocation_perm. by constructor.
Qed.

Lemma sortByVertexInputLocation_ascending (l : list VkVertexInputAttributeDescription) :
  ascending (sortByVertexInputLocation l).
Proof.
  induction l as [|a l IH]; simpl; [done|]. by apply insertByLocation_ascending.
Qed.

(** The fold of [gather_loop], read as a count and a map. *)
Lemma gather_fold (inputVars : list SpvReflectInterfaceVariable) (n : Z)
    (l : list VkVertexInputAttributeDescription) :
  snd (fold_left (fun acc reflVar =>
                    (if iv_location reflVar =? uint32_max then wrap32 (fst acc + 1)
                     else fst acc,
                     snd acc ++ [{| location := iv_location reflVar; attr_binding := 0;
                                    format := iv_format reflVar; offset := 0 |}]))
                 inputVars (n, l))
  = l ++ map attributeOf inputVars /\
  (0 <= n -> n + Z.of_nat (length inputVars) < 2 ^ 32 ->
   fst (fold_left (fun acc reflVar =>
                     (if iv_location reflVar =? uint32_max then wrap32 (fst acc + 1)
                      else fst acc,
                      snd acc ++ [{| location := iv_location reflVar; attr_binding := 0;
                                     format := iv_format reflVar; offset := 0 |}]))
                  inputVars (n, l))
   = n + Z.of_nat (length (systemGenerated inputVars))).
Proof.
  revert n l; induction inputVars as [|v vars IH]; intros n l.
  - simpl. split; [by rewrite app_nil_r|intros; lia].
  - cbn [fold_left fst snd]. destruct (IH
      (if iv_location v =? uint32_max then wrap32 (n + 1) else n)
      (l ++ [{| location := iv_location v; attr_binding := 0;
                format := iv_format v; offset := 0 |}])) as [IH1 IH2].
    split.
    + rewrite IH1. cbn [map]. by rewrite <- app_assoc.
    + intros Hn Hlen. rewrite length_cons in Hlen.
      unfold systemGenerated in *. rewrite filter_cons.
      destruct (iv_location v =? uint32_max) eqn:E.
      * apply Z.eqb_eq in E. rewrite decide_True by done.
        assert (Hw : wrap32 (n + 1) = n + 1).
        { unfold wrap32. apply Z.mod_small. lia. }
        rewrite Hw in IH2 |- *. rewrite IH2 by lia. rewrite length_cons. lia.
      * apply Z.eqb_neq in E. rewrite decide_False by done.
        rewrite IH2 by lia. done.
Qed.

(** What [gatherVertexInputs] leaves when it returns. *)
Lemma gatherVertexInputs_returns (module : SpvReflectShaderModule) (p p' : VulkanProgram) :
  gatherVertexInputs module p = Returns tt p' ->
  fst (spvReflectEnumerateInputVariables module) = SPV_REFLECT_RESULT_SUCCESS /\
  ascending (mVertexInputs p') /\
  Permutation (mVertexInputs p')
              (map attributeOf (snd (spvReflectEnumerateInputVariables module))) /\
  (Z.of_nat (length (snd (spvReflectEnumerateInputVariables module))) < 2 ^ 32 ->
   mNumSystemGenVertexInputs p'
   = Z.of_nat (length (systemGenerated (snd (spvReflectEnumerateInputVariables module))))).
Proof.
  unfold gatherVertexInputs.
  destruct (spvReflectEnumerateInputVariables module) as [result inputVars].
  unfold bind, modify, ret, raise. cbn [fst snd].
  destruct (result =? SPV_REFLECT_RESULT_SUCCESS) eqn:Er; cbn [negb]; [|done].
  apply Z.eqb_eq in Er.
  destruct (Z.of_nat (length inputVars) =? 0) eqn:E0.
  - intros [= <-]. apply Z.eqb_eq in E0. destruct inputVars; [|simpl in E0; lia].
    by split_and!.
  - destruct (gather_loop inputVars
                (set_mVertexInputs [] (set_mNumSystemGenVertexInputs 0 p)))
      as (s & -> & Hs).
    intros [= <-]. cbn in Hs |- *.
    destruct (gather_fold inputVars 0 []) as [H1 H2].
    rewrite <- Hs in H1, H2. cbn [fst snd] in H1, H2. rewrite H1.
    split_and!; [done|apply sortByVertexInputLocation_ascending
                |apply sortByVertexInputLocation_perm|].
    intros Hlen. rewrite H2 by lia. lia.
Qed.

Lemma gatherVertexInputs_raises (module : SpvReflectShaderModule) (p p' : VulkanProgram)
    (e : OgreException) :
  gatherVertexInputs module p = Raises e p' ->
  exists result, e = ExcSpvReflectEnumerateInputVariables result.
Proof.
  unfold gatherVertexInputs.
  destruct (spvReflectEnumerateInputVariables module) as [result inputVars].
  unfold bind, modify, ret, raise.
  destruct (negb (result =? SPV_REFLECT_RESULT_SUCCESS)); [intros [= <- _]; by eexists|].
  destruct (Z.of_nat (length inputVars) =? 0); [done|].
  by destruct (gather_loop inputVars
                 (set_mVertexInputs [] (set_mNumSystemGenVertexInputs 0 p)))
    as (s & -> & _).
Qed.

(** When the reflection of the input variables succeeds,
    [gatherVertexInputs] returns; the vertex inputs it leaves are the
    reflected input variables, one attribute each, in ascending order of
    location; the system-generated count is the number of inputs without a
    location; and nothing else of the program changes. *)
Theorem gathered_inputs_sorted (module : SpvReflectShaderModule) (p : VulkanProgram) :
  fst (spvReflectEnumerateInputVariables module) = SPV_REFLECT_RESULT_SUCCESS ->
  Z.of_nat (length (snd (spvReflectEnumerateInputVariables module))) < 2 ^ 32 ->
  exists p',
    gatherVertexInputs module p = Returns tt p' /\
    ascending (mVertexInputs p') /\
    Permutation (mVertexInputs p')
                (map attributeOf (snd (spvReflectEnumerateInputVariables module))) /\
    mNumSystemGenVertexInputs p'
    = Z.of_nat (length (systemGenerated (snd (spvReflectEnumerateInputVariables module)))) /\
    gatherFrame p' = gatherFrame p.
Proof.
  intros Hok Hlen.
  assert (Hret : exists p', gatherVertexInputs module p = Returns tt p').
  { unfold gatherVertexInputs.
    destruct (spvReflectEnumerateInputVariables module) as [result inputVars].
    cbn [fst] in Hok. subst result. unfold bind, modify, ret. cbn.
    destruct (Z.of_nat (length inputVars) =? 0); [by eexists|].
    destruct (gather_loop inputVars
                (set_mVertexInputs [] (set_mNumSystemGenVertexInputs 0 p)))
      as (s & -> & _). by eexists. }
  destruct Hret as [p' Hp']. exists p'.
  destruct (gatherVertexInputs_returns _ _ _ Hp') as (_ & Ha & Hperm & Hn).
  pose proof (gatherVertexInputs_frame module p) as Hf. rewrite Hp' in Hf.
  split_and!; [done..|by apply Hn|done].
Qed.

(** ** The search [getLayoutForPso] makes in the vertex inputs *)

Lemma lower_bound_spec (l : list VkVertexInputAttributeDescription) (b : Z) :
  ascending l ->
  match lower_bound l b with
  | Some a => a ∈ l /\ b <= location a /\
              forall c, c ∈ l -> location c = b -> location a = b
  | None => forall c, c ∈ l -> location c < b
  end.
Proof.
  induction l as [|a l IH]; simpl; [intros _ c Hc; by apply elem_of_nil in Hc|].
  intros [Ha Hl]. destruct (location a <? b) eqn:E.
  - apply Z.ltb_lt in E. specialize (IH Hl).
    destruct (lower_bound l b) as [x|].
    + destruct IH as (Hx & Hbx & Hfirst). split_and!; [by right|done|].
      intros c Hc Hcb. apply elem_of_cons in Hc as [->|Hc]; [lia|by eapply Hfirst].
    + intros c Hc. apply elem_of_cons in Hc as [->|Hc]; [done|by apply IH].
  - apply Z.ltb_ge in E. split_and!; [by left|done|].
    intros c Hc Hcb. apply elem_of_cons in Hc as [->|Hc]; [done|].
    rewrite Forall_forall in Ha. specialize (Ha c Hc). lia.
Qed.

(** On vertex inputs in ascending order whose locations fit 32 bits, the
    search for a location answers an input declared at exactly that location
    when there is one, and nothing otherwise - also for a location beyond 32
    bits, which the comparison truncates. *)
Theorem findInput_finds_declared_location (this : VulkanProgram) (locationIdx : Z) :
  ascending (mVertexInputs this) ->
  Forall (fun a => 0 <= location a < 2 ^ 32) (mVertexInputs this) ->
  0 <= locationIdx ->
  match findInput this locationIdx with
  | Some a => a ∈ mVertexInputs this /\ location a = locationIdx
  | None => forall a, a ∈ mVertexInputs this -> location a <> locationIdx
  end.
Proof.
  intros Hasc Hfit Hloc. unfold findInput.
  pose proof (lower_bound_spec (mVertexInputs this) (wrap32 locationIdx) Hasc) as Hlb.
  rewrite Forall_forall in Hfit.
  assert (Hw : 0 <= wrap32 locationIdx < 2 ^ 32 /\
               (locationIdx < 2 ^ 32 -> wrap32 locationIdx = locationIdx)).
  { unfold wrap32. split; [apply Z.mod_pos_bound; lia|intros; apply Z.mod_small; lia]. }
  destruct Hw as [Hw1 Hw2].
  destruct (lower_bound (mVertexInputs this) (wrap32 locationIdx)) as [a|].
  - destruct Hlb as (Ha & Hba & Hfirst).
    destruct (location a =? locationIdx) eqn:E.
    + apply Z.eqb_eq in E. done.
    + apply Z.eqb_neq in E. intros c Hc Hcl.
      pose proof (Hfit c Hc) as Hcfit.
      assert (Heq : wrap32 locationIdx = locationIdx) by (apply Hw2; lia).
      apply E. rewrite <- Heq. apply (Hfirst c Hc). by rewrite Heq.
  - intros c Hc Hcl. pose proof (Hfit c Hc) as Hcfit. specialize (Hlb c Hc).
    rewrite Hw2 in Hlb by lia. lia.
Qed.

(** ** What [compile] decides *)

Ltac use_gather_returns :=
  repeat match goal with
         | |- context [gatherVertexInputs ?m ?s] =>
             let Ho := fresh "Ho" in
             let Hf := fresh "Hf" in
             let Hr := fresh "Hr" in
             pose proof (gatherVertexInputs_frame m s) as Hf;
             pose proof (gatherVertexInputs_returns m s) as Hr;
             destruct (gatherVertexInputs m s) as [[] ?|? ?] eqn:Ho;
             cbn in Hf |- *; injection Hf as ?
         end.

(** The verdict of [compile] is the conjunction of its four stages - the
    annotation scan logged no diagnostic, glslang parsed, linked and
    produced an intermediate representation - each attempted only when the
    ones before it passed; the SPIR-V is the translation when the verdict is
    positive and empty otherwise; the binding range table is the one the
    scan leaves, also when a later stage fails or an exception is raised. *)
Theorem compile_verdict (checkErrors : bool) (p : VulkanProgram) :
  let p' := state_of (compile checkErrors p) in
  let scanned :=
    parseNumBindingsFromSource (set_mCompileError false (set_mCompiled false p)) in
  let stage := getEshLanguage p in
  let verdict :=
    negb (mCompileError scanned) && shader_parse (mSource p) stage
    && program_link (mSource p) stage && program_getIntermediate (mSource p) stage in
  mCompiled p' = verdict /\
  mCompileError p' = negb verdict /\
  mSpirv p' = (if verdict then GlslangToSpv (mSource p) stage else []) /\
  mDescBindingRanges p' = mDescBindingRanges scanned.
Proof.
  intros p' scanned stage verdict; subst p' scanned stage verdict.
  pose proof (parse_frame (set_mCompileError false (set_mCompiled false p))) as Hfr.
  cbv [compile bind modify get when ret raise]. cbn.
  set (q := parseNumBindingsFromSource _) in *.
  injection Hfr as ?. cbn in *.
  assert (Hsrc : mSource q = mSource p) by congruence.
  assert (Hl : getEshLanguage q = getEshLanguage p)
    by (apply getEshLanguage_congr; congruence).
  compile_cases_with ltac:(rewrite ?Hsrc, ?Hl).
  all: use_gather_frame.
  all: cbn in *; rewrite_known; cbn.
  all: split_and!; congruence.
Qed.

(** With error checking on, [compile] never returns false: it returns true
    with the program marked compiled, or raises.  With error checking off it
    never raises the failed-to-compile error.  [createLowLevelImpl], when it
    returns, leaves the program compiled. *)
Theorem checked_compile_returns_true (p : VulkanProgram) :
  (forall b p', compile true p = Returns b p' ->
                b = true /\ mCompiled p' = true /\ mCompileError p' = false) /\
  (forall e p', compile false p = Raises e p' -> e <> ExcFailedToCompile) /\
  (forall p', createLowLevelImpl p = Returns tt p' -> mCompiled p' = true).
Proof.
  assert (Hchecked : forall b p', compile true p = Returns b p' ->
                       b = true /\ mCompiled p' = true /\ mCompileError p' = false).
  { cbv [compile bind modify get when ret raise]. cbn.
    set (q := parseNumBindingsFromSource _) in *.
    compile_cases.
    all: use_gather_frame.
    all: intros ans st Hr; try discriminate; injection Hr as <- <-.
    all: cbn in *; rewrite_known; try done.
    all: split_and!; congruence. }
  split_and!; [exact Hchecked| |].
  - cbv [compile bind modify get when ret raise]. cbn.
    set (q := parseNumBindingsFromSource _) in *.
    compile_cases.
    all: use_gather_frame.
    all: intros exc st Hr; try discriminate; injection Hr as <- <-; try done.
    all: match goal with
         | H : gatherVertexInputs _ _ = Raises _ _ |- _ =>
             by destruct (gatherVertexInputs_raises _ _ _ _ H) as [r ->]
         end.
  - intros p'.
    assert (Hc : createLowLevelImpl p
                 = if mCompiled p then Returns tt p
                   else match compile true p with
                        | Returns _ s => Returns tt s
                        | Raises e s => Raises e s
                        end).
    { unfold createLowLevelImpl, bind, get, when, ret. by destruct (mCompiled p). }
    rewrite Hc. destruct (mCompiled p) eqn:Ec.
    + by intros [= <-].
    + destruct (compile true p) as [b s|e s] eqn:Eo; [|done].
      intros [= <-]. by destruct (Hchecked b s eq_refl) as (_ & ? & _).
Qed.

(** When [compile] returns with SPIR-V that is not empty, the vertex inputs
    are the reflected input variables of that SPIR-V in ascending order of
    location - the order the searches of [getLayoutForPso] rely on. *)
Theorem compiled_inputs_sorted (checkErrors b : bool) (p p' : VulkanProgram) :
  compile checkErrors p = Returns b p' ->
  mSpirv p' <> [] ->
  exists module,
    spvReflectCreateShaderModule (mSpirv p') = (SPV_REFLECT_RESULT_SUCCESS, module) /\
    ascending (mVertexInputs p') /\
    Permutation (mVertexInputs p')
                (map attributeOf (snd (spvReflectEnumerateInputVariables module))).
Proof.
  cbv [compile bind modify get when ret raise]. cbn.
  set (q := parseNumBindingsFromSource _) in *.
  compile_cases.
  all: use_gather_returns.
  all: intros Hret; try discriminate; injection Hret as <- <-.
  all: bool_facts.
  all: cbn in *; rewrite_known; try done.
  all: intros Hne.
  all: match goal with
       | Hr : forall p', Returns tt ?s = Returns tt p' -> _ |- _ =>
           destruct (Hr s eq_refl) as (_ & Ha & Hp & _)
       end.
  all: match goal with
       | H : spvReflectCreateShaderModule _ = (?r, ?m) |- _ =>
           exists m; split_and!; [|done..]
       end.
  all: repeat match goal with
              | H : (_ =? _) = true |- _ => apply Z.eqb_eq in H
              end.
  all: congruence.
Qed.

(** When the SPIR-V [compile] leaves is empty - a failed compilation, or a
    translation of zero length - the vertex inputs and their
    system-generated count are the ones from before the call. *)
Theorem failed_compile_keeps_inputs (checkErrors : bool) (p : VulkanProgram) :
  let p' := state_of (compile checkErrors p) in
  mSpirv p' = [] ->
  mVertexInputs p' = mVertexInputs p /\
  mNumSystemGenVertexInputs p' = mNumSystemGenVertexInputs p.
Proof.
  intros p'; subst p'.
  pose proof (parse_frame (set_mCompileError false (set_mCompiled false p))) as Hfr.
  cbv [compile bind modify get when ret raise]. cbn.
  set (q := parseNumBindingsFromSource _) in *.
  injection Hfr as ?. cbn in *.
  compile_cases.
  all: use_gather_frame.
  all: bool_facts.
  all: cbn in *; rewrite_known; try done.
  all: intros; congruence.
Qed.

(** ** More on the constant definitions *)

Section ReflectionSteps.

Context (R : VulkanProgram -> VulkanProgram -> Prop).
Hypothesis R_refl : forall s, R s s.
Hypothesis R_trans : forall a b c, R a b -> R b c -> R a c.
Hypothesis R_place : forall def, steps R (placeInBuffer def).
Hypothesis R_publish : forall varName dims_count def, steps R (publish varName dims_count def).
Hypothesis R_bytes :
  forall v p, R p (set_mConstantsBytesToWrite (Z.max (mConstantsBytesToWrite p) v) p).
Hypothesis R_param : forall k v p, R p (recordBindingParam k v p).

(** A relation kept by the four kinds of writes of
    [buildConstantDefinitions] is kept by the whole of it. *)
Lemma reflection_steps : steps R buildConstantDefinitions.
Proof using R_refl R_trans R_place R_publish R_bytes R_param.
  unfold buildConstantDefinitions.
  apply steps_bind; [done|by apply steps_get|intros p].
  destruct (mCompileError p); [by apply steps_ret|].
  destruct (bool_decide (mSpirv p = [])); [by apply steps_ret|].
  destruct (spvReflectCreateShaderModule (mSpirv p)) as [result module].
  destruct (negb (result =? _)); [by apply steps_raise|].
  destruct (spvReflectEnumerateDescriptorSets module) as [result' sets].
  destruct (negb (result' =? _)); [by apply steps_raise|].
  apply steps_forEach; [done..|]. intros reflSet. unfold processSet.
  apply steps_bind; [done| |intros _; by apply steps_ret].
  apply steps_foldM; [done..|]. intros prevSize b. unfold processBinding.
  destruct (negb (binding b =? OGRE_VULKAN_PARAMETER_SLOT)); [by apply steps_ret|].
  destruct (descriptor_type b =? VK_DESCRIPTOR_TYPE_UNIFORM_BUFFER).
  - unfold processUniformBuffer.
    apply steps_bind; [done| |intros _].
    + apply steps_forEach; [done..|]. intros bv. unfold processMember.
      destruct (memberShape bv); [|by apply steps_ret|by apply steps_raise].
      apply steps_bind; [done|apply R_place|intros d].
      apply steps_bind; [done|apply R_publish|intros _].
      apply steps_modify. intros s. apply R_bytes.
    + apply steps_bind; [done|by apply steps_get|intros s].
      apply steps_bind; [done| |intros _; by apply steps_ret].
      apply steps_modify. intros s'. apply R_param.
  - unfold processOtherBinding.
    apply steps_bind; [done|apply R_place|intros d].
    apply steps_bind; [done|apply R_publish|intros _].
    apply steps_bind; [done| |intros _].
    + apply steps_modify. intros s. apply R_bytes.
    + apply steps_bind; [done| |intros _; by apply steps_ret].
      apply steps_modify. intros s'. apply R_param.
Qed.

End ReflectionSteps.

Lemma map_insert_new_keeps {K V : Type} `{Countable K} (k k' : K) (v v' : V)
    (m : gmap K V) :
  m !! k = Some v -> map_insert_new k' v' m !! k = Some v.
Proof.
  intros Hk. unfold map_insert_new. destruct (m !! k') eqn:E; [done|].
  rewrite lookup_insert_ne; [done|]. intros ->. congruence.
Qed.

Lemma OnlyAdds_refl (p : VulkanProgram) : OnlyAdds p p.
Proof. unfold OnlyAdds. split_and!; [lia|done..]. Qed.

Lemma OnlyAdds_trans (p q r : VulkanProgram) :
  OnlyAdds p q -> OnlyAdds q r -> OnlyAdds p r.
Proof.
  intros (H1 & H2 & H3) (H1' & H2' & H3'). unfold OnlyAdds in *.
  split_and!; [lia| |]; eauto.
Qed.

(** [buildConstantDefinitions], whether it returns or raises, writes the
    constant-definition state only: the flags, the SPIR-V, the module
    handle, the binding range table, the vertex inputs and the log are the
    ones [compile] left, and no shader module is created. *)
Theorem reflection_keeps_compiled_state (p : VulkanProgram) :
  reflectFrame (state_of (buildConstantDefinitions p)) = reflectFrame p.
Proof.
  apply (reflection_steps (fun s s' => reflectFrame s' = reflectFrame s)); clear p.
  - done.
  - intros a b c Hab Hbc. by rewrite Hbc.
  - intros def p. by destruct (placeInBuffer_spec def p) as (p' & -> & _ & _ & _ & Hf).
  - intros varName dims_count def p.
    by destruct (publish_spec varName dims_count def p) as (p' & -> & _ & _ & _ & Hf).
  - by intros v p.
  - by intros k v p.
Qed.

(** [buildConstantDefinitions] only adds: the size [getBufferRequiredSize]
    reports does not shrink, and a binding index or a logical index that
    already has an entry keeps that entry - the inserts do not overwrite. *)
Theorem reflection_only_adds (p : VulkanProgram) :
  OnlyAdds p (state_of (buildConstantDefinitions p)).
Proof.
  apply reflection_steps; clear p.
  - apply OnlyAdds_refl.
  - apply OnlyAdds_trans.
  - intros def p. unfold placeInBuffer, bind, get, modify, ret, OnlyAdds.
    destruct (isFloat (constType def)); [|destruct (isUnsignedInt (constType def))];
      cbn; (split_and!; [unfold getBufferRequiredSize; cbn; lia|done|]);
      intros [] k u; cbn; try done; apply map_insert_new_keeps.
  - intros varName dims_count def p. unfold publish, bind, when, modify, ret, OnlyAdds.
    destruct (negb (dims_count =? 0)); cbn;
      (split_and!; [unfold getBufferRequiredSize; cbn; lia|done|by intros []]).
  - intros v p. unfold OnlyAdds, getBufferRequiredSize. cbn.
    split_and!; [lia|done|by intros []].
  - intros k v p. unfold OnlyAdds, getBufferRequiredSize, recordBindingParam. cbn.
    split_and!; [lia| |by intros []]. intros k' v'. apply map_insert_new_keeps.
Qed.

(** When the library that expands array entries leaves the published
    buffer sizes alone, [buildConstantDefinitions] keeps them equal to the
    running sizes of the three parameter buffers. *)
Theorem buffer_sizes_mirrored (p : VulkanProgram) :
  (forall varName def c,
     let c' := generateConstantDefinitionArrayEntries varName def c in
     floatBufferSize c' = floatBufferSize c /\
     uintBufferSize c' = uintBufferSize c /\
     intBufferSize c' = intBufferSize c) ->
  sizesMirrored p ->
  sizesMirrored (state_of (buildConstantDefinitions p)).
Proof.
  intros Hgen.
  apply (reflection_steps (fun s s' => sizesMirrored s -> sizesMirrored s')); clear p.
  - done.
  - eauto.
  - intros def p (Hf & Hu & Hi). unfold placeInBuffer, bind, get, modify, ret, sizesMirrored.
    by destruct (isFloat (constType def)); [|destruct (isUnsignedInt (constType def))]; cbn.
  - intros varName dims_count def p (Hf & Hu & Hi).
    unfold publish, bind, when, modify, ret, sizesMirrored.
    destruct (negb (dims_count =? 0)); cbn; [|done].
    destruct (Hgen varName def (mConstantDefs p)) as (-> & -> & ->). done.
  - by intros v p.
  - by intros k v p.
Qed.

(** ** Bindings outside the parameter slot, and bindings that are not
    uniform buffers *)

Lemma bindings_off_slot (bs : list SpvReflectDescriptorBinding) (prevSize : Z)
    (p : VulkanProgram) :
  Forall (fun b => binding b <> OGRE_VULKAN_PARAMETER_SLOT) bs ->
  foldM processBinding prevSize bs p = Returns prevSize p.
Proof.
  induction 1 as [|b bs Hb _ IH]; simpl; [done|].
  unfold bind, processBinding.
  apply Z.eqb_neq in Hb. rewrite Hb. simpl. exact IH.
Qed.

Lemma sets_off_slot (sets : list SpvReflectDescriptorSet) (p : VulkanProgram) :
  Forall (fun reflSet =>
            Forall (fun b => binding b <> OGRE_VULKAN_PARAMETER_SLOT) (bindings reflSet))
         sets ->
  forEach sets processSet p = Returns tt p.
Proof.
  induction 1 as [|reflSet sets Hs _ IH]; simpl; [done|].
  unfold bind at 1. unfold processSet, bind at 1.
  rewrite bindings_off_slot by done. simpl. exact IH.
Qed.

(** Only bindings at the parameter slot count: when the SPIR-V has no
    binding there, [buildConstantDefinitions] leaves the whole program as it
    was. *)
Theorem off_slot_bindings_ignored (p : VulkanProgram) :
  Forall (fun reflSet =>
            Forall (fun b => binding b <> OGRE_VULKAN_PARAMETER_SLOT) (bindings reflSet))
         (reflectedSets p) ->
  state_of (buildConstantDefinitions p) = p.
Proof.
  unfold reflectedSets, buildConstantDefinitions, bind, get, ret, raise.
  destruct (mCompileError p); [done|].
  destruct (bool_decide (mSpirv p = [])); [done|].
  destruct (spvReflectCreateShaderModule (mSpirv p)) as [result module]. cbn [snd].
  destruct (negb (result =? _)); [done|].
  destruct (spvReflectEnumerateDescriptorSets module) as [result' sets]. cbn [snd].
  destruct (negb (result' =? _)); [done|].
  intros Hall. by rewrite sets_off_slot.
Qed.

(** A binding at the parameter slot that is not a uniform buffer gives one
    definition of one word: a 2D sampler for samplers and combined image
    samplers, a 1D sampler for uniform texel buffers, of unknown type
    otherwise; its logical index is the running offset of the set, which
    moves on by one; it is named by the binding, or by the binding's type
    when the binding has no name. *)
Theorem other_binding_definition (prevSize : Z) (reflBinding : SpvReflectDescriptorBinding)
    (p : VulkanProgram) :
  binding reflBinding = OGRE_VULKAN_PARAMETER_SLOT ->
  descriptor_type reflBinding <> VK_DESCRIPTOR_TYPE_UNIFORM_BUFFER ->
  exists d p',
    processBinding prevSize reflBinding p = Returns (wrap64 (prevSize + 1)) p' /\
    mConstantDefsSorted p' = mConstantDefsSorted p ++ [d] /\
    logicalIndex d = prevSize /\ elementSize d = 1 /\ arraySize d = 1 /\
    physicalIndex d = runningSize (bufferOf d) p /\
    (descriptor_type reflBinding = VK_DESCRIPTOR_TYPE_SAMPLER \/
     descriptor_type reflBinding = VK_DESCRIPTOR_TYPE_COMBINED_IMAGE_SAMPLER ->
     constType d = GCT_SAMPLER2D) /\
    (descriptor_type reflBinding = VK_DESCRIPTOR_TYPE_UNIFORM_TEXEL_BUFFER ->
     constType d = GCT_SAMPLER1D) /\
    (descriptor_type reflBinding <> VK_DESCRIPTOR_TYPE_SAMPLER ->
     descriptor_type reflBinding <> VK_DESCRIPTOR_TYPE_COMBINED_IMAGE_SAMPLER ->
     descriptor_type reflBinding <> VK_DESCRIPTOR_TYPE_UNIFORM_TEXEL_BUFFER ->
     constType d = GCT_UNKNOWN) /\
    is_Some (cmap (mConstantDefs p')
               !! (if bool_decide (db_name reflBinding = EmptyString)
                   then db_type_name reflBinding else db_name reflBinding)) /\
    mConstantDefsBindingParams p'
    = map_insert_new (binding reflBinding) {| bp_offset := prevSize; bp_size := 1 |}
                     (mConstantDefsBindingParams p).
Proof.
  intros Hslot Hty. unfold processBinding.
  rewrite Hslot, Z.eqb_refl. cbn [negb].
  apply Z.eqb_neq in Hty. rewrite Hty.
  unfold processOtherBinding.
  match goal with |- context [placeInBuffer ?d] => set (def := d) end.
  destruct (placeInBuffer_spec def p) as (p1 & E1 & Hsz1 & Hs1 & Hb1 & Hf1).
  set (d := set_physicalIndex (runningSize (bufferOf def) p) def) in *.
  match goal with |- context [publish ?n ?k] => set (name := n) end.
  assert (Hpub : exists p2,
             publish name (db_array_dims_count reflBinding) d p1 = Returns tt p2 /\
             mConstantDefsSorted p2 = mConstantDefsSorted p1 ++ [d] /\
             mConstantDefsBindingParams p2 = mConstantDefsBindingParams p1 /\
             is_Some (cmap (mConstantDefs p2) !! name)).
  { unfold publish, bind, when, modify, ret.
    destruct (negb (db_array_dims_count reflBinding =? 0)); eexists;
      (split; [reflexivity|]); cbn; (split_and!; [done..|]);
      unfold map_insert_new;
      match goal with |- context [match ?m !! name with _ => _ end] =>
        destruct (m !! name) eqn:E; [by rewrite E|by rewrite lookup_insert_eq]
      end. }
  destruct Hpub as (p2 & E2 & Hs2 & Hb2 & Hname).
  exists d. eexists. unfold bind at 1. rewrite E1. unfold bind at 1. fold d. rewrite E2.
  unfold bind, modify, ret. cbn.
  assert (Hw : defWords d = 1) by done.
  split; [by rewrite Hw|].
  unfold recordBindingParam. cbn.
  split_and!; try done.
  - congruence.
  - intros [Ht|Ht]; subst def d; cbn; by rewrite Ht.
  - intros Ht; subst def d; cbn; by rewrite Ht.
  - intros H1 H2 H3; subst def d; cbn.
    apply Z.eqb_neq in H1, H2, H3. by rewrite H1, H2, H3.
  - congruence.
Qed.

(** ** More on the vertex layout *)

(** The attribute array and the byte offset through the element loop of
    one buffer. *)
Lemma elements_out (this : VulkanProgram) (bufferIdx : Z) (els : list VertexElement2)
    (s : PsoState) :
  match forEach els (processElement this bufferIdx) s with
  | Returns _ s' =>
      outVertexInputs s'
      = outVertexInputs s
          ++ attributesOf this bufferIdx (bindAccumOffset s) (locate (uvCount s) els) /\
      bindAccumOffset s' = strideFrom (bindAccumOffset s) els
  | Raises _ _ => True
  end.
Proof.
  revert s; induction els as [|it els IH]; intros s.
  - simpl. by rewrite app_nil_r.
  - simpl forEach. unfold bind. rewrite processElement_cases. cbv zeta.
    rewrite locate_cons. unfold strideFrom in *. cbn [attributesOf fold_left].
    set (isUv := bool_decide (mSemantic it = VES_TEXTURE_COORDINATES)).
    set (loc := if isUv then _ else _).
    set (s0 := if isUv then set_uvCount (wrap64 (uvCount s + 1)) s else s).
    assert (Hs0 : uvCount s0 = (if isUv then wrap64 (uvCount s + 1) else uvCount s) /\
                  bindAccumOffset s0 = bindAccumOffset s /\
                  outVertexInputs s0 = outVertexInputs s)
      by (subst s0; by destruct isUv).
    destruct Hs0 as (Huv & Hoff & Hout).
    destruct (findInput this loc) as [itor|] eqn:Efind.
    + destruct (1 <? mInstancingStepRate it); [done|].
      destruct (bool_decide (inputRate_ s = VK_VERTEX_INPUT_RATE_MAX_ENUM)).
      * match goal with |- context [forEach els _ ?s1] =>
          specialize (IH s1); set (s1' := s1) in * end.
        assert (Hs1 : uvCount s1' = (if isUv then wrap64 (uvCount s + 1) else uvCount s) /\
                      bindAccumOffset s1'
                      = wrap32 (bindAccumOffset s + getTypeSize (mType it)) /\
                      outVertexInputs s1'
                      = outVertexInputs s
                          ++ [{| location := location itor; attr_binding := wrap32 bufferIdx;
                                 format := VulkanMappings_get_type (mType it);
                                 offset := bindAccumOffset s |}])
          by (subst s1'; cbn; by rewrite ?Huv, ?Hoff, ?Hout).
        destruct Hs1 as (Huv1 & Hoff1 & Hout1). rewrite Huv1, Hoff1, Hout1 in IH.
        destruct (forEach els _ s1') as [[] s'|e s']; [|done].
        destruct IH as [-> ->]. by rewrite <- app_assoc.
      * destruct (_ || _); [done|].
        match goal with |- context [forEach els _ ?s1] =>
          specialize (IH s1); set (s1' := s1) in * end.
        assert (Hs1 : uvCount s1' = (if isUv then wrap64 (uvCount s + 1) else uvCount s) /\
                      bindAccumOffset s1'
                      = wrap32 (bindAccumOffset s + getTypeSize (mType it)) /\
                      outVertexInputs s1'
                      = outVertexInputs s
                          ++ [{| location := location itor; attr_binding := wrap32 bufferIdx;
                                 format := VulkanMappings_get_type (mType it);
                                 offset := bindAccumOffset s |}])
          by (subst s1'; cbn; by rewrite ?Huv, ?Hoff, ?Hout).
        destruct Hs1 as (Huv1 & Hoff1 & Hout1). rewrite Huv1, Hoff1, Hout1 in IH.
        destruct (forEach els _ s1') as [[] s'|e s']; [|done].
        destruct IH as [-> ->]. by rewrite <- app_assoc.
    + match goal with |- context [forEach els _ ?s1] =>
        specialize (IH s1); set (s1' := s1) in * end.
      assert (Hs1 : uvCount s1' = (if isUv then wrap64 (uvCount s + 1) else uvCount s) /\
                    bindAccumOffset s1'
                    = wrap32 (bindAccumOffset s + getTypeSize (mType it)) /\
                    outVertexInputs s1' = outVertexInputs s)
        by (subst s1'; cbn; by rewrite ?Huv, ?Hoff, ?Hout).
      destruct Hs1 as (Huv1 & Hoff1 & Hout1). rewrite Huv1, Hoff1, Hout1 in IH.
      destruct (forEach els _ s1') as [[] s'|e s']; [|done].
      destruct IH as [-> ->]. done.
Qed.

Lemma buffer_out (this : VulkanProgram) (bufferIdx : Z) (els : list VertexElement2)
    (s : PsoState) :
  match processBuffer this bufferIdx els s with
  | Returns _ s' =>
      uvCount s' = uvAfter (uvCount s) els /\
      outVertexInputs s'
      = outVertexInputs s ++ attributesOf this bufferIdx 0 (locate (uvCount s) els) /\
      outBufferBindingDescs s'
      = outBufferBindingDescs s ++ bindingOf this bufferIdx els (locate (uvCount s) els)
  | Raises _ _ => True
  end.
Proof.
  unfold processBuffer.
  unfold bind at 1. unfold modify at 1. unfold bind at 1. unfold modify at 1.
  unfold bind at 1.
  pose proof (elements_loop this bufferIdx els
                (set_bindAccumOffset 0 (set_inputRate VK_VERTEX_INPUT_RATE_MAX_ENUM s))) as H.
  pose proof (elements_out this bufferIdx els
                (set_bindAccumOffset 0 (set_inputRate VK_VERTEX_INPUT_RATE_MAX_ENUM s))) as Ho.
  cbn [uvCount set_bindAccumOffset set_inputRate numShaderInputsFound
       outBufferBindingDescs outVertexInputs bindAccumOffset inputRate_] in H, Ho.
  cbv zeta in H.
  destruct (forEach els _ _) as [[] s'|e s']; [|done].
  destruct H as (Huv & _ & Hout & _ & _ & Hfirst & _).
  destruct Ho as [Hattr Hoff].
  specialize (Hfirst eq_refl).
  unfold bind, get, when, modify, ret, bindingOf.
  destruct (consumed this (locate (uvCount s) els)) as [|it used'].
  - rewrite Hfirst. cbn. by rewrite app_nil_r.
  - rewrite bool_decide_eq_false_2 by (rewrite Hfirst; apply rateOf_not_max).
    cbn. by rewrite Hfirst, Hout, Hoff.
Qed.

Lemma buffers_out (this : VulkanProgram) (bufferIdx : Z)
    (vertexElements : list (list VertexElement2)) (s : PsoState) :
  match forEachBuffer this bufferIdx vertexElements s with
  | Returns _ s' =>
      outVertexInputs s'
      = outVertexInputs s ++ attributesOfAll this bufferIdx (uvCount s) vertexElements /\
      outBufferBindingDescs s'
      = outBufferBindingDescs s ++ bindingsOfAll this bufferIdx (uvCount s) vertexElements
  | Raises _ _ => True
  end.
Proof.
  revert bufferIdx s; induction vertexElements as [|els rest IH]; intros bufferIdx s.
  - simpl. by rewrite !app_nil_r.
  - simpl forEachBuffer. unfold bind.
    pose proof (buffer_out this bufferIdx els s) as Hb.
    destruct (processBuffer this bufferIdx els s) as [[] s1|e s1]; [|done].
    destruct Hb as (Huv & Hattr & Hbind).
    specialize (IH (bufferIdx + 1) s1). rewrite Huv, Hattr, Hbind in IH.
    destruct (forEachBuffer this (bufferIdx + 1) rest s1) as [[] s'|e s']; [|done].
    destruct IH as [-> ->]. cbn [attributesOfAll bindingsOfAll].
    by rewrite <- !app_assoc.
Qed.

(** When [getLayoutForPso] returns, it has appended to the two arrays it
    was given - it does not clear them - one attribute for every mesh
    element the shader consumes, in mesh order, bound to its buffer index at
    the byte offset of the element within its buffer; one binding for every
    buffer with a consumed element, whose stride is the byte size of all the
    elements of the buffer, consumed or not; and last the attribute and the
    binding of the draw index when the shader declares it. *)
Theorem layout_output (this : VulkanProgram)
    (vertexElements : list (list VertexElement2))
    (outBufferBindingDescs0 : list VkVertexInputBindingDescription)
    (outVertexInputs0 : list VkVertexInputAttributeDescription) (s : PsoState) :
  getLayoutForPso this vertexElements outBufferBindingDescs0 outVertexInputs0
  = Returns tt s ->
  outVertexInputs s
  = outVertexInputs0 ++ attributesOfAll this 0 0 vertexElements ++ drawIdAttribute this /\
  outBufferBindingDescs s
  = outBufferBindingDescs0 ++ bindingsOfAll this 0 0 vertexElements ++ drawIdBinding this.
Proof.
  rewrite getLayoutForPso_stages.
  match goal with |- context [forEachBuffer this 0 vertexElements ?s0] =>
    pose proof (buffers_out this 0 vertexElements s0) as Hloop end.
  cbn [uvCount outVertexInputs outBufferBindingDescs] in Hloop.
  destruct (forEachBuffer this 0 vertexElements _) as [[] s1|e s1]; [|done].
  destruct Hloop as [Hattr Hbind].
  assert (Hd : exists s2, checkDrawId this s1 = Returns tt s2 /\
             numShaderInputsFound s2
             = numShaderInputsFound s2 /\
             outVertexInputs s2 = outVertexInputs s1 ++ drawIdAttribute this /\
             outBufferBindingDescs s2 = outBufferBindingDescs s1 ++ drawIdBinding this).
  { unfold checkDrawId, drawIdAttribute, drawIdBinding, bind, modify.
    destruct (findInput this 15); eexists; (split; [reflexivity|]); cbn;
      by rewrite ?app_nil_r. }
  destruct Hd as (s2 & -> & _ & Hattr2 & Hbind2).
  destruct (_ <? _); [done|]. intros [= <-].
  by rewrite Hattr2, Hbind2, Hattr, Hbind, <- !app_assoc.
Qed.

(** ** When [getLayoutForPso] returns *)

Lemma bump_small (k : nat) (n : Z) :
  0 <= n -> n + Z.of_nat k < 2 ^ 64 -> bump k n = n + Z.of_nat k.
Proof.
  revert n; induction k as [|k IH]; intros n Hn Hk; [simpl; lia|].
  rewrite bump_succ_r.
  assert (Hw : wrap64 (n + 1) = n + 1) by (apply wrap64_small; lia).
  rewrite Hw, IH by lia. lia.
Qed.

Lemma uniformRate_rate (r : VkVertexInputRate) (it : VertexElement2) :
  0 <= mInstancingStepRate it <= 1 -> rateOf it = r ->
  (1 <? mInstancingStepRate it) = false /\
  ((mInstancingStepRate it =? 0) && negb (bool_decide (r = VK_VERTEX_INPUT_RATE_VERTEX))
   || (mInstancingStepRate it =? 1) && negb (bool_decide (r = VK_VERTEX_INPUT_RATE_INSTANCE)))
  = false.
Proof.
  intros Hr <-. split; [apply Z.ltb_ge; lia|]. unfold rateOf.
  destruct (mInstancingStepRate it =? 0) eqn:E0.
  - apply Z.eqb_eq in E0. rewrite E0. done.
  - apply Z.eqb_neq in E0. assert (E1 : mInstancingStepRate it = 1) by lia.
    rewrite E1. done.
Qed.

Lemma elements_return (this : VulkanProgram) (bufferIdx : Z) (els : list VertexElement2)
    (r : VkVertexInputRate) (s : PsoState) :
  uniformRate r (consumed this (locate (uvCount s) els)) ->
  inputRate_ s = VK_VERTEX_INPUT_RATE_MAX_ENUM \/ inputRate_ s = r ->
  exists s', forEach els (processElement this bufferIdx) s = Returns tt s'.
Proof.
  revert s; induction els as [|it els IH]; intros s Hu Hrate.
  - by eexists.
  - simpl forEach. unfold bind. rewrite processElement_cases. cbv zeta.
    rewrite locate_cons, consumed_cons in Hu.
    set (isUv := bool_decide (mSemantic it = VES_TEXTURE_COORDINATES)) in *.
    set (loc := if isUv then _ else _) in *.
    set (s0 := if isUv then set_uvCount (wrap64 (uvCount s + 1)) s else s).
    assert (Hs0 : uvCount s0 = (if isUv then wrap64 (uvCount s + 1) else uvCount s) /\
                  inputRate_ s0 = inputRate_ s)
      by (subst s0; by destruct isUv).
    destruct Hs0 as (Huv & Hr0).
    destruct (findInput this loc) as [itor|] eqn:Efind.
    + apply Forall_cons in Hu as [[Hle Hit] Hu].
      destruct (uniformRate_rate r it Hle Hit) as [-> Hmix].
      destruct (bool_decide (inputRate_ s = VK_VERTEX_INPUT_RATE_MAX_ENUM)) eqn:Emax.
      * match goal with |- context [forEach els _ ?s1] =>
          destruct (IH s1) as [s' ->] end; [by cbn; rewrite Huv|cbn; by right|by eexists].
      * apply bool_decide_eq_false in Emax. destruct Hrate as [|Hrate]; [done|].
        rewrite Hrate, Hmix.
        match goal with |- context [forEach els _ ?s1] =>
          destruct (IH s1) as [s' ->] end;
          [by cbn; rewrite Huv|cbn; right; congruence|by eexists].
    + match goal with |- context [forEach els _ ?s1] =>
        destruct (IH s1) as [s' ->] end;
        [by cbn; rewrite Huv|cbn; by rewrite Hr0|by eexists].
Qed.

Lemma buffers_return (this : VulkanProgram) (bufferIdx : Z)
    (vertexElements : list (list VertexElement2)) (s : PsoState) :
  Forall (fun located => exists r, uniformRate r (consumed this located))
         (locateAll (uvCount s) vertexElements) ->
  exists s', forEachBuffer this bufferIdx vertexElements s = Returns tt s'.
Proof.
  revert bufferIdx s; induction vertexElements as [|els rest IH]; intros bufferIdx s Hall.
  - by eexists.
  - simpl in Hall. apply Forall_cons in Hall as [[r Hr] Hall].
    simpl forEachBuffer. unfold bind.
    pose proof (buffer_step this bufferIdx els s) as Hb. cbv zeta in Hb.
    assert (Hret : exists s1, processBuffer this bufferIdx els s = Returns tt s1).
    { unfold processBuffer.
      unfold bind at 1. unfold modify at 1. unfold bind at 1. unfold modify at 1.
      unfold bind at 1.
      destruct (elements_return this bufferIdx els r
                  (set_bindAccumOffset 0 (set_inputRate VK_VERTEX_INPUT_RATE_MAX_ENUM s)))
        as [s1 ->]; [done|by left|].
      unfold bind, get, when, modify, ret. destruct (negb _); by eexists. }
    destruct Hret as [s1 Hs1]. rewrite Hs1 in Hb |- *.
    destruct Hb as (Huv & _). apply IH. by rewrite Huv.
Qed.

(** [getLayoutForPso] returns whenever the mesh is legal for the shader:
    in every buffer the consumed elements have a step rate of 0 or 1, all
    the same, and the system-generated inputs, the consumed elements and
    the draw index together are at least as many as the shader's inputs. *)
Theorem layout_returns_when_legal (this : VulkanProgram)
    (vertexElements : list (list VertexElement2))
    (outBufferBindingDescs0 : list VkVertexInputBindingDescription)
    (outVertexInputs0 : list VkVertexInputAttributeDescription) :
  0 <= mNumSystemGenVertexInputs this ->
  mNumSystemGenVertexInputs this + numConsumed this vertexElements + drawIdDeclared this
  < 2 ^ 64 ->
  Forall (fun located => exists r, uniformRate r (consumed this located))
         (locateAll 0 vertexElements) ->
  Z.of_nat (length (mVertexInputs this))
  <= mNumSystemGenVertexInputs this + numConsumed this vertexElements + drawIdDeclared this ->
  exists s,
    getLayoutForPso this vertexElements outBufferBindingDescs0 outVertexInputs0
    = Returns tt s.
Proof.
  intros Hsys Hsmall Hall Hcount. rewrite getLayoutForPso_stages.
  unfold numConsumed in *.
  match goal with |- context [forEachBuffer this 0 vertexElements ?s0] => set (s0' := s0) end.
  pose proof (buffers_loop this 0 vertexElements s0') as Hloop. cbv zeta in Hloop.
  change (uvCount s0') with 0 in Hloop.
  change (numShaderInputsFound s0') with (mNumSystemGenVertexInputs this) in Hloop.
  destruct (buffers_return this 0 vertexElements s0' Hall) as [s1 Hs1].
  rewrite Hs1 in Hloop |- *. destruct Hloop as (Hfound & _).
  destruct (checkDrawId_spec this s1) as (s2 & -> & Hfound2 & _).
  assert (Hd : 0 <= drawIdDeclared this)
    by (unfold drawIdDeclared; destruct (findInput this 15); lia).
  rewrite bump_small in Hfound by lia.
  rewrite bump_small in Hfound2 by lia.
  destruct (_ <? _) eqn:E; [apply Z.ltb_lt in E; lia|]. by eexists.
Qed.

(** ** Unloading and compiling again *)

Lemma compile_frame (checkErrors : bool) (p : VulkanProgram) :
  compileFrame (state_of (compile checkErrors p)) = compileFrame p.
Proof.
  pose proof (parse_frame (set_mCompileError false (set_mCompiled false p))) as Hfr.
  cbv [compile bind modify get when ret raise]. cbn.
  set (q := parseNumBindingsFromSource _) in *.
  injection Hfr as ?. cbn in *.
  compile_cases; use_gather_frame; unfold compileFrame; cbn; congruence.
Qed.

Lemma unloaded_program (p1 : VulkanProgram) :
  let unloaded := fst (unloadHighLevelImpl p1) in
  (mSource unloaded = mSource p1 /\ mType_ unloaded = mType_ p1 /\
   mVertexInputs unloaded = mVertexInputs p1 /\
   mNumSystemGenVertexInputs unloaded = mNumSystemGenVertexInputs p1) /\
  snd (unloadHighLevelImpl p1)
  = (if mShaderModule p1 =? 0 then [] else [mShaderModule p1]) /\
  unloadHighLevelImpl unloaded = (unloaded, []) /\
  buildConstantDefinitions unloaded = Returns tt unloaded.
Proof.
  unfold unloadHighLevelImpl, buildConstantDefinitions, bind, get, ret. cbn.
  destruct (mShaderModule p1 =? 0) eqn:E; cbn; rewrite ?E; cbn;
    by destruct (mCompileError p1).
Qed.

(** Unloading a program and compiling it again gives back what the
    compilation before had produced - the same answer or error, the same
    flags, SPIR-V, binding range table and vertex inputs.  The unloaded
    program holds no module and no SPIR-V: unloading it again changes
    nothing and destroys nothing, and building its constant definitions
    does nothing. *)
Theorem reload_round_trip (checkErrors : bool) (p : VulkanProgram) :
  let p1 := state_of (compile checkErrors p) in
  let unloaded := fst (unloadHighLevelImpl p1) in
  result_of (compile checkErrors unloaded) = result_of (compile checkErrors p) /\
  compiledView (state_of (compile checkErrors unloaded)) = compiledView p1 /\
  snd (unloadHighLevelImpl p1)
  = (if mShaderModule p1 =? 0 then [] else [mShaderModule p1]) /\
  unloadHighLevelImpl unloaded = (unloaded, []) /\
  buildConstantDefinitions unloaded = Returns tt unloaded.
Proof.
  intros p1 unloaded.
  pose proof (compile_frame checkErrors p) as Hf. fold p1 in Hf.
  pose proof (unloaded_program p1) as Hu. cbv zeta in Hu. fold unloaded in Hu.
  pose proof (compile_congr checkErrors unloaded p) as Hc.
  pose proof (compile_congr checkErrors p1 p) as Hc1.
  cbv zeta in Hc, Hc1. fold p1 in Hc, Hc1.
  clearbody p1. clearbody unloaded.
  destruct Hu as ((Hsrc & Hty & Hin & Hn) & Hsnd & Htwice & Hbuild).
  unfold compileFrame in Hf. injection Hf as _ Hsrc1 Hty1 _.
  destruct Hc as (Hres & Hcore & Hvin); [congruence..|].
  destruct Hc1 as (_ & Hcore1 & Hvin1); [congruence..|].
  split_and!; [done| |done..].
  unfold compiledView. injection Hcore as -> -> -> ->.
  destruct Hvin as [[Hv _]|Hv]; injection Hv as -> ->; by rewrite ?Hin, ?Hn.
Qed.

(** ** The logical indices of a uniform block *)

Lemma map_insert_new_present {K V : Type} `{Countable K} (k : K) (v : V) (m : gmap K V) :
  is_Some (map_insert_new k v m !! k).
Proof.
  unfold map_insert_new. destruct (m !! k) eqn:E; [by rewrite E|].
  by rewrite lookup_insert_eq.
Qed.

Lemma map_insert_new_taken {K V : Type} `{Countable K} (k : K) (v : V) (m : gmap K V) :
  is_Some (m !! k) -> map_insert_new k v m = m.
Proof. intros [x Hx]. unfold map_insert_new. by rewrite Hx. Qed.

Lemma record_same_index (k : Z) (ds : list GpuConstantDefinition)
    (m : gmap Z GpuLogicalIndexUse) :
  fold_left (fun m d => map_insert_new k (useOf d) m) ds m
  = match ds with
    | [] => m
    | d :: _ => map_insert_new k (useOf d) m
    end.
Proof.
  destruct ds as [|d ds]; [done|]. simpl.
  pose proof (map_insert_new_present k (useOf d) m) as Hp.
  generalize dependent (map_insert_new k (useOf d) m). clear d.
  induction ds as [|d ds IH]; intros m' Hp; simpl; [done|].
  rewrite map_insert_new_taken by done. by apply IH.
Qed.

Lemma processMember_lmap (prevSize : Z) (bv : SpvReflectBlockVariable) (p : VulkanProgram) :
  match memberShape bv with
  | ShapeConst t =>
      exists d p',
        processMember prevSize bv p = Returns tt p' /\
        logicalIndex d = prevSize /\
        mConstantDefsSorted p' = mConstantDefsSorted p ++ [d] /\
        forall b, lmap (logicalBuffer b p')
                  = if decide (b = bufferOf d)
                    then map_insert_new prevSize (useOf d) (lmap (logicalBuffer b p))
                    else lmap (logicalBuffer b p)
  | ShapeContinue => processMember prevSize bv p = Returns tt p
  | ShapeRaise e => processMember prevSize bv p = Raises e p
  end.
Proof.
  unfold processMember. destruct (memberShape bv) as [t| |e]; [|done..].
  match goal with |- context [placeInBuffer ?d] => set (def := d) end.
  unfold placeInBuffer, publish, bind, get, modify, when, ret.
  change (constType def) with t.
  destruct (isFloat t) eqn:Ef; [|destruct (isUnsignedInt t) eqn:Eu];
    destruct (negb (array_dims_count bv =? 0));
    (eexists (set_physicalIndex _ def), _; split; [reflexivity|]);
    cbn; (split_and!; [done..|]);
    intros []; unfold bufferOf; cbn; rewrite ?Ef, ?Eu; done.
Qed.

Lemma members_lmap (prevSize : Z) (members : list SpvReflectBlockVariable)
    (p : VulkanProgram) :
  exists ds,
    mConstantDefsSorted (state_of (forEach members (processMember prevSize) p))
    = mConstantDefsSorted p ++ ds /\
    Forall (fun d => logicalIndex d = prevSize) ds /\
    forall b,
      lmap (logicalBuffer b (state_of (forEach members (processMember prevSize) p)))
      = fold_left (fun m d => map_insert_new prevSize (useOf d) m) (inBuffer b ds)
                  (lmap (logicalBuffer b p)).
Proof.
  revert p; induction members as [|bv members IH]; intros p.
  - exists []. simpl. by rewrite app_nil_r.
  - simpl forEach. unfold bind.
    pose proof (processMember_lmap prevSize bv p) as H.
    destruct (memberShape bv) as [t| |e].
    + destruct H as (d & p1 & -> & Hd & Hs & Hl).
      destruct (IH p1) as (ds & Hs' & Hds & Hl').
      exists (d :: ds). split_and!.
      * by rewrite Hs', Hs, <- app_assoc.
      * by constructor.
      * intros b. rewrite Hl', Hl. unfold inBuffer. rewrite filter_cons.
        destruct (decide (b = bufferOf d)) as [->|Hne].
        -- by rewrite decide_True.
        -- by rewrite decide_False by congruence.
    + rewrite H. apply IH.
    + rewrite H. exists []. simpl. by rewrite app_nil_r.
Qed.

(** The members of a uniform block all get the running offset of the set
    as their logical index, so each parameter buffer's logical-to-physical
    map records the block once - under that index, with the physical index
    and the size of the first member that goes to the buffer - and records
    nothing when the index is already taken. *)
Theorem block_recorded_once (prevSize : Z) (reflBinding : SpvReflectDescriptorBinding)
    (p : VulkanProgram) (b : ParamBuffer) :
  binding reflBinding = OGRE_VULKAN_PARAMETER_SLOT ->
  descriptor_type reflBinding = VK_DESCRIPTOR_TYPE_UNIFORM_BUFFER ->
  let p' := state_of (processBinding prevSize reflBinding p) in
  let ds := inBuffer b (drop (length (mConstantDefsSorted p)) (mConstantDefsSorted p')) in
  Forall (fun d => logicalIndex d = prevSize) ds /\
  lmap (logicalBuffer b p')
  = match ds with
    | [] => lmap (logicalBuffer b p)
    | d :: _ => map_insert_new prevSize (useOf d) (lmap (logicalBuffer b p))
    end.
Proof.
  intros Hslot Hty p' ds. subst p' ds.
  rewrite processBinding_uniform by done.
  assert (Heq : state_of (processUniformBuffer prevSize reflBinding p)
                = match forEach (block_members reflBinding) (processMember prevSize) p with
                  | Returns _ s' =>
                      recordBindingParam (binding reflBinding)
                        {| bp_offset := block_offset reflBinding;
                           bp_size := block_size reflBinding |} s'
                  | Raises _ s' => s'
                  end).
  { unfold processUniformBuffer, bind, get, modify, ret.
    by destruct (forEach (block_members reflBinding) (processMember prevSize) p). }
  rewrite Heq. clear Heq.
  destruct (members_lmap prevSize (block_members reflBinding) p) as (ds & Hs & Hds & Hl).
  specialize (Hl b).
  assert (Hrec : forall k v p1,
             mConstantDefsSorted (recordBindingParam k v p1) = mConstantDefsSorted p1 /\
             logicalBuffer b (recordBindingParam k v p1) = logicalBuffer b p1)
    by (intros; by destruct b).
  destruct (forEach (block_members reflBinding) (processMember prevSize) p)
    as [[] p1|e p1]; cbn [state_of] in *.
  - destruct (Hrec (binding reflBinding)
                {| bp_offset := block_offset reflBinding;
                   bp_size := block_size reflBinding |} p1) as [-> ->].
    rewrite Hs, drop_app_length, Hl, record_same_index.
    split; [|done]. unfold inBuffer. rewrite Forall_forall in Hds |- *.
    intros d Hd. apply list_elem_of_filter in Hd as [_ Hd]. by apply Hds.
  - rewrite Hs, drop_app_length, Hl, record_same_index.
    split; [|done]. unfold inBuffer. rewrite Forall_forall in Hds |- *.
    intros d Hd. apply list_elem_of_filter in Hd as [_ Hd]. by apply Hds.
Qed.

End Properties.

(** * The statements at concrete inputs *)

(** ** The binding range table *)

Lemma binding_range_cells_witness :
  0 <= 3 < 65535 /\
  VulkanDescBindingRange.start (VulkanDescBindingRange.merge 3 VulkanDescBindingRange.ctor) <= 3
  < VulkanDescBindingRange.end_ (VulkanDescBindingRange.merge 3 VulkanDescBindingRange.ctor).
Proof.
  split; [lia|].
  apply (proj1 (@binding_range_cells (sampleCollaborators ([], []))
                  (newProgram "p" sampleSource GPT_VERTEX_PROGRAM) 3
                  VulkanDescBindingRange.ctor)).
  lia.
Defined.

(** A cell of the table as the reset loop leaves it has start = 65535 and
    end = 0: start <= end does not hold for it. *)
Lemma untouched_cell_start_gt_end :
  mDescBindingRanges
    (parseNumBindingsFromSource (ext := sampleCollaborators ([], []))
       (newProgram "p" sampleSource GPT_VERTEX_PROGRAM)) !! 0%nat ≫= (.!! 6%nat)
  = Some VulkanDescBindingRange.ctor /\
  ~ (VulkanDescBindingRange.start VulkanDescBindingRange.ctor
     <= VulkanDescBindingRange.end_ VulkanDescBindingRange.ctor).
Proof. split; [by vm_compute|]. by vm_compute. Qed.

(** ** The annotation scan *)

Lemma parse_stops_at_out_of_range_set_witness :
  let p := newProgram "p" sourceSet8SecondLine GPT_VERTEX_PROGRAM in
  size (mSource p) < npos /\
  setIndexAt (mSource p) 60 = Some 8 /\
  mCompileError (parseNumBindingsFromSource (ext := sampleCollaborators ([], [])) p) = true /\
  mDescBindingRanges (parseNumBindingsFromSource (ext := sampleCollaborators ([], [])) p)
  = mergeAt 0 6 (wrap16 0) (freshBindingRanges (ext := sampleCollaborators ([], []))).
Proof.
  intros p.
  assert (Hs : Scanned (ext := sampleCollaborators ([], [])) (mSource p) 60
                 (mergeAt 0 6 (wrap16 0)
                    (freshBindingRanges (ext := sampleCollaborators ([], []))))).
  { apply (Scanned_next (ext := sampleCollaborators ([], [])) (mSource p) 8 _ 0 6 0 60).
    - exact (Scanned_first (ext := sampleCollaborators ([], [])) (mSource p)).
    - by vm_compute.
    - by vm_compute. }
  destruct (@parse_stops_at_out_of_range_set (sampleCollaborators ([], [])) p 60 8 _
              ltac:(by vm_compute) Hs ltac:(by vm_compute) ltac:(by vm_compute)
              ltac:(by vm_compute)) as (_ & He & _ & Ht).
  split; [by vm_compute|]. split; [by vm_compute|]. split; [exact He|exact Ht].
Defined.

(** A source holding an annotation for set 8 (the maximum being 4) that is
    parsed without any error: the annotation shares its line with an
    accepted one, and the search resumes after that line. *)
Lemma set8_on_same_line_not_diagnosed :
  let p := parseNumBindingsFromSource (ext := sampleCollaborators ([], []))
             (newProgram "p" sourceSet8SameLine GPT_VERTEX_PROGRAM) in
  substr sourceSet8SameLine 60 9 = "ogre_set8"%string /\
  setIndexAt sourceSet8SameLine 60 = Some 8 /\
  OGRE_VULKAN_MAX_NUM_BOUND_DESCRIPTOR_SETS (Collaborators := sampleCollaborators ([], [])) = 4 /\
  mCompileError p = false /\ logMessages p = [].
Proof. by vm_compute. Qed.

(** After a failure on the second line the range merged from the first line
    is still in the table. *)
Example set8_on_second_line_keeps_ranges :
  let p := parseNumBindingsFromSource (ext := sampleCollaborators ([], []))
             (newProgram "p" sourceSet8SecondLine GPT_VERTEX_PROGRAM) in
  mCompileError p = true /\
  mDescBindingRanges p !! 0%nat ≫= (.!! 6%nat)
  = Some {| VulkanDescBindingRange.start := 0; VulkanDescBindingRange.end_ := 1 |}.
Proof. by vm_compute. Qed.

(** The annotation of the specification's example alone leaves the table
    as reset. *)
Example set8_only_leaves_table_reset :
  let p := parseNumBindingsFromSource (ext := sampleCollaborators ([], []))
             (newProgram "p" sourceSet8Only GPT_VERTEX_PROGRAM) in
  mCompileError p = true /\
  mDescBindingRanges p = freshBindingRanges (ext := sampleCollaborators ([], [])).
Proof. by vm_compute. Qed.

(** ** Compilation *)

Lemma compile_shader_module_witness :
  let o := compile (ext := sampleCollaborators ([], [])) true
             (newProgram "p" EmptyString GPT_VERTEX_PROGRAM) in
  mSpirv (state_of o) = [] /\ mCompileError (state_of o) = false /\
  result_of o = inl true.
Proof.
  intros o. split; [by vm_compute|]. split; [by vm_compute|].
  apply (@compile_shader_module (sampleCollaborators ([], [])) true
           (newProgram "p" EmptyString GPT_VERTEX_PROGRAM)); by vm_compute.
Defined.

(** A compilation whose SPIR-V has zero length: no module is created, and
    [compile] reports success. *)
Lemma empty_spirv_reported_as_success :
  let o := compile (ext := sampleCollaborators ([], [])) true
             (newProgram "p" EmptyString GPT_VERTEX_PROGRAM) in
  mSpirv (state_of o) = [] /\
  vkCreateShaderModuleCalls (state_of o) = [] /\
  mShaderModule (state_of o) = 0 /\
  o = Returns true (state_of o).
Proof. by vm_compute. Qed.

(** Compiling and reflecting the same program twice: the SPIR-V is the
    same, the list of constant definitions is not - the second reflection
    appends the definitions again, at later physical offsets and, the binding
    index being recorded by then, without the padding before the sampler. *)
Lemma reflecting_twice_appends_again :
  let run := fun p =>
    state_of ((compile (ext := sampleCollaborators blockAndSampler) true ;;;
               buildConstantDefinitions (ext := sampleCollaborators blockAndSampler)) p) in
  let p1 := run (newProgram "p" sampleSource GPT_VERTEX_PROGRAM) in
  let p2 := run p1 in
  mSpirv p2 = mSpirv p1 /\
  mConstantDefsSorted p1
  = [ mkDef GCT_FLOAT4 0 0 4 1 GPV_GLOBAL; mkDef GCT_SAMPLER2D 0 16 1 1 GPV_GLOBAL ] /\
  mConstantDefsSorted p2
  = [ mkDef GCT_FLOAT4 0 0 4 1 GPV_GLOBAL; mkDef GCT_SAMPLER2D 0 16 1 1 GPV_GLOBAL;
      mkDef GCT_FLOAT4 4 0 4 1 GPV_GLOBAL; mkDef GCT_SAMPLER2D 1 0 1 1 GPV_GLOBAL ] /\
  mConstantDefsSorted p2 <> mConstantDefsSorted p1.
Proof. by vm_compute. Qed.

(** ** Constant definitions *)

Lemma padding_on_first_sighting_witness :
  exists p',
    processBinding (ext := sampleCollaborators ([], [])) 0
      (uniformBlock 16 [memberVec4 "a"]) (newProgram "p" sampleSource GPT_VERTEX_PROGRAM)
    = Returns 16 p' /\
    is_Some (mConstantDefsBindingParams p' !! 0).
Proof.
  destruct (@padding_on_first_sighting (sampleCollaborators ([], [])) 0
              (uniformBlock 16 [memberVec4 "a"])
              (newProgram "p" sampleSource GPT_VERTEX_PROGRAM))
    as (p' & E & _ & Hs); [reflexivity|reflexivity|repeat constructor|].
  exists p'. split; [exact E|exact Hs].
Defined.

(** The first uniform block seen at the parameter slot does add its padded
    size (16) to the running offset; the second one, a repeat sighting of the
    binding index, adds nothing. *)
Lemma padding_not_on_repeat_sighting :
  let p0 := newProgram "p" sampleSource GPT_VERTEX_PROGRAM in
  let o1 := processBinding (ext := sampleCollaborators ([], [])) 0 (uniformBlock 16 []) p0 in
  let o2 := processBinding (ext := sampleCollaborators ([], [])) 16 (uniformBlock 32 [])
              (state_of o1) in
  mConstantDefsBindingParams p0 !! 0 = None /\ result_of o1 = inl 16 /\
  is_Some (mConstantDefsBindingParams (state_of o1) !! 0) /\ result_of o2 = inl 16.
Proof. split_and!; try by vm_compute. by eexists. Qed.

Lemma physical_offsets_in_order_witness :
  let p := state_of (compile (ext := sampleCollaborators blockOfTwo) true
                       (newProgram "p" sampleSource GPT_VERTEX_PROGRAM)) in
  let p' := state_of (buildConstantDefinitions (ext := sampleCollaborators blockOfTwo) p) in
  runningSize FloatBuffer p' = 8 /\
  mConstantDefsSorted p'
  = [ mkDef GCT_FLOAT4 0 0 4 1 GPV_GLOBAL; mkDef GCT_FLOAT4 4 0 4 1 GPV_GLOBAL ].
Proof.
  intros p p'.
  destruct (@physical_offsets_in_order (sampleCollaborators blockOfTwo) p FloatBuffer)
    as (Happ & _ & Hsize & _).
  - by vm_compute.
  - vm_compute. repeat constructor; by intros.
  - by vm_compute.
  - split; [exact Hsize|exact Happ].
Defined.

Lemma uniform_block_members_witness :
  exists ds prevSize' p',
    processBinding (ext := sampleCollaborators ([], [])) 0
      (uniformBlock 32 [memberVec4 "a"; memberStruct "s"; memberVec4 "b"])
      (newProgram "p" sampleSource GPT_VERTEX_PROGRAM)
    = Returns prevSize' p' /\
    mConstantDefsSorted p' = ds /\ length ds = 2%nat.
Proof.
  destruct (proj1 (@uniform_block_members (sampleCollaborators ([], [])) 0
              (uniformBlock 32 [memberVec4 "a"; memberStruct "s"; memberVec4 "b"])
              (newProgram "p" sampleSource GPT_VERTEX_PROGRAM) eq_refl eq_refl))
    as (ds & prevSize' & p' & E & Hs & HF); [repeat constructor|].
  exists ds, prevSize', p'. split; [exact E|]. split; [exact Hs|].
  apply Forall2_length in HF. rewrite <- HF. reflexivity.
Defined.

(** A block of two members, one of them a struct: one definition, not two. *)
Lemma struct_member_gets_no_definition :
  let p := state_of (compile (ext := sampleCollaborators blockWithStruct) true
                       (newProgram "p" sampleSource GPT_VERTEX_PROGRAM)) in
  let o := buildConstantDefinitions (ext := sampleCollaborators blockWithStruct) p in
  result_of o = inl tt /\
  mConstantDefsSorted (state_of o) = [ mkDef GCT_FLOAT4 0 0 4 1 GPV_GLOBAL ].
Proof. by vm_compute. Qed.

Lemma buildConstantDefinitions_skips_witness :
  let p := newProgram "p" sampleSource GPT_VERTEX_PROGRAM in
  (mCompileError p = true \/ mSpirv p = []) /\
  buildConstantDefinitions (ext := sampleCollaborators blockAndSampler) p = Returns tt p.
Proof.
  intros p. split; [by right|].
  apply (@buildConstantDefinitions_skips (sampleCollaborators blockAndSampler) p).
  by right.
Defined.

(** ** Vertex-input matching *)

Lemma missing_attribute_is_fatal_witness :
  0 <= mNumSystemGenVertexInputs (shaderWithInputs [0; 1]) /\
  raised (getLayoutForPso (ext := sampleCollaborators ([], [])) (shaderWithInputs [0; 1])
            [[element 0 0]] [] []) = true.
Proof.
  split; [by vm_compute|].
  apply (@missing_attribute_is_fatal (sampleCollaborators ([], [])) (shaderWithInputs [0; 1])
           [[element 0 0]] [] []); by vm_compute.
Defined.

Lemma rate_checks_on_consumed_elements_witness :
  raised (getLayoutForPso (ext := sampleCollaborators ([], [])) (shaderWithInputs [0; 1])
            [[element 0 0; element 1 1]] [] []) = true.
Proof.
  refine (proj1 (proj2 (@rate_checks_on_consumed_elements (sampleCollaborators ([], []))
            (shaderWithInputs [0; 1]) [[element 0 0; element 1 1]] [] [] 0%nat
            [(element 0 0, 0); (element 1 1, 1)] _)) _ _).
  - by vm_compute.
  - vm_compute. left. reflexivity.
  - vm_compute. right. left. reflexivity.
Defined.

(** A buffer with an element of instancing step rate 2 and with elements of
    both rates: the shader consumes only the first element, and the call
    returns without any error. *)
Lemma unconsumed_elements_are_not_checked :
  getLayoutForPso (ext := sampleCollaborators ([], [])) (shaderWithInputs [0])
    [[element 0 0; element 5 1; element 6 2]] [] []
  = Returns tt
      {| outBufferBindingDescs :=
           [ {| desc_binding := 0; stride := 48;
                inputRate := VK_VERTEX_INPUT_RATE_VERTEX |} ];
         outVertexInputs :=
           [ {| location := 0; attr_binding := 0; format := 0; offset := 0 |} ];
         numShaderInputsFound := 1; uvCount := 0;
         inputRate_ := VK_VERTEX_INPUT_RATE_VERTEX; bindAccumOffset := 48 |}.
Proof. by vm_compute. Qed.

(** ** Further statements at concrete inputs *)

Lemma scanned_table_order_irrelevant_witness :
  let p := newProgram "p" sourceTwoAnnotations GPT_VERTEX_PROGRAM in
  mDescBindingRanges (parseNumBindingsFromSource (ext := sampleCollaborators ([], [])) p)
  = tableOf (ext := sampleCollaborators ([], [])) [(0, 6, 0); (1, 2, 3); (0, 6, 0)].
Proof.
  intros p.
  apply (@scanned_table_order_irrelevant (sampleCollaborators ([], [])) p npos
           [(1, 2, 3); (0, 6, 0)]).
  - by vm_compute.
  - apply (ScannedSlots_next (ext := sampleCollaborators ([], [])) (mSource p) 60
             [(0, 6, 0)] 1 2 3 npos).
    + apply (ScannedSlots_next (ext := sampleCollaborators ([], [])) (mSource p) 8
               [] 0 6 0 60).
      * exact (ScannedSlots_first (ext := sampleCollaborators ([], [])) (mSource p)).
      * by vm_compute.
      * by vm_compute.
    + by vm_compute.
    + by vm_compute.
  - by left.
  - intros slot. rewrite !elem_of_cons, !elem_of_nil. tauto.
Defined.

(** Numbers that do not fit [int] are narrowed before the range tests: set
    4294967296 is accepted as set 0 and slot 4294967297 as slot 1, without
    any diagnostic; a number beyond [long] saturates, reads as -1 and is
    rejected. *)
Example numbers_beyond_int_are_narrowed :
  annotationAt (ext := sampleCollaborators ([], [])) sourceSetBeyondInt 8
  = Accepted 0 6 0 npos /\
  annotationAt (ext := sampleCollaborators ([], [])) sourceSlotBeyondInt 8
  = Accepted 0 6 1 npos /\
  mCompileError (parseNumBindingsFromSource (ext := sampleCollaborators ([], []))
                   (newProgram "p" sourceSetBeyondInt GPT_VERTEX_PROGRAM)) = false /\
  annotationAt (ext := sampleCollaborators ([], [])) sourceSetBeyondLong 8
  = Rejected [LogSetOutOfRange (near sourceSetBeyondLong 8)].
Proof. by vm_compute. Qed.

Lemma accepted_annotation_in_range_witness :
  annotationAt (ext := sampleCollaborators ([], [])) sourceOneAnnotation 8
  = Accepted 1 2 3 npos /\
  0 <= 1 < OGRE_VULKAN_MAX_NUM_BOUND_DESCRIPTOR_SETS (Collaborators := sampleCollaborators ([], [])) /\
  0 <= 2 < NumDescBindingTypes /\
  0 <= 3 < 65535.
Proof.
  split; [by vm_compute|].
  apply (@accepted_annotation_in_range (sampleCollaborators ([], []))
           sourceOneAnnotation 8 1 2 3 npos).
  by vm_compute.
Defined.

Lemma parse_stops_at_rejected_witness :
  let p := newProgram "p" sourceSet8SecondLine GPT_VERTEX_PROGRAM in
  let p' := parseNumBindingsFromSource (ext := sampleCollaborators ([], [])) p in
  mCompileError p' = true /\
  logMessages p' = [LogSetOutOfRange (near sourceSet8SecondLine 60)] /\
  mDescBindingRanges p'
  = mergeAt 0 6 (wrap16 0) (freshBindingRanges (ext := sampleCollaborators ([], []))).
Proof.
  intros p p'.
  assert (Hs : Scanned (ext := sampleCollaborators ([], [])) (mSource p) 60
                 (mergeAt 0 6 (wrap16 0)
                    (freshBindingRanges (ext := sampleCollaborators ([], []))))).
  { apply (Scanned_next (ext := sampleCollaborators ([], [])) (mSource p) 8 _ 0 6 0 60).
    - exact (Scanned_first (ext := sampleCollaborators ([], [])) (mSource p)).
    - by vm_compute.
    - by vm_compute. }
  destruct (@parse_stops_at_rejected (sampleCollaborators ([], [])) p 60 _
              [LogSetOutOfRange (near sourceSet8SecondLine 60)]
              ltac:(by vm_compute) Hs ltac:(by vm_compute) ltac:(by vm_compute))
    as (He & Hl & _ & Ht).
  split; [exact He|]. split; [exact Hl|exact Ht].
Defined.

Lemma parse_clean_scan_witness :
  let p := newProgram "p" sourceOneAnnotation GPT_VERTEX_PROGRAM in
  parseNumBindingsFromSource (ext := sampleCollaborators ([], [])) p
  = set_mDescBindingRanges
      (mergeAt 1 2 (wrap16 3) (freshBindingRanges (ext := sampleCollaborators ([], [])))) p.
Proof.
  intros p.
  apply (@parse_clean_scan (sampleCollaborators ([], [])) p); [by vm_compute|].
  apply (Scanned_next (ext := sampleCollaborators ([], [])) (mSource p) 8 _ 1 2 3 npos).
  - exact (Scanned_first (ext := sampleCollaborators ([], [])) (mSource p)).
  - by vm_compute.
  - by vm_compute.
Defined.

Lemma accepted_slot_covered_witness :
  let p := newProgram "p" sourceSet8SecondLine GPT_VERTEX_PROGRAM in
  covers (mDescBindingRanges (parseNumBindingsFromSource (ext := sampleCollaborators ([], [])) p))
         0 6 0.
Proof.
  intros p.
  apply (@accepted_slot_covered (sampleCollaborators ([], [])) p 8 0 6 0 60
           (freshBindingRanges (ext := sampleCollaborators ([], [])))).
  - by vm_compute.
  - exact (Scanned_first (ext := sampleCollaborators ([], [])) (mSource p)).
  - by vm_compute.
  - by vm_compute.
Defined.

Lemma excerpt_length_witness :
  size sourceSet8Only = 52 /\
  size (near sourceSet8Only 8) = Z.min (8 + 64) (size sourceSet8Only - 8).
Proof.
  split; [by vm_compute|].
  apply (excerpt_length sourceSet8Only 8); by vm_compute.
Defined.

(** ** Vertex inputs and compilation *)

Lemma gathered_inputs_sorted_witness :
  exists p',
    gatherVertexInputs (ext := sampleCollaborators threeInputs) threeInputs
      (newProgram "p" sampleSource GPT_VERTEX_PROGRAM) = Returns tt p' /\
    mNumSystemGenVertexInputs p' = 1.
Proof.
  destruct (@gathered_inputs_sorted (sampleCollaborators threeInputs) threeInputs
              (newProgram "p" sampleSource GPT_VERTEX_PROGRAM))
    as (p' & E & _ & _ & Hn & _); [by vm_compute..|].
  exists p'. split; [exact E|exact Hn].
Defined.

Lemma findInput_finds_declared_location_witness :
  match findInput (shaderWithInputs [0; 1]) 1 with
  | Some a => a ∈ mVertexInputs (shaderWithInputs [0; 1]) /\ location a = 1
  | None => forall a, a ∈ mVertexInputs (shaderWithInputs [0; 1]) -> location a <> 1
  end.
Proof.
  apply (findInput_finds_declared_location (shaderWithInputs [0; 1]) 1).
  - cbn. split; [|split; [|done]].
    + constructor; [cbn; lia|constructor].
    + constructor.
  - cbn. constructor; [cbn; lia|]. constructor; [cbn; lia|]. constructor.
  - lia.
Defined.

Lemma checked_compile_returns_true_witness :
  let o := compile (ext := sampleCollaborators threeInputs) true
             (newProgram "p" sampleSource GPT_VERTEX_PROGRAM) in
  o = Returns true (state_of o) /\ mCompiled (state_of o) = true.
Proof.
  intros o. split; [by vm_compute|].
  apply (proj1 (@checked_compile_returns_true (sampleCollaborators threeInputs)
                  (newProgram "p" sampleSource GPT_VERTEX_PROGRAM)) true (state_of o)).
  by vm_compute.
Defined.

Lemma compiled_inputs_sorted_witness :
  let o := compile (ext := sampleCollaborators threeInputs) true
             (newProgram "p" sampleSource GPT_VERTEX_PROGRAM) in
  ascending (mVertexInputs (state_of o)) /\
  map location (mVertexInputs (state_of o)) = [0; 1; uint32_max].
Proof.
  intros o.
  destruct (@compiled_inputs_sorted (sampleCollaborators threeInputs) true true
              (newProgram "p" sampleSource GPT_VERTEX_PROGRAM) (state_of o))
    as (m & _ & Ha & _); [by vm_compute..|].
  split; [exact Ha|by vm_compute].
Defined.

Lemma failed_compile_keeps_inputs_witness :
  let p := set_mVertexInputs [ {| location := 3; attr_binding := 0; format := 0; offset := 0 |} ]
             (newProgram "p" EmptyString GPT_VERTEX_PROGRAM) in
  let p' := state_of (compile (ext := sampleCollaborators threeInputs) true p) in
  mSpirv p' = [] /\
  mVertexInputs p' = mVertexInputs p /\
  mNumSystemGenVertexInputs p' = mNumSystemGenVertexInputs p.
Proof.
  intros p p'. split; [by vm_compute|].
  apply (@failed_compile_keeps_inputs (sampleCollaborators threeInputs) true p).
  by vm_compute.
Defined.

(** ** Constant definitions *)

Lemma buffer_sizes_mirrored_witness :
  let p := state_of (compile (ext := sampleCollaborators blockAndSampler) true
                       (newProgram "p" sampleSource GPT_VERTEX_PROGRAM)) in
  let p' := state_of (buildConstantDefinitions (ext := sampleCollaborators blockAndSampler) p) in
  floatBufferSize (mConstantDefs p') = 4 /\ sizesMirrored p'.
Proof.
  intros p p'. split; [by vm_compute|].
  apply (@buffer_sizes_mirrored (sampleCollaborators blockAndSampler) p).
  - intros varName def c. by vm_compute.
  - by vm_compute.
Defined.

Lemma off_slot_bindings_ignored_witness :
  let p := state_of (compile (ext := sampleCollaborators samplerOffSlot) true
                       (newProgram "p" sampleSource GPT_VERTEX_PROGRAM)) in
  mSpirv p <> [] /\
  state_of (buildConstantDefinitions (ext := sampleCollaborators samplerOffSlot) p) = p.
Proof.
  intros p. split; [by vm_compute|].
  apply (@off_slot_bindings_ignored (sampleCollaborators samplerOffSlot) p).
  vm_compute. repeat constructor; discriminate.
Defined.

Lemma other_binding_definition_witness :
  exists d p',
    processBinding (ext := sampleCollaborators ([], [])) 16 unnamedTexelBuffer
      (newProgram "p" sampleSource GPT_VERTEX_PROGRAM) = Returns 17 p' /\
    constType d = GCT_SAMPLER1D /\ logicalIndex d = 16 /\
    is_Some (cmap (mConstantDefs p') !! "samplerBuffer"%string).
Proof.
  destruct (@other_binding_definition (sampleCollaborators ([], [])) 16 unnamedTexelBuffer
              (newProgram "p" sampleSource GPT_VERTEX_PROGRAM))
    as (d & p' & E & _ & Hl & _ & _ & _ & _ & Ht & _ & Hn & _);
    [reflexivity|discriminate|].
  exists d, p'. split; [exact E|]. split; [by apply Ht|]. split; [exact Hl|exact Hn].
Defined.

Lemma block_recorded_once_witness :
  let p := newProgram "p" sampleSource GPT_VERTEX_PROGRAM in
  let p' := state_of (processBinding (ext := sampleCollaborators ([], [])) 0
                        (uniformBlock 32 [memberVec4 "a"; memberVec4 "b"]) p) in
  mConstantDefsSorted p'
  = [ mkDef GCT_FLOAT4 0 0 4 1 GPV_GLOBAL; mkDef GCT_FLOAT4 4 0 4 1 GPV_GLOBAL ] /\
  lmap (logicalBuffer FloatBuffer p')
  = map_insert_new 0 (useOf (mkDef GCT_FLOAT4 0 0 4 1 GPV_GLOBAL)) ∅.
Proof.
  intros p p'. split; [by vm_compute|].
  exact (proj2 (@block_recorded_once (sampleCollaborators ([], [])) 0
                  (uniformBlock 32 [memberVec4 "a"; memberVec4 "b"]) p FloatBuffer
                  eq_refl eq_refl)).
Defined.

(** ** The vertex layout *)

Lemma layout_output_witness :
  let this := shaderWithInputs [0] in
  let mesh := [[element 0 0; element 5 1; element 6 2]] in
  let o := getLayoutForPso (ext := sampleCollaborators ([], [])) this mesh [] [] in
  o = Returns tt (state_of o) /\
  outVertexInputs (state_of o)
  = [ {| location := 0; attr_binding := 0; format := 0; offset := 0 |} ] /\
  outBufferBindingDescs (state_of o)
  = [ {| desc_binding := 0; stride := 48; inputRate := VK_VERTEX_INPUT_RATE_VERTEX |} ].
Proof.
  intros this mesh o.
  assert (Ho : o = Returns tt (state_of o)) by (by vm_compute).
  split; [exact Ho|].
  exact (@layout_output (sampleCollaborators ([], [])) this mesh [] [] (state_of o) Ho).
Defined.

Lemma layout_returns_when_legal_witness :
  exists s,
    getLayoutForPso (ext := sampleCollaborators ([], [])) (shaderWithInputs [0])
      [[element 0 0; element 5 1; element 6 2]] [] [] = Returns tt s.
Proof.
  apply (@layout_returns_when_legal (sampleCollaborators ([], [])) (shaderWithInputs [0])
           [[element 0 0; element 5 1; element 6 2]] [] []).
  - by vm_compute.
  - by vm_compute.
  - constructor; [|constructor]. exists VK_VERTEX_INPUT_RATE_VERTEX.
    constructor; [|constructor]. split; [cbn; lia|reflexivity].
  - by vm_compute.
Defined.
